(** * cryptofiend: the exchange abstraction core

    A shallow embedding of the exchange drivers of cryptofiend
    (Binance, Liqui, Gemini, Kraken wrappers) and the properties their
    specification states about them: order-ID parsing on cancel, the
    limits accessors, the order-status normaliser, the get-or-update
    orderbook pattern, the nonce sequencing of signed requests, the
    credentials check, rate-limit fallback in [GetOrders], the session
    registry and the display of currency pairs.

    Conventions.  Go's [int64] and [int32] are [Z]; where the code can
    wrap, the wrap-around is written out ([Go.int64]).  A Go [string] is
    a [string] (a sequence of bytes).  A Go [error] is [option error]
    with [None] for [nil].  A function that can [panic] returns an
    [outcome].  Go maps are stdpp's [gmap]; a pointer stored in a map is
    modelled by what it points to, or by a location into an explicit
    heap where the code shares the object. *)

From Stdlib Require Import ZArith QArith List Ascii String Bool Lia.
From Stdlib Require Import DecimalString DecimalPos DecimalZ.
From stdpp Require Import gmap strings list fin_maps sorting.

Open Scope string_scope.
Open Scope Z_scope.

(** ** Go: the parts of the language and of its standard library the drivers use *)

Module Go.

Definition MaxInt64 : Z := 9223372036854775807.
Definition MinInt64 : Z := -9223372036854775808.
Definition MaxUint64 : Z := 18446744073709551615.

(** Two's-complement truncation of an integer to [int64]. *)
Definition int64 (z : Z) : Z := (z + 2 ^ 63) mod 2 ^ 64 - 2 ^ 63.

(** Truncation to [uint64]. *)
Definition uint64 (z : Z) : Z := z mod 2 ^ 64.

(** [strconv.ErrSyntax] and [strconv.ErrRange]. *)
Inductive numErr : Type := ErrSyntax | ErrRange.

(** Go error values.  [WarningHTTPRequestRateLimited] is the value the
    function of that name in package [exchange] returns: one value,
    compared with [==].  [ExternalError] stands for every error produced
    outside the drivers (transport, JSON, exchange payloads). *)
Inductive error : Type :=
| NumError (Func Num : string) (Err : numErr)
| WarningHTTPRequestRateLimited
| WarningAuthenticatedRequestWithoutCredentialsSet (exchName : string)
| errorsNew (text : string)
| ExternalError (text : string).

#[global] Instance numErr_eq_dec : EqDecision numErr.
Proof. solve_decision. Defined.

#[global] Instance error_eq_dec : EqDecision error.
Proof. solve_decision. Defined.

(** A call either returns or panics. *)
Inductive outcome (A : Type) : Type :=
| Returned (a : A)
| Panicked (msg : string).
Arguments Returned {A} a.
Arguments Panicked {A} msg.

(** Stateful code: a function from the state before to the outcome and
    the state after. *)
Definition M (S A : Type) : Type := S → outcome A * S.

Definition ret {S A} (a : A) : M S A := λ s, (Returned a, s).
Definition bind {S A B} (m : M S A) (f : A → M S B) : M S B :=
  λ s, match m s with
       | (Returned a, s') => f a s'
       | (Panicked msg, s') => (Panicked msg, s')
       end.
Definition panic {S A} (msg : string) : M S A := λ s, (Panicked msg, s).
Definition get {S} : M S S := λ s, (Returned s, s).
Definition put {S} (s : S) : M S unit := λ _, (Returned tt, s).
Definition modify {S} (f : S → S) : M S unit := λ s, (Returned tt, f s).

#[global] Instance M_ret S : MRet (M S) := λ A, @ret S A.
#[global] Instance M_bind S : MBind (M S) := λ A B f m, bind m f.

(** *** strconv.ParseInt(s, 10, 64) *)

Definition isDigit (c : ascii) : bool :=
  (48 <=? nat_of_ascii c)%nat && (nat_of_ascii c <=? 57)%nat.

Definition digitVal (c : ascii) : Z := Z.of_nat (nat_of_ascii c) - 48.

(** The digit loop of [strconv.ParseUint] for base 10 and 64 bits.  The
    base is given, so an underscore is a syntax error like any other
    byte that is not a digit; the range error is returned at the digit
    that overflows, before the rest of the string is looked at. *)
Fixpoint parseUintLoop (cs : list ascii) (n : Z) : Z * option numErr :=
  match cs with
  | [] => (n, None)
  | c :: cs' =>
      if negb (isDigit c) then (0, Some ErrSyntax)
      else if MaxUint64 / 10 + 1 <=? n then (MaxUint64, Some ErrRange)
      else
        let n10 := n * 10 in
        let n1 := uint64 (n10 + digitVal c) in
        if (n1 <? n10) || (MaxUint64 <? n1) then (MaxUint64, Some ErrRange)
        else parseUintLoop cs' n1
  end.

Definition ParseUint (s : string) : Z * option numErr :=
  match list_ascii_of_string s with
  | [] => (0, Some ErrSyntax)
  | cs => parseUintLoop cs 0
  end.

Definition ParseInt (s : string) : Z * option error :=
  match s with
  | EmptyString => (0, Some (NumError "ParseInt" s ErrSyntax))
  | String c rest =>
      let neg := Ascii.eqb c "-" in
      let s1 := if Ascii.eqb c "+" || neg then rest else s in
      match ParseUint s1 with
      | (_, Some ErrSyntax) => (0, Some (NumError "ParseInt" s ErrSyntax))
      | (un, _) =>
          let cutoff := 2 ^ 63 in
          if negb neg && (cutoff <=? un) then
            (cutoff - 1, Some (NumError "ParseInt" s ErrRange))
          else if neg && (cutoff <? un) then
            (- cutoff, Some (NumError "ParseInt" s ErrRange))
          else (if neg then - un else un, None)
      end
  end.

(** [strconv.FormatInt(n, 10)]. *)
Definition FormatInt (n : Z) : string := NilZero.string_of_int (Z.to_int n).

(** [strings.ToUpper] and [strings.ToLower] on ASCII text; bytes outside
    the ASCII letters are kept (the drivers pass currency codes and
    exchange symbols). *)
Definition upperByte (c : ascii) : ascii :=
  let n := nat_of_ascii c in
  if (97 <=? n)%nat && (n <=? 122)%nat then ascii_of_nat (n - 32) else c.

Definition lowerByte (c : ascii) : ascii :=
  let n := nat_of_ascii c in
  if (65 <=? n)%nat && (n <=? 90)%nat then ascii_of_nat (n + 32) else c.

Fixpoint mapBytes (f : ascii → ascii) (s : string) : string :=
  match s with
  | EmptyString => EmptyString
  | String c s' => String (f c) (mapBytes f s')
  end.

Definition ToUpper : string → string := mapBytes upperByte.
Definition ToLower : string → string := mapBytes lowerByte.

End Go.

Export Go (error, outcome, Returned, Panicked, M).

(** Unfolds the monad of stateful code in a goal. *)
Ltac run :=
  unfold mbind, Go.M_bind, Go.bind, mret, Go.M_ret, Go.ret, Go.get, Go.put,
    Go.modify, Go.panic in *; cbn.

(** ** Package pair: currency pairs and their display *)

Module Pair.

(** [pair.CurrencyItem] is a string type. *)
Record CurrencyPair : Type := NewCurrencyPair {
  FirstCurrency : string;
  SecondCurrency : string
}.

#[global] Instance CurrencyPair_eq_dec : EqDecision CurrencyPair.
Proof. solve_decision. Defined.

#[global] Instance CurrencyPair_countable : Countable CurrencyPair :=
  inj_countable' (λ p, (FirstCurrency p, SecondCurrency p))
    (λ x, NewCurrencyPair x.1 x.2) (λ p, match p with NewCurrencyPair _ _ => eq_refl end).

(** Modelled from the spec: package [currency/pair] is not among the
    sources, only its callers are ([p.Display("/", false)],
    [symbol.Display("", false)]).  "[display] renders a pair using a
    delimiter, separator and case rule": base, delimiter, quote, in
    upper case when [uppercase] is set and in lower case otherwise (the
    Binance limits table, keyed by [Display("/", false)], is documented
    as keyed by the lower-case symbol). *)
Definition Display (p : CurrencyPair) (delimiter : string) (uppercase : bool)
  : string :=
  let s := FirstCurrency p ++ delimiter ++ SecondCurrency p in
  if uppercase then Go.ToUpper s else Go.ToLower s.

(** The per-exchange format, as the drivers set it in [SetDefaults]
    ([RequestCurrencyPairFormat], [ConfigCurrencyPairFormat]). *)
Record CurrencyPairFormat : Type := {
  Delimiter : string;
  Uppercase : bool;
  Separator : string
}.

Definition display (p : CurrencyPair) (f : CurrencyPairFormat) : string :=
  Display p (Delimiter f) (Uppercase f).

End Pair.

(** ** Package exchange: what the drivers share *)

Module Exchange.

(** The canonical order states. *)
Inductive OrderStatus : Type :=
| OrderStatusActive
| OrderStatusFilled
| OrderStatusAborted
| OrderStatusUnknown.

Inductive OrderType : Type := OrderTypeExchangeLimit.

(** [exchange.Order].  [float64] is the type of Go's 64-bit floats, kept
    abstract; [Type_] is [None] while the field has its zero value. *)
Record Order {float64 : Type} : Type := {
  OrderID : string;
  Status : OrderStatus;
  Amount : float64;
  FilledAmount : float64;
  RemainingAmount : float64;
  Rate : float64;
  CreatedAt : Z;
  CurrencyPair : Pair.CurrencyPair;
  Side : string;
  Type_ : option OrderType
}.
Arguments Order : clear implicits.

End Exchange.

(** ** Package orderbook: the order book cache *)

Module Orderbook.

Record Item {float64 : Type} : Type := { Price : float64; Amount : float64 }.
Arguments Item : clear implicits.

Record Base {float64 : Type} : Type := {
  Bids : list (Item float64);
  Asks : list (Item float64)
}.
Arguments Base : clear implicits.

(** [orderbook.Base{}]. *)
Definition zero {float64} : Base float64 := {| Bids := []; Asks := [] |}.

(** A snapshot is stored per exchange, pair and asset type. *)
Abbreviation key := (string * Pair.CurrencyPair * string)%type.

(** Modelled from the spec: package [exchanges/orderbook] is not among
    the sources.  "[get(exchange, pair, assetType)]": "if no snapshot
    exists yet for a key, [get] signals not found rather than
    fabricating an empty book"; the book returned with the error is the
    zero value. *)
Definition GetOrderbook {float64} (books : gmap key (Base float64))
    (exchangeName : string) (p : Pair.CurrencyPair) (assetType : string)
  : Base float64 * option error :=
  match books !! (exchangeName, p, assetType) with
  | Some ob => (ob, None)
  | None => (zero, Some (Go.errorsNew "orderbook: no snapshot for the pair"))
  end.

(** Modelled from the spec: "[put(exchange, pair, assetType, snapshot)]
    replaces the prior snapshot for that key wholesale". *)
Definition ProcessOrderbook {float64} (exchangeName : string)
    (p : Pair.CurrencyPair) (book : Base float64) (assetType : string)
    (books : gmap key (Base float64)) : gmap key (Base float64) :=
  <[(exchangeName, p, assetType) := book]> books.

End Orderbook.

(** ** The Binance driver (exchanges/binance/binance_wrapper.go) *)

Module Binance.

(** The raw order of the Binance API ([Order] in the driver's types). *)
Record Order {float64 : Type} : Type := {
  OrderID : Z;
  Status : string;
  OrigQty : float64;
  ExecutedQty : float64;
  Price : float64;
  Time : Z;
  Symbol : string;
  Side : string;
  Type_ : string
}.
Arguments Order : clear implicits.

Record Bid {float64 : Type} : Type := { BidPrice : float64; BidQuantity : float64 }.
Arguments Bid : clear implicits.

(** [MarketData]: the depth that [FetchMarketData] returns. *)
Record MarketData {float64 : Type} : Type := {
  Bids : list (Bid float64);
  Asks : list (Bid float64)
}.
Arguments MarketData : clear implicits.

Record symbolDetails {float64 : Type} : Type := {
  PriceDecimalPlaces : Z;
  AmountDecimalPlaces : Z;
  MinAmount : float64;
  MinTotal : float64
}.
Arguments symbolDetails : clear implicits.

(** [currencyLimits]: [data] maps the lower-case symbol to its details. *)
Record currencyLimits {float64 : Type} : Type := newCurrencyLimits {
  exchangeName : string;
  data : gmap string (symbolDetails float64)
}.
Arguments currencyLimits : clear implicits.
Arguments newCurrencyLimits {float64} exchangeName data.

(** The driver: the fields of [Binance] the wrapper reads and writes,
    and [rest], the fields and the remote state that only the REST
    bindings of the driver use (rate limits, last fetched data, the
    exchange itself). *)
Record Binance {float64 W : Type} : Type := {
  Name : string;
  Enabled : bool;
  Orderbooks : gmap Orderbook.key (Orderbook.Base float64);
  symbolDetailsMap : gmap string (symbolDetails float64);
  rest : W
}.
Arguments Binance : clear implicits.

(** What the wrapper takes from outside itself.

    Go's [float64]: [isZero x] is [x == 0.0], and [decimalSub x y] is the
    first result of
    [decimal.NewFromFloat(x).Sub(decimal.NewFromFloat(y)).Float64()].

    The raw order-status vocabulary and the order type: constants of the
    driver's types.

    The REST bindings of the driver, which are not in the wrapper: each
    runs on the state [W] they own. *)
Class Bindings (float64 W : Type) : Type := {
  isZero : float64 → bool;
  decimalSub : float64 → float64 → float64;
  OrderStatusNew : string;
  OrderStatusPartial : string;
  OrderStatusFilled : string;
  OrderStatusCanceled : string;
  OrderStatusPendingCancel : string;
  OrderStatusRejected : string;
  OrderStatusExpired : string;
  OrderTypeLimit : string;
  CurrencyPairToSymbol : Pair.CurrencyPair → string;
  SymbolToCurrencyPair : string → Pair.CurrencyPair * option error;
  FetchMarketData :
    string → Z → W → (option (MarketData float64) * option error) * W;
  FetchOpenOrders : string → W → (list (Order float64) * option error) * W;
  DeleteOrder : string → Z → string → W → option error * W
}.

Section Driver.

Context {float64 W : Type} {B : Bindings float64 W}.

Abbreviation Driver := (Binance float64 W).

(** A binding called on the driver. *)
Definition call {A} (f : W → A * W) : M Driver A :=
  λ b, let '(a, w) := f (rest b) in
       (Returned a,
        {| Name := Name b; Enabled := Enabled b; Orderbooks := Orderbooks b;
           symbolDetailsMap := symbolDetailsMap b; rest := w |}).

Definition setOrderbooks (f : gmap Orderbook.key (Orderbook.Base float64) →
                              gmap Orderbook.key (Orderbook.Base float64))
  : M Driver unit :=
  Go.modify (λ b,
    {| Name := Name b; Enabled := Enabled b; Orderbooks := f (Orderbooks b);
       symbolDetailsMap := symbolDetailsMap b; rest := rest b |}).

(** [err == exchange.WarningHTTPRequestRateLimited()]. *)
Definition isRateLimited (err : option error) : bool :=
  bool_decide (err = Some Go.WarningHTTPRequestRateLimited).

Definition isNil (err : option error) : bool :=
  match err with None => true | Some _ => false end.

(** *** UpdateOrderbook, GetOrderbookEx *)

Definition toItem (x : Bid float64) : Orderbook.Item float64 :=
  {| Orderbook.Price := BidPrice x; Orderbook.Amount := BidQuantity x |}.

Definition UpdateOrderbook (p : Pair.CurrencyPair) (assetType : string)
  : M Driver (Orderbook.Base float64 * option error) :=
  let symbol := CurrencyPairToSymbol p in
  '(marketData, err) ← call (FetchMarketData symbol 100);
  if negb (isNil err) && negb (isRateLimited err) then
    mret (Orderbook.zero, err)
  else
    match marketData with
    | None => Go.panic "invalid memory address or nil pointer dereference"
    | Some md =>
        let book := {| Orderbook.Asks := map toItem (Asks md);
                       Orderbook.Bids := map toItem (Bids md) |} in
        b ← Go.get;
        _ ← setOrderbooks (Orderbook.ProcessOrderbook (Name b) p book assetType);
        b ← Go.get;
        mret (Orderbook.GetOrderbook (Orderbooks b) (Name b) p assetType)
    end.

Definition GetOrderbookEx (p : Pair.CurrencyPair) (assetType : string)
  : M Driver (Orderbook.Base float64 * option error) :=
  b ← Go.get;
  let '(ob, err) := Orderbook.GetOrderbook (Orderbooks b) (Name b) p assetType in
  if isNil err then UpdateOrderbook p assetType
  else mret (ob, None).

(** *** CancelOrder *)

Definition CancelOrder (orderID : string) (currencyPair : Pair.CurrencyPair)
  : M Driver (option error) :=
  let '(id, err) := Go.ParseInt orderID in
  if negb (isNil err) then mret err
  else
    let symbol := CurrencyPairToSymbol currencyPair in
    call (DeleteOrder symbol id "").

(** *** convertOrderToExchangeOrder *)

(** The [switch order.Status] of [convertOrderToExchangeOrder]. *)
Definition switchStatus (status : string) : Exchange.OrderStatus :=
  if bool_decide (status ∈ [OrderStatusCanceled; OrderStatusPendingCancel;
                            OrderStatusExpired; OrderStatusRejected])
  then Exchange.OrderStatusAborted
  else if bool_decide (status = OrderStatusFilled)
  then Exchange.OrderStatusFilled
  else if bool_decide (status ∈ [OrderStatusNew; OrderStatusPartial])
  then Exchange.OrderStatusActive
  else Exchange.OrderStatusUnknown.

(** The raw statuses the driver knows. *)
Definition vocabulary : list string :=
  [OrderStatusNew; OrderStatusPartial; OrderStatusFilled; OrderStatusCanceled;
   OrderStatusPendingCancel; OrderStatusExpired; OrderStatusRejected].

Definition convertOrderToExchangeOrder (order : Order float64)
  : Exchange.Order float64 :=
  let status := switchStatus (Status order) in
  let remainingAmount := decimalSub (OrigQty order) (ExecutedQty order) in
  let status := if isZero remainingAmount then Exchange.OrderStatusFilled
                else status in
  {| Exchange.OrderID := Go.FormatInt (OrderID order);
     Exchange.Status := status;
     Exchange.Amount := OrigQty order;
     Exchange.FilledAmount := ExecutedQty order;
     Exchange.RemainingAmount := remainingAmount;
     Exchange.Rate := Price order;
     Exchange.CreatedAt := Z.quot (Time order) 1000;
     Exchange.CurrencyPair := (SymbolToCurrencyPair (Symbol order)).1;
     Exchange.Side := Go.ToLower (Side order);
     Exchange.Type_ :=
       if bool_decide (Type_ order = OrderTypeLimit)
       then Some Exchange.OrderTypeExchangeLimit else None |}.

(** *** GetOrders *)

(** The loop over [pairs]: [inr err] when a fetch fails with an error
    other than the rate-limit value, else the count of rate-limited
    pairs and the orders collected. *)
Fixpoint getOrdersLoop (pairs : list Pair.CurrencyPair)
    (rateLimitedPairCount : Z) (ret : list (Exchange.Order float64))
  : M Driver (Z * list (Exchange.Order float64) + error) :=
  match pairs with
  | [] => mret (inl (rateLimitedPairCount, ret))
  | p :: pairs' =>
      let symbol := CurrencyPairToSymbol p in
      '(orders, err) ← call (FetchOpenOrders symbol);
      let count := if isRateLimited err then rateLimitedPairCount + 1
                   else rateLimitedPairCount in
      match err with
      | Some e =>
          if isRateLimited err
          then getOrdersLoop pairs' count (ret ++ map convertOrderToExchangeOrder orders)
          else mret (inr e)
      | None =>
          getOrdersLoop pairs' count (ret ++ map convertOrderToExchangeOrder orders)
      end
  end.

Definition GetOrders (pairs : list Pair.CurrencyPair)
  : M Driver (list (Exchange.Order float64) * option error) :=
  if (0 <? Z.of_nat (length pairs)) then
    r ← getOrdersLoop pairs 0 [];
    match r with
    | inr e => mret ([], Some e)
    | inl (rateLimitedPairCount, ret) =>
        if rateLimitedPairCount =? Z.of_nat (length pairs)
        then mret (ret, Some Go.WarningHTTPRequestRateLimited)
        else mret (ret, None)
    end
  else
    '(orders, err) ← call (FetchOpenOrders "");
    match err with
    | Some e =>
        if isRateLimited err
        then mret (map convertOrderToExchangeOrder orders, err)
        else mret ([], Some e)
    | None => mret (map convertOrderToExchangeOrder orders, None)
    end.

(** What [GetOrders] is measured against: the results of fetching
    the open orders of each pair in turn. *)
Fixpoint fetchEach (pairs : list Pair.CurrencyPair) (w : W)
  : list (list (Order float64) * option error) :=
  match pairs with
  | [] => []
  | p :: pairs' =>
      let '(r, w') := FetchOpenOrders (CurrencyPairToSymbol p) w in
      r :: fetchEach pairs' w'
  end.

(** A fetch that was rate limited. *)
Definition rateLimited (r : list (Order float64) * option error) : Prop :=
  r.2 = Some Go.WarningHTTPRequestRateLimited.

#[global] Instance rateLimited_dec r : Decision (rateLimited r).
Proof. unfold rateLimited. apply _. Defined.

(** The error of a fetch result when it is neither [nil] nor the
    rate-limit value. *)
Definition otherError (r : list (Order float64) * option error) : option error :=
  match r.2 with
  | Some e => if isRateLimited r.2 then None else Some e
  | None => None
  end.

(** The first such error among fetch results. *)
Definition firstOtherError (rs : list (list (Order float64) * option error))
  : option error :=
  head (omap otherError rs).

(** The orders of fetch results, converted, in order. *)
Definition ordersOf (rs : list (list (Order float64) * option error))
  : list (Exchange.Order float64) :=
  concat (map (λ r, map convertOrderToExchangeOrder r.1) rs).

(** *** The limits accessors *)

Definition GetLimits (b : Driver) : currencyLimits float64 :=
  newCurrencyLimits (Name b) (symbolDetailsMap b).

Definition GetPriceDecimalPlaces (cl : currencyLimits float64)
    (p : Pair.CurrencyPair) : Z :=
  let k := Pair.Display p "/" false in
  match data cl !! k with
  | Some v => PriceDecimalPlaces v
  | None => 0
  end.

Definition GetAmountDecimalPlaces (cl : currencyLimits float64)
    (p : Pair.CurrencyPair) : Z :=
  let k := Pair.Display p "/" false in
  match data cl !! k with
  | Some v => AmountDecimalPlaces v
  | None => 0
  end.

End Driver.

End Binance.

(** ** Package ticker: the ticker cache *)

Module Ticker.

(** [ticker.Price], with the fields the drivers fill. *)
Record Price {float64 : Type} : Type := {
  Pair_ : Pair.CurrencyPair;
  Last : float64;
  High : float64;
  Low : float64;
  Bid : float64;
  Ask : float64;
  Volume : float64
}.
Arguments Price : clear implicits.

(** Modelled from the spec: package [exchanges/ticker] is not among the
    sources.  The store is keyed like the order book cache; "if no
    snapshot exists yet for a key, [get] signals not found"; the price
    returned with the error is the zero value. *)
Definition GetTicker {float64} (zero : Price float64)
    (tickers : gmap Orderbook.key (Price float64))
    (exchangeName : string) (p : Pair.CurrencyPair) (assetType : string)
  : Price float64 * option error :=
  match tickers !! (exchangeName, p, assetType) with
  | Some t => (t, None)
  | None => (zero, Some (Go.errorsNew "ticker: no snapshot for the pair"))
  end.

(** Modelled from the spec: "[put] replaces the prior snapshot for that
    key wholesale". *)
Definition ProcessTicker {float64} (exchangeName : string)
    (p : Pair.CurrencyPair) (t : Price float64) (assetType : string)
    (tickers : gmap Orderbook.key (Price float64))
  : gmap Orderbook.key (Price float64) :=
  <[(exchangeName, p, assetType) := t]> tickers.

End Ticker.

(** ** The Liqui driver (its wrapper) *)

Module Liqui.

(** The depth that [GetDepth] returns: rows of price and amount. *)
Record Orderbook_ {float64 : Type} : Type := {
  Bids : list (list float64);
  Asks : list (list float64)
}.
Arguments Orderbook_ : clear implicits.

(** An entry of the map that [GetTicker] returns. *)
Record Ticker_ {float64 : Type} : Type := {
  High : float64;
  Low : float64;
  Avg : float64;
  Vol : float64;
  Vol_cur : float64;
  Last : float64;
  Buy : float64;
  Sell : float64
}.
Arguments Ticker_ : clear implicits.

(** The driver: its name, its order book cache, the ticker store of
    package [ticker] (a package-level variable), and [rest], what only
    the REST bindings and the configuration helpers use. *)
Record Liqui {float64 W : Type} : Type := {
  Name : string;
  Orderbooks : gmap Orderbook.key (Orderbook.Base float64);
  Tickers : gmap Orderbook.key (Ticker.Price float64);
  rest : W
}.
Arguments Liqui : clear implicits.

(** What the wrapper takes from outside itself: the zero value of
    [float64], helpers of package [exchange], and the REST bindings of
    the driver, which run on the state [W] they own. *)
Class Bindings (float64 W : Type) : Type := {
  zeroFloat : float64;
  GetEnabledCurrencies : W → list Pair.CurrencyPair;
  GetAndFormatExchangeCurrencies :
    string → list Pair.CurrencyPair → string * option error;
  FormatExchangeCurrency : string → Pair.CurrencyPair → string;
  GetTicker : string → W → (gmap string (Ticker_ float64) * option error) * W;
  GetDepth : string → W → (Orderbook_ float64 * option error) * W
}.

Section Driver.

Context {float64 W : Type} {B : Bindings float64 W}.

Abbreviation Driver := (Liqui float64 W).

Definition call {A} (f : W → A * W) : M Driver A :=
  λ l, let '(a, w) := f (rest l) in
       (Returned a,
        {| Name := Name l; Orderbooks := Orderbooks l; Tickers := Tickers l;
           rest := w |}).

Definition setOrderbooks (f : gmap Orderbook.key (Orderbook.Base float64) →
                              gmap Orderbook.key (Orderbook.Base float64))
  : M Driver unit :=
  Go.modify (λ l,
    {| Name := Name l; Orderbooks := f (Orderbooks l); Tickers := Tickers l;
       rest := rest l |}).

Definition setTickers (f : gmap Orderbook.key (Ticker.Price float64) →
                           gmap Orderbook.key (Ticker.Price float64))
  : M Driver unit :=
  Go.modify (λ l,
    {| Name := Name l; Orderbooks := Orderbooks l; Tickers := f (Tickers l);
       rest := rest l |}).

Definition isNil (err : option error) : bool :=
  match err with None => true | Some _ => false end.

Definition zeroTicker_ : Ticker_ float64 :=
  {| High := zeroFloat; Low := zeroFloat; Avg := zeroFloat; Vol := zeroFloat;
     Vol_cur := zeroFloat; Last := zeroFloat; Buy := zeroFloat;
     Sell := zeroFloat |}.

Definition zeroPrice : Ticker.Price float64 :=
  {| Ticker.Pair_ := Pair.NewCurrencyPair "" ""; Ticker.Last := zeroFloat;
     Ticker.High := zeroFloat; Ticker.Low := zeroFloat;
     Ticker.Bid := zeroFloat; Ticker.Ask := zeroFloat;
     Ticker.Volume := zeroFloat |}.

(** *** UpdateTicker, GetTickerPrice *)

(** The body of the loop over the enabled currencies. *)
Definition processOne (name : string) (result : gmap string (Ticker_ float64))
    (assetType : string) (x : Pair.CurrencyPair) : M Driver unit :=
  let currency := FormatExchangeCurrency name x in
  let r := default zeroTicker_ (result !! currency) in
  let tp := {| Ticker.Pair_ := x; Ticker.Last := Last r;
               Ticker.High := zeroFloat; Ticker.Low := Low r;
               Ticker.Bid := Buy r; Ticker.Ask := Sell r;
               Ticker.Volume := Vol_cur r |} in
  setTickers (Ticker.ProcessTicker name x tp assetType).

Fixpoint forEach {A} (f : A → M Driver unit) (xs : list A) : M Driver unit :=
  match xs with
  | [] => mret tt
  | x :: xs' => _ ← f x; forEach f xs'
  end.

Definition UpdateTicker (p : Pair.CurrencyPair) (assetType : string)
  : M Driver (Ticker.Price float64 * option error) :=
  l ← Go.get;
  let '(pairsString, err) :=
    GetAndFormatExchangeCurrencies (Name l) (GetEnabledCurrencies (rest l)) in
  if negb (isNil err) then mret (zeroPrice, err)
  else
    '(result, err) ← call (GetTicker pairsString);
    if negb (isNil err) then mret (zeroPrice, err)
    else
      l ← Go.get;
      _ ← forEach (processOne (Name l) result assetType)
            (GetEnabledCurrencies (rest l));
      l ← Go.get;
      mret (Ticker.GetTicker zeroPrice (Tickers l) (Name l) p assetType).

Definition GetTickerPrice (p : Pair.CurrencyPair) (assetType : string)
  : M Driver (Ticker.Price float64 * option error) :=
  l ← Go.get;
  let '(tickerNew, err) :=
    Ticker.GetTicker zeroPrice (Tickers l) (Name l) p assetType in
  if negb (isNil err) then UpdateTicker p assetType
  else mret (tickerNew, None).

(** *** UpdateOrderbook, GetOrderbookEx *)

(** [Item{Amount: data[1], Price: data[0]}]: a row shorter than two
    panics on the index. *)
Definition rowItem (data : list float64) : option (Orderbook.Item float64) :=
  match data with
  | price :: amount :: _ =>
      Some {| Orderbook.Price := price; Orderbook.Amount := amount |}
  | _ => None
  end.

Definition UpdateOrderbook (p : Pair.CurrencyPair) (assetType : string)
  : M Driver (Orderbook.Base float64 * option error) :=
  l ← Go.get;
  '(orderbookNew, err) ← call (GetDepth (FormatExchangeCurrency (Name l) p));
  if negb (isNil err) then mret (Orderbook.zero, err)
  else
    match mapM rowItem (Bids orderbookNew), mapM rowItem (Asks orderbookNew) with
    | Some bids, Some asks =>
        let orderBook := {| Orderbook.Bids := bids; Orderbook.Asks := asks |} in
        l ← Go.get;
        _ ← setOrderbooks
              (Orderbook.ProcessOrderbook (Name l) p orderBook assetType);
        l ← Go.get;
        mret (Orderbook.GetOrderbook (Orderbooks l) (Name l) p assetType)
    | _, _ => Go.panic "index out of range"
    end.

Definition GetOrderbookEx (p : Pair.CurrencyPair) (assetType : string)
  : M Driver (Orderbook.Base float64 * option error) :=
  l ← Go.get;
  let '(ob, err) := Orderbook.GetOrderbook (Orderbooks l) (Name l) p assetType in
  if isNil err then UpdateOrderbook p assetType
  else mret (ob, None).

End Driver.

End Liqui.

(** ** The outside world: the clock and the HTTP transport *)

Module Net.

Record Request : Type := {
  Method : string;
  URL : string;
  Headers : gmap string string;
  Body : string
}.

(** The world a driver runs in.  [UnixNano n] is the [n]-th reading of
    [time.Now().UnixNano()] and [ticks] counts the readings taken;
    [sent] lists the requests sent so far, oldest first; [reply] is the
    remote end: the body and the error that [common.SendHTTPRequest]
    returns for a request, given the requests sent before it. *)
Record World : Type := {
  ticks : nat;
  UnixNano : nat → Z;
  sent : list Request;
  reply : list Request → Request → string * option error
}.

(** [time.Now().UnixNano()]. *)
Definition now (w : World) : Z * World :=
  (UnixNano w (ticks w),
   {| ticks := S (ticks w); UnixNano := UnixNano w; sent := sent w;
      reply := reply w |}).

(** [common.SendHTTPRequest(method, path, headers, body)]: the one way a
    driver reaches the network. *)
Definition SendHTTPRequest (method path : string) (headers : gmap string string)
    (body : string) (w : World) : (string * option error) * World :=
  let r := {| Method := method; URL := path; Headers := headers; Body := body |} in
  (reply w (sent w) r,
   {| ticks := ticks w; UnixNano := UnixNano w; sent := sent w ++ [r];
      reply := reply w |}).

End Net.

(** ** Package nonce *)

Module Nonce.

(** Modelled from the spec: package [nonce] is not among the sources.
    "Nonce: a 64-bit integer": the counter of one credential, zero until
    it is set; [Inc] adds one in [int64] arithmetic. *)
Definition Nonce : Type := Z.

Definition Get (n : Nonce) : Z := n.
Definition Set_ (val : Z) (n : Nonce) : Nonce := val.
Definition Inc (n : Nonce) : Nonce := Go.int64 (n + 1).
Definition String_ (n : Nonce) : string := Go.FormatInt n.

End Nonce.

(** ** The Kraken driver (exchanges/kraken/kraken.go) *)

Module Kraken.

Definition KRAKEN_API_URL : string := "https://api.kraken.com".
Definition KRAKEN_API_VERSION : string := "0".
Definition KRAKEN_ORDER_CANCEL : string := "CancelOrder".

(** The fields of [Kraken] (with those of the embedded [exchange.Base])
    that authenticated requests use. *)
Record Kraken : Type := {
  Name : string;
  Verbose : bool;
  AuthenticatedAPISupport : bool;
  APIKey : string;
  APISecret : string;
  Nonce : Nonce.Nonce
}.

(** [Response]: the envelope of every Kraken answer. *)
Record Response : Type := { Errors : list string; Result : string }.

Definition zeroResponse : Response := {| Errors := []; Result := "" |}.

(** [url.Values]: [Set] replaces the values of a key, [Get] returns the
    first value of a key or the empty string. *)
Abbreviation Values := (gmap string (list string)).

Definition Set_ (key value : string) (v : Values) : Values := <[key := [value]]> v.

Definition Get (key : string) (v : Values) : string :=
  match v !! key with
  | Some (x :: _) => x
  | _ => ""
  end.

(** The state of a call on a driver: the driver and the world. *)
Abbreviation State := (Kraken * Net.World)%type.

(** The driver with its nonce replaced. *)
Definition withNonce (n : Nonce.Nonce) (k : Kraken) : Kraken :=
  {| Name := Name k; Verbose := Verbose k;
     AuthenticatedAPISupport := AuthenticatedAPISupport k;
     APIKey := APIKey k; APISecret := APISecret k; Nonce := n |}.

Definition self : M State Kraken := λ s, (Returned s.1, s).
Definition setNonce (n : Nonce.Nonce) : M State unit :=
  Go.modify (λ s : State, (withNonce n s.1, s.2)).
Definition world {A} (f : Net.World → A * Net.World) : M State A :=
  λ s, let '(a, w) := f s.2 in (Returned a, (s.1, w)).

Definition isNil (err : option error) : bool :=
  match err with None => true | Some _ => false end.

(** The nonces of a run that starts at [n], as the requests carry them
    and as numbers: [n], [n + 1], ... *)
Definition counting (n : Z) (len : nat) : list (string * Z) :=
  map (λ i : nat, (Go.FormatInt (n + Z.of_nat i), n + Z.of_nat i)) (seq 0 len).

(** Packages [common], [net/url] and [encoding/json], and the text of
    an error ([err.Error()]), none of which the driver defines. *)
Class Library : Type := {
  Base64Decode : string → string * option error;
  Base64Encode : string → string;
  GetSHA256 : string → string;
  GetHMAC_SHA512 : string → string → string;
  Encode : Values → string;
  JSONDecode : ∀ R : Type, string → R → R * option error;
  jsonUnmarshal : ∀ V : Type, string → V → V * option error;
  SendHTTPGetRequest :
    ∀ R : Type, string → bool → bool → R → Net.World → (R * option error) * Net.World;
  Error : error → string
}.

Section Driver.

Context {L : Library}.

(** *** SendAuthenticatedHTTPRequest *)

Definition SendAuthenticatedHTTPRequest {R : Type} (method : string)
    (values : Values) (result : R) : M State (Values * R * option error) :=
  k ← self;
  if negb (AuthenticatedAPISupport k) then
    mret (values, result,
          Some (Go.WarningAuthenticatedRequestWithoutCredentialsSet (Name k)))
  else
    let path := "/" ++ KRAKEN_API_VERSION ++ "/private/" ++ method in
    _ ← (if Nonce.Get (Nonce k) =? 0
         then t ← world Net.now; setNonce (Nonce.Set_ t (Nonce k))
         else setNonce (Nonce.Inc (Nonce k)));
    k ← self;
    let values := Set_ "nonce" (Nonce.String_ (Nonce k)) values in
    let '(secret, err) := Base64Decode (APISecret k) in
    if negb (isNil err) then mret (values, result, err)
    else
      let shasum := GetSHA256 (Get "nonce" values ++ Encode values) in
      let signature := Base64Encode (GetHMAC_SHA512 (path ++ shasum) secret) in
      let headers : gmap string string :=
        <["API-Sign" := signature]> (<["API-Key" := APIKey k]> ∅) in
      '(resp, err) ← world (Net.SendHTTPRequest "POST" (KRAKEN_API_URL ++ path)
                              headers (Encode values));
      if negb (isNil err) then mret (values, result, err)
      else
        let '(result, err) := JSONDecode R resp result in
        match err with
        | Some e =>
            mret (values, result,
                  Some (Go.errorsNew ("Unable to JSON Unmarshal response." ++ Error e)))
        | None => mret (values, result, None)
        end.

(** *** HTTPRequestJSON, HTTPRequest *)

Definition HTTPRequestJSON (path : string) (auth : bool) (values : Values)
  : M State (option string * option error) :=
  let response := zeroResponse in
  '(response, err) ←
    (if auth then
       '(_, response, err) ← SendAuthenticatedHTTPRequest path values response;
       mret (response, err)
     else
       k ← self;
       world (SendHTTPGetRequest Response path true (Verbose k) response));
  if negb (isNil err) then mret (None, err)
  else if (0 <? Z.of_nat (length (Errors response))) then
    mret (Some (Result response),
          Some (Go.errorsNew (String.concat (String "010" "") (Errors response))))
  else mret (Some (Result response), None).

Definition HTTPRequest {V : Type} (path : string) (auth : bool)
    (values : Values) (v : V) : M State (V * option error) :=
  '(result, err) ← HTTPRequestJSON path auth values;
  if negb (isNil err) then mret (v, err)
  else mret (jsonUnmarshal V (default "" result) v).

(** *** cancelOrder, CancelOrder *)

Definition cancelOrder (orderID : Z) : M State (option error) :=
  let values : Values := Set_ "txid" (Go.FormatInt orderID) ∅ in
  '(_, err) ← HTTPRequest KRAKEN_ORDER_CANCEL true values tt;
  if negb (isNil err) then mret err
  else Go.panic "not implemented".

Definition CancelOrder (orderStr : string) : M State (option error) :=
  let '(orderID, err) := Go.ParseInt orderStr in
  if isNil err then mret err
  else cancelOrder orderID.

(** *** A run of authenticated requests *)

(** The requests of [ops] signed one after the other on one driver.
    The result lists, for each request, the [nonce] field that the call
    left in its [values] and the value of [k.Nonce.Get()] after it. *)
Fixpoint signAll (ops : list (string * Values)) : M State (list (string * Z)) :=
  match ops with
  | [] => mret []
  | (method, values) :: ops' =>
      '(values', _, _) ← SendAuthenticatedHTTPRequest method values tt;
      k ← self;
      rest ← signAll ops';
      mret ((Get "nonce" values', Nonce.Get (Nonce k)) :: rest)
  end.

End Driver.

End Kraken.

(** ** The Gemini driver (exchanges/gemini/gemini.go) *)

Module Gemini.

Definition geminiAPIURL : string := "https://api.gemini.com".
Definition geminiSandboxAPIURL : string := "https://api.sandbox.gemini.com".
Definition geminiAPIVersion : string := "1".
Definition geminiOrderCancel : string := "order/cancel".

(** [Gemini]: the fields of the embedded [exchange.Base] that sessions
    and authenticated requests use, then its own. *)
Record Gemini : Type := {
  Name : string;
  Verbose : bool;
  AuthenticatedAPISupport : bool;
  APIKey : string;
  APISecret : string;
  APIUrl : string;
  Nonce : Nonce.Nonce;
  Role : string;
  RequiresHeartBeat : bool
}.

(** *** The limits table *)

(** [limitsInfo]; the minimum amount is the decimal the source writes. *)
Record limitsInfo : Type := {
  PriceDecimalPlaces : Z;
  AmountDecimalPlaces : Z;
  MinAmount : Q
}.

(** [currencyLimits]: the map holds pointers, [None] is [nil]. *)
Record currencyLimits : Type := {
  info : gmap string (option limitsInfo)
}.

Definition newCurrencyLimits : currencyLimits :=
  {| info :=
       <["BTCUSD" := Some {| PriceDecimalPlaces := 2; AmountDecimalPlaces := 8;
                             MinAmount := (1 # 100000)%Q |}]>
       (<["ETHUSD" := Some {| PriceDecimalPlaces := 2; AmountDecimalPlaces := 6;
                              MinAmount := (1 # 1000)%Q |}]>
       (<["ETHBTC" := Some {| PriceDecimalPlaces := 5; AmountDecimalPlaces := 6;
                              MinAmount := (1 # 1000)%Q |}]> ∅)) |}.

(** [l.info[k]]: a missing key reads as [nil]. *)
Definition lookupInfo (l : currencyLimits) (k : string) : option limitsInfo :=
  default None (info l !! k).

Definition GetPriceDecimalPlaces (l : currencyLimits) (p : Pair.CurrencyPair) : Z :=
  let k := Go.ToUpper (Pair.FirstCurrency p ++ Pair.SecondCurrency p) in
  match lookupInfo l k with
  | Some v => PriceDecimalPlaces v
  | None => -1
  end.

Definition GetAmountDecimalPlaces (l : currencyLimits) (p : Pair.CurrencyPair) : Z :=
  let k := Go.ToUpper (Pair.FirstCurrency p ++ Pair.SecondCurrency p) in
  match lookupInfo l k with
  | Some v => AmountDecimalPlaces v
  | None => -1
  end.

Definition GetLimits (g : Gemini) : currencyLimits := newCurrencyLimits.

(** *** The session registry *)

(** A [*Gemini] is a location of the heap. *)
Abbreviation loc := positive.

(** The package-level variable [Session] ([None] while it is [nil]) and
    the drivers its pointers refer to. *)
Record Registry : Type := {
  Session : option (gmap Z loc);
  heap : gmap loc Gemini
}.

Definition AddSession (g : loc) (sessionID : Z) (apiKey apiSecret role : string)
    (needsHeartbeat isSandbox : bool) : M Registry (option error) :=
  r ← Go.get;
  let session := default ∅ (Session r) in
  _ ← Go.put {| Session := Some session; heap := heap r |};
  match session !! sessionID with
  | Some _ => mret (Some (Go.errorsNew "sessionID already being used"))
  | None =>
      match heap r !! g with
      | None => Go.panic "invalid memory address or nil pointer dereference"
      | Some d =>
          let d' := {| Name := Name d; Verbose := Verbose d;
                       AuthenticatedAPISupport := AuthenticatedAPISupport d;
                       APIKey := apiKey; APISecret := apiSecret;
                       APIUrl := if isSandbox then geminiSandboxAPIURL
                                 else geminiAPIURL;
                       Nonce := Nonce d; Role := role;
                       RequiresHeartBeat := needsHeartbeat |} in
          _ ← Go.put {| Session := Some (<[sessionID := g]> session);
                        heap := <[g := d']> (heap r) |};
          mret None
      end
  end.

(** The sessions of a registry, none while [Session] is [nil]. *)
Definition sessions (r : Registry) : gmap Z loc := default ∅ (Session r).

(** The driver registered under an ID. *)
Definition session (r : Registry) (sessionID : Z) : option Gemini :=
  g ← sessions r !! sessionID; heap r !! g.

(** *** Authenticated requests *)

(** A value of a request field ([interface{}]). *)
Inductive value : Type := VString (s : string) | VInt (n : Z).

Record ErrorCapture : Type := {
  ecResult : string;
  ecReason : string;
  ecMessage : string
}.

Abbreviation State := (Gemini * Net.World)%type.

Definition self : M State Gemini := λ s, (Returned s.1, s).
Definition setNonce (n : Nonce.Nonce) : M State unit :=
  Go.modify (λ s : State,
    ({| Name := Name s.1; Verbose := Verbose s.1;
        AuthenticatedAPISupport := AuthenticatedAPISupport s.1;
        APIKey := APIKey s.1; APISecret := APISecret s.1; APIUrl := APIUrl s.1;
        Nonce := n; Role := Role s.1;
        RequiresHeartBeat := RequiresHeartBeat s.1 |}, s.2)).
Definition world {A} (f : Net.World → A * Net.World) : M State A :=
  λ s, let '(a, w) := f s.2 in (Returned a, (s.1, w)).

Definition isNil (err : option error) : bool :=
  match err with None => true | Some _ => false end.

(** Packages [nonce], [common] and [encoding/json], which the driver
    does not define.  [GetValue name inc n w] is
    [g.Nonce.GetValue(name, inc)]: the value, the counter after the call
    and the world after it (the call may read the clock). *)
Class Library : Type := {
  GetValue :
    string → bool → Nonce.Nonce → Net.World → (Z * Nonce.Nonce) * Net.World;
  JSONEncode : gmap string value → string * option error;
  Base64Encode : string → string;
  GetHMAC_SHA512_384 : string → string → string;
  HexEncodeToString : string → string;
  decodeErrorCapture : string → ErrorCapture * option error;
  JSONDecode : ∀ R : Type, string → R → R * option error
}.

Section Driver.

Context {L : Library}.

Definition SendAuthenticatedHTTPRequest {R : Type} (method path : string)
    (params : option (gmap string value)) (result : R)
  : M State (R * option error) :=
  g ← self;
  if negb (AuthenticatedAPISupport g) then
    mret (result,
          Some (Go.WarningAuthenticatedRequestWithoutCredentialsSet (Name g)))
  else
    '(nonce, n) ← world (λ w, GetValue (Name g) false (Nonce g) w);
    _ ← setNonce n;
    let request : gmap string value :=
      <["nonce" := VInt nonce]>
        (<["request" := VString ("/v" ++ geminiAPIVersion ++ "/" ++ path)]> ∅) in
    let request := default ∅ params ∪ request in
    let '(PayloadJSON, err) := JSONEncode request in
    if negb (isNil err) then
      mret (result,
            Some (Go.errorsNew "SendAuthenticatedHTTPRequest: Unable to JSON request"))
    else
      let PayloadBase64 := Base64Encode PayloadJSON in
      let hmac := GetHMAC_SHA512_384 PayloadBase64 (APISecret g) in
      let headers : gmap string string :=
        <["X-GEMINI-SIGNATURE" := HexEncodeToString hmac]>
          (<["X-GEMINI-PAYLOAD" := PayloadBase64]>
             (<["X-GEMINI-APIKEY" := APIKey g]> ∅)) in
      '(resp, err) ← world (Net.SendHTTPRequest method
                              (APIUrl g ++ "/v1/" ++ path) headers "");
      if negb (isNil err) then mret (result, err)
      else
        let '(captureErr, err) := decodeErrorCapture resp in
        if isNil err
           && (negb (String.length (ecMessage captureErr) =? 0)%nat
               || negb (String.length (ecResult captureErr) =? 0)%nat
               || negb (String.length (ecReason captureErr) =? 0)%nat)
           && negb (String.eqb (ecResult captureErr) "ok")
        then mret (result, Some (Go.errorsNew (ecMessage captureErr)))
        else mret (JSONDecode R resp result).

(** [CancelOrderEx]; [zeroOrder] is [Order{}], of the driver's type
    [Order]. *)
Definition CancelOrderEx {Order : Type} (zeroOrder : Order) (OrderID : Z)
  : M State (Order * option error) :=
  let request : gmap string value := <["order_id" := VInt OrderID]> ∅ in
  '(response, err) ←
    SendAuthenticatedHTTPRequest "POST" geminiOrderCancel (Some request) zeroOrder;
  if negb (isNil err) then mret (zeroOrder, err)
  else mret (response, None).

Definition CancelOrder {Order : Type} (zeroOrder : Order) (orderStr : string)
    (currencyPair : Pair.CurrencyPair) : M State (option error) :=
  let '(orderID, err) := Go.ParseInt orderStr in
  if negb (isNil err) then mret err
  else
    '(_, err) ← CancelOrderEx zeroOrder orderID;
    mret err.

End Driver.

End Gemini.

(** ** Concrete surroundings

    Stand-ins for what the drivers take from outside, on which the
    drivers can be run. *)

Module Sample.

(** Quantities as exact rationals. *)
Definition qIsZero (x : Q) : bool := Qeq_bool x 0.

(** The state of the Binance stand-in: the symbols fetched so far. *)
Definition order (id : Z) (status : string) (orig executed : Q)
  : Binance.Order Q :=
  {| Binance.OrderID := id; Binance.Status := status; Binance.OrigQty := orig;
     Binance.ExecutedQty := executed; Binance.Price := (1 # 10)%Q;
     Binance.Time := 1514764800123; Binance.Symbol := "ETHBTC";
     Binance.Side := "BUY"; Binance.Type_ := "LIMIT" |}.

Definition depth : Binance.MarketData Q :=
  {| Binance.Bids := [{| Binance.BidPrice := (9 # 100)%Q; Binance.BidQuantity := 2%Q |}];
     Binance.Asks := [{| Binance.BidPrice := (11 # 100)%Q; Binance.BidQuantity := 3%Q |}] |}.

(** The exchange of the stand-in: [ETHBTC] is rate limited and answers
    with the orders of its last successful fetch, [LTCBTC] is rate
    limited too, [BTCUSDT] answers, and every other symbol fails. *)
#[local] Instance binance : Binance.Bindings Q (list string) := {|
  Binance.isZero := qIsZero;
  Binance.decimalSub := Qminus;
  Binance.OrderStatusNew := "NEW";
  Binance.OrderStatusPartial := "PARTIALLY_FILLED";
  Binance.OrderStatusFilled := "FILLED";
  Binance.OrderStatusCanceled := "CANCELED";
  Binance.OrderStatusPendingCancel := "PENDING_CANCEL";
  Binance.OrderStatusRejected := "REJECTED";
  Binance.OrderStatusExpired := "EXPIRED";
  Binance.OrderTypeLimit := "LIMIT";
  Binance.CurrencyPairToSymbol := λ p, Pair.Display p "" true;
  Binance.SymbolToCurrencyPair := λ s,
    (Pair.NewCurrencyPair (substring 0 3 s) (substring 3 (String.length s - 3) s),
     None);
  Binance.FetchMarketData := λ symbol limit w,
    ((Some depth, None), (w ++ [symbol])%list);
  Binance.FetchOpenOrders := λ symbol w,
    (if String.eqb symbol "ETHBTC" then
       ([order 7 "PARTIALLY_FILLED" 5%Q 2%Q], Some Go.WarningHTTPRequestRateLimited)
     else if String.eqb symbol "LTCBTC" then
       ([], Some Go.WarningHTTPRequestRateLimited)
     else if String.eqb symbol "BTCUSDT" then
       ([order 8 "NEW" 1%Q 0%Q], None)
     else ([], Some (Go.ExternalError "400 Bad Request")),
     (w ++ [symbol])%list);
  Binance.DeleteOrder := λ symbol id origClientOrderID w,
    (None, (w ++ [("DELETE " ++ symbol ++ " " ++ Go.FormatInt id)%string])%list)
|}.

Definition ETHBTC : Pair.CurrencyPair := Pair.NewCurrencyPair "ETH" "BTC".
Definition LTCBTC : Pair.CurrencyPair := Pair.NewCurrencyPair "LTC" "BTC".
Definition BTCUSDT : Pair.CurrencyPair := Pair.NewCurrencyPair "BTC" "USDT".

Definition cachedBook : Orderbook.Base Q :=
  {| Orderbook.Bids := [{| Orderbook.Price := (8 # 100)%Q; Orderbook.Amount := 1%Q |}];
     Orderbook.Asks := [{| Orderbook.Price := (12 # 100)%Q; Orderbook.Amount := 1%Q |}] |}.

(** A Binance driver that has fetched nothing yet, and one that holds a
    snapshot for ETH/BTC. *)
Definition binanceFresh : Binance.Binance Q (list string) :=
  {| Binance.Name := "Binance"; Binance.Enabled := true;
     Binance.Orderbooks := ∅; Binance.symbolDetailsMap := ∅;
     Binance.rest := [] |}.

Definition binanceCached : Binance.Binance Q (list string) :=
  {| Binance.Name := "Binance"; Binance.Enabled := true;
     Binance.Orderbooks := {[ ("Binance", ETHBTC, "SPOT") := cachedBook ]};
     Binance.symbolDetailsMap := ∅;
     Binance.rest := [] |}.

(** The Liqui stand-in: the state counts the calls of its bindings. *)
#[local] Instance liqui : Liqui.Bindings Q nat := {|
  Liqui.zeroFloat := 0%Q;
  Liqui.GetEnabledCurrencies := λ _, [ETHBTC];
  Liqui.GetAndFormatExchangeCurrencies := λ name ps, ("eth_btc", None);
  Liqui.FormatExchangeCurrency := λ name p, Pair.Display p "_" false;
  Liqui.GetTicker := λ pairs w,
    ({[ "eth_btc" := {| Liqui.High := 1%Q; Liqui.Low := 1%Q; Liqui.Avg := 1%Q;
                        Liqui.Vol := 1%Q; Liqui.Vol_cur := 1%Q; Liqui.Last := 1%Q;
                        Liqui.Buy := 1%Q; Liqui.Sell := 1%Q |} ]}, None, S w);
  Liqui.GetDepth := λ symbol w,
    ({| Liqui.Bids := [[(9 # 100)%Q; 2%Q]]; Liqui.Asks := [[(11 # 100)%Q; 3%Q]] |},
     None, S w)
|}.

Definition liquiFresh : Liqui.Liqui Q nat :=
  {| Liqui.Name := "Liqui"; Liqui.Orderbooks := ∅; Liqui.Tickers := ∅;
     Liqui.rest := 0%nat |}.

Definition liquiCached : Liqui.Liqui Q nat :=
  {| Liqui.Name := "Liqui";
     Liqui.Orderbooks := {[ ("Liqui", ETHBTC, "SPOT") := cachedBook ]};
     Liqui.Tickers := ∅; Liqui.rest := 0%nat |}.

(** A world whose clock starts in 2017 and whose remote end answers
    every request with an empty JSON object. *)
Definition world : Net.World :=
  {| Net.ticks := 0; Net.UnixNano := λ n, Z.of_nat n + 1500000000000000000;
     Net.sent := []; Net.reply := λ _ _, ("{}", None) |}.

#[local] Instance kraken : Kraken.Library := {|
  Kraken.Base64Decode := λ s, (s, None);
  Kraken.Base64Encode := λ s, s;
  Kraken.GetSHA256 := λ s, "sha256(" ++ s ++ ")";
  Kraken.GetHMAC_SHA512 := λ msg key, "hmac(" ++ msg ++ ")";
  Kraken.Encode := λ v,
    String.concat "&" (map (λ kv, kv.1 ++ "=" ++ String.concat "," kv.2)
                           (map_to_list v));
  Kraken.JSONDecode := λ R resp r, (r, None);
  Kraken.jsonUnmarshal := λ V raw v, (v, None);
  Kraken.SendHTTPGetRequest := λ R path jsonDecode verbose r w, (r, None, w);
  Kraken.Error := λ e, "error"
|}.

Definition krakenOn : Kraken.Kraken :=
  {| Kraken.Name := "Kraken"; Kraken.Verbose := false;
     Kraken.AuthenticatedAPISupport := true; Kraken.APIKey := "key";
     Kraken.APISecret := "c2VjcmV0"; Kraken.Nonce := 0 |}.

Definition krakenOff : Kraken.Kraken :=
  {| Kraken.Name := "Kraken"; Kraken.Verbose := false;
     Kraken.AuthenticatedAPISupport := false; Kraken.APIKey := "";
     Kraken.APISecret := ""; Kraken.Nonce := 0 |}.

#[local] Instance gemini : Gemini.Library := {|
  Gemini.GetValue := λ name inc n w,
    if n =? 0 then let '(t, w') := Net.now w in (t, t, w')
    else (Nonce.Inc n, Nonce.Inc n, w);
  Gemini.JSONEncode := λ request, ("{}", None);
  Gemini.Base64Encode := λ s, s;
  Gemini.GetHMAC_SHA512_384 := λ msg key, "hmac(" ++ msg ++ ")";
  Gemini.HexEncodeToString := λ s, s;
  Gemini.decodeErrorCapture := λ resp,
    ({| Gemini.ecResult := ""; Gemini.ecReason := ""; Gemini.ecMessage := "" |}, None);
  Gemini.JSONDecode := λ R resp r, (r, None)
|}.

Definition geminiOn : Gemini.Gemini :=
  {| Gemini.Name := "Gemini"; Gemini.Verbose := false;
     Gemini.AuthenticatedAPISupport := true; Gemini.APIKey := "key";
     Gemini.APISecret := "secret"; Gemini.APIUrl := Gemini.geminiAPIURL;
     Gemini.Nonce := 0; Gemini.Role := "trader";
     Gemini.RequiresHeartBeat := false |}.

(** The book that the stand-in exchanges answer with. *)
Definition fetchedBook : Orderbook.Base Q :=
  {| Orderbook.Bids := [{| Orderbook.Price := (9 # 100)%Q; Orderbook.Amount := 2%Q |}];
     Orderbook.Asks := [{| Orderbook.Price := (11 # 100)%Q; Orderbook.Amount := 3%Q |}] |}.

(** The request that cancels order 0 on Kraken in the stand-in world. *)
Definition cancelZero : Net.Request :=
  {| Net.Method := "POST";
     Net.URL := "https://api.kraken.com/0/private/CancelOrder";
     Net.Headers :=
       <["API-Sign" := "hmac(/0/private/CancelOrdersha256(1500000000000000000nonce=1500000000000000000&txid=0))"]>
         (<["API-Key" := "key"]> ∅);
     Net.Body := "nonce=1500000000000000000&txid=0" |}.

(** A partially filled order whose executed quantity has reached the
    original quantity. *)
Definition staleOrder : Binance.Order Q := order 9 "PARTIALLY_FILLED" 5%Q 5%Q.

(** Three requests to sign. *)
Definition threeRequests : list (string * gmap string (list string)) :=
  [("Balance", ∅); ("OpenOrders", ∅); ("CancelOrder", {[ "txid" := ["5"] ]})].

Definition geminiOff : Gemini.Gemini :=
  {| Gemini.Name := "Gemini"; Gemini.Verbose := false;
     Gemini.AuthenticatedAPISupport := false; Gemini.APIKey := "";
     Gemini.APISecret := ""; Gemini.APIUrl := Gemini.geminiAPIURL;
     Gemini.Nonce := 0; Gemini.Role := ""; Gemini.RequiresHeartBeat := false |}.

(** A registry before any session is added, with two drivers on the
    heap, and one with a session under ID 7. *)
Definition registryNil : Gemini.Registry :=
  {| Gemini.Session := None;
     Gemini.heap := <[1%positive := geminiOff]> (<[2%positive := geminiOn]> ∅) |}.

Definition registrySeven : Gemini.Registry :=
  {| Gemini.Session := Some (<[7 := 2%positive]> ∅);
     Gemini.heap := <[1%positive := geminiOff]> (<[2%positive := geminiOn]> ∅) |}.

(** The format of the requests of Binance, Gemini and Kraken. *)
Definition noDelimiter : Pair.CurrencyPairFormat :=
  {| Pair.Delimiter := ""; Pair.Uppercase := true; Pair.Separator := "," |}.

End Sample.

(** ** The Binance driver, continued: orders, account, exchange info *)

Module BinanceMore.

Import Binance.

(** Two's-complement truncation of an integer to [int32]. *)
Definition int32 (z : Z) : Z := (z + 2 ^ 31) mod 2 ^ 32 - 2 ^ 31.

(** [PostOrderParams]: what [NewOrder] hands to [PostOrderAck]. *)
Record PostOrderParams {float64 : Type} : Type := {
  poSymbol : string;
  poSide : string;
  poType : string;
  poTimeInForce : string;
  poQuantity : float64;
  poPrice : float64
}.
Arguments PostOrderParams : clear implicits.

(** An entry of [accountInfo.Balances]. *)
Record Balance {float64 : Type} : Type := {
  Asset : string;
  Free : float64;
  Locked : float64
}.
Arguments Balance : clear implicits.

(** [exchange.AccountCurrencyInfo] and [exchange.AccountInfo]. *)
Record AccountCurrencyInfo {float64 : Type} : Type := {
  CurrencyName : string;
  TotalValue : float64;
  Hold : float64;
  Available : float64
}.
Arguments AccountCurrencyInfo : clear implicits.

Record AccountInfo {float64 : Type} : Type := {
  ExchangeName : string;
  Currencies : list (AccountCurrencyInfo float64)
}.
Arguments AccountInfo : clear implicits.

(** A filter of a symbol in the exchange info; [decimal] is
    [decimal.Decimal]. *)
Record Filter {decimal : Type} : Type := {
  FilterType : string;
  TickSize : decimal;
  StepSize : decimal;
  MinQty : decimal;
  MinNotional : decimal
}.
Arguments Filter : clear implicits.

Record SymbolInfo {decimal : Type} : Type := {
  siSymbol : string;
  BaseAsset : string;
  QuoteAsset : string;
  Filters : list (Filter decimal)
}.
Arguments SymbolInfo : clear implicits.

(** What these functions take from outside the wrapper, besides
    [Bindings]: constants of the driver's types and of package
    [exchange], package [decimal], and further REST bindings.
    [PostOrderAck], [FetchOrder], [FetchAccountInfo] and
    [FetchExchangeInfo] return what their result points to, [None]
    where it is a [nil] pointer: [OrderID ack] is [result.OrderID], the
    balances are [accountInfo.Balances], the symbols
    [exchangeInfo.Symbols].  [Exponent d] is [d.Exponent()], an
    [int32]; [decimalAdd x y] is the first result of
    [decimal.NewFromFloat(x).Add(decimal.NewFromFloat(y)).Float64()],
    [Float64 d] the first result of [d.Float64()]. *)
Class More (float64 W : Type) : Type := {
  OrderTypeExchangeLimit : string;
  TimeInForceGTC : string;
  FilterTypePrice : string;
  FilterTypeLotSize : string;
  FilterTypeMinNotional : string;
  zeroFloat : float64;
  decimal : Type;
  Exponent : decimal → Z;
  Float64 : decimal → float64;
  decimalAdd : float64 → float64 → float64;
  OrderAck : Type;
  OrderID : OrderAck → Z;
  PostOrderAck :
    PostOrderParams float64 → W → (option OrderAck * option error) * W;
  FetchOrder : string → Z → string → W → (option (Order float64) * option error) * W;
  FetchAccountInfo : W → (option (list (Balance float64)) * option error) * W;
  FetchExchangeInfo : W → (option (list (SymbolInfo decimal)) * option error) * W;
  UpdateAvailableCurrencies : list string → bool → W → option error * W
}.

Section Driver.

Context {float64 W : Type} {B : Bindings float64 W} {B' : More float64 W}.

(** *** NewOrder *)

Definition NewOrder (p : Pair.CurrencyPair) (amount price : float64)
    (side orderType : string) : M (Binance float64 W) (string * option error) :=
  if bool_decide (orderType = OrderTypeExchangeLimit) then
    let newOrderType := OrderTypeLimit in
    '(result, err) ← call (PostOrderAck
        {| poSymbol := CurrencyPairToSymbol p;
           poSide := Go.ToUpper side;
           poType := newOrderType;
           poTimeInForce := TimeInForceGTC;
           poQuantity := amount;
           poPrice := price |});
    if negb (isNil err) then mret ("", err)
    else
      match result with
      | None => Go.panic "invalid memory address or nil pointer dereference"
      | Some result => mret (Go.FormatInt (OrderID result), None)
      end
  else Go.panic "not implemented".

(** *** GetOrder *)

Definition GetOrder (orderID : string) (currencyPair : Pair.CurrencyPair)
  : M (Binance float64 W) (option (Exchange.Order float64) * option error) :=
  let '(id, err) := Go.ParseInt orderID in
  if negb (isNil err) then mret (None, err)
  else
    let symbol := CurrencyPairToSymbol currencyPair in
    '(order, err) ← call (FetchOrder symbol id "");
    if negb (isNil err) then mret (None, err)
    else
      match order with
      | None => Go.panic "invalid memory address or nil pointer dereference"
      | Some order => mret (Some (convertOrderToExchangeOrder order), None)
      end.

(** *** GetExchangeAccountInfo *)

Definition toCurrencyInfo (src : Balance float64) : AccountCurrencyInfo float64 :=
  {| CurrencyName := Asset src;
     Hold := Locked src;
     Available := Free src;
     TotalValue := decimalAdd (Free src) (Locked src) |}.

Definition GetExchangeAccountInfo
  : M (Binance float64 W) (AccountInfo float64 * option error) :=
  b ← Go.get;
  let result := {| ExchangeName := Name b; Currencies := [] |} in
  if negb (Enabled b) then mret (result, None)
  else
    '(accountInfo, err) ← call FetchAccountInfo;
    if negb (isNil err) && negb (isRateLimited err) then mret (result, err)
    else
      match accountInfo with
      | None => Go.panic "invalid memory address or nil pointer dereference"
      | Some balances =>
          mret ({| ExchangeName := Name b;
                   Currencies := map toCurrencyInfo balances |}, None)
      end.

(** *** Run *)

(** The [switch filter.Type] of [Run], one filter applied to the details
    collected so far. *)
Definition applyFilter (sd : symbolDetails float64) (filter : Filter decimal)
  : symbolDetails float64 :=
  if bool_decide (FilterType filter = FilterTypePrice) then
    {| PriceDecimalPlaces := int32 (Exponent (TickSize filter) * -1);
       AmountDecimalPlaces := AmountDecimalPlaces sd;
       MinAmount := MinAmount sd; MinTotal := MinTotal sd |}
  else if bool_decide (FilterType filter = FilterTypeLotSize) then
    {| PriceDecimalPlaces := PriceDecimalPlaces sd;
       AmountDecimalPlaces := int32 (Exponent (StepSize filter) * -1);
       MinAmount := Float64 (MinQty filter); MinTotal := MinTotal sd |}
  else if bool_decide (FilterType filter = FilterTypeMinNotional) then
    {| PriceDecimalPlaces := PriceDecimalPlaces sd;
       AmountDecimalPlaces := AmountDecimalPlaces sd;
       MinAmount := MinAmount sd; MinTotal := Float64 (MinNotional filter) |}
  else sd.

(** [symbolDetails{}]. *)
Definition zeroDetails : symbolDetails float64 :=
  {| PriceDecimalPlaces := 0; AmountDecimalPlaces := 0;
     MinAmount := zeroFloat; MinTotal := zeroFloat |}.

(** The details of a symbol: its filters applied in turn. *)
Definition detailsOf (symbolInfo : SymbolInfo decimal) : symbolDetails float64 :=
  fold_left applyFilter (Filters symbolInfo) zeroDetails.

Definition pairOf (symbolInfo : SymbolInfo decimal) : Pair.CurrencyPair :=
  Pair.NewCurrencyPair (BaseAsset symbolInfo) (QuoteAsset symbolInfo).

(** The two tables of the driver that [Run] fills: [b.currencyPairs],
    keyed by symbol, and [b.symbolDetailsMap], keyed by the displayed
    pair. *)
Abbreviation Tables :=
  (gmap string Pair.CurrencyPair * gmap string (symbolDetails float64))%type.

(** The body of the loop over [exchangeInfo.Symbols]. *)
Definition addSymbol (t : Tables) (symbolInfo : SymbolInfo decimal) : Tables :=
  let currencyPair := pairOf symbolInfo in
  (<[siSymbol symbolInfo := currencyPair]> t.1,
   <[Pair.Display currencyPair "/" false := detailsOf symbolInfo]> t.2).

(** [Run] on the driver and its [currencyPairs] table. *)
Definition Run : M (Binance float64 W * gmap string Pair.CurrencyPair) unit :=
  λ s,
    let '(b, currencyPairs) := s in
    let '((exchangeInfo, err), w) := FetchExchangeInfo (rest b) in
    if negb (isNil err) then
      (Returned tt,
       ({| Name := Name b; Enabled := Enabled b; Orderbooks := Orderbooks b;
           symbolDetailsMap := symbolDetailsMap b; rest := w |}, currencyPairs))
    else
      match exchangeInfo with
      | None =>
          (Panicked "invalid memory address or nil pointer dereference",
           ({| Name := Name b; Enabled := Enabled b; Orderbooks := Orderbooks b;
               symbolDetailsMap := symbolDetailsMap b; rest := w |},
            currencyPairs))
      | Some symbols =>
          let exchangeProducts := map siSymbol symbols in
          let t := fold_left addSymbol symbols (∅, ∅) in
          let '(_, w) := UpdateAvailableCurrencies exchangeProducts false w in
          (Returned tt,
           ({| Name := Name b; Enabled := Enabled b; Orderbooks := Orderbooks b;
               symbolDetailsMap := t.2; rest := w |}, t.1))
      end.

End Driver.

End BinanceMore.

(** ** The Liqui driver, continued *)

Module LiquiMore.

Import Liqui.

Section Driver.

Context {float64 W : Type} {B : Bindings float64 W}.

(** The price that the loop of [UpdateTicker] builds for the enabled
    pair [x] from the tickers fetched, [tp]. *)
Definition storedPrice (name : string) (result : gmap string (Ticker_ float64))
    (x : Pair.CurrencyPair) : Ticker.Price float64 :=
  let r := default zeroTicker_ (result !! FormatExchangeCurrency name x) in
  {| Ticker.Pair_ := x; Ticker.Last := Last r; Ticker.High := zeroFloat;
     Ticker.Low := Low r; Ticker.Bid := Buy r; Ticker.Ask := Sell r;
     Ticker.Volume := Vol_cur r |}.

End Driver.

End LiquiMore.

(** ** The Kraken driver, continued: the private endpoints *)

Module KrakenMore.

Import Kraken.

Definition KRAKEN_BALANCE : string := "Balance".
Definition KRAKEN_TRADE_BALANCE : string := "TradeBalance".
Definition KRAKEN_OPEN_ORDERS : string := "OpenOrders".
Definition KRAKEN_CLOSED_ORDERS : string := "ClosedOrders".
Definition KRAKEN_QUERY_ORDERS : string := "QueryOrders".
Definition KRAKEN_TRADES_HISTORY : string := "TradesHistory".
Definition KRAKEN_QUERY_TRADES : string := "QueryTrades".
Definition KRAKEN_OPEN_POSITIONS : string := "OpenPositions".
Definition KRAKEN_LEDGERS : string := "Ledgers".
Definition KRAKEN_QUERY_LEDGERS : string := "QueryLedgers".
Definition KRAKEN_TRADE_VOLUME : string := "TradeVolume".
Definition KRAKEN_ORDER_PLACE : string := "AddOrder".

(** [if cond { values.Set(key, value) }]. *)
Definition setIf (cond : bool) (key value : string) (v : Values) : Values :=
  if cond then Set_ key value v else v.

(** [len(s) > 0]. *)
Definition nonEmpty (s : string) : bool := (0 <? String.length s)%nat.

(** [n != 0]. *)
Definition nonZero (n : Z) : bool := negb (n =? 0).

Section Driver.

Context {L : Library}.

(** The tail that the private endpoints share: the request made, an
    error is returned and a success panics. *)
Definition notImplemented (path : string) (values : Values)
  : M State (option error) :=
  '(_, err) ← HTTPRequest path true values tt;
  if negb (isNil err) then mret err
  else Go.panic "not implemented".

Definition GetBalance : M State (option error) :=
  notImplemented KRAKEN_BALANCE ∅.

Definition GetTradeBalance (symbol asset : string) : M State (option error) :=
  let values : Values := ∅ in
  let values := setIf (nonEmpty symbol) "aclass" symbol values in
  let values := setIf (nonEmpty asset) "asset" asset values in
  notImplemented KRAKEN_TRADE_BALANCE values.

(** [GetOpenOrders] returns nothing: it logs the error or the result. *)
Definition GetOpenOrders (showTrades : bool) (userref : Z) : M State unit :=
  let values : Values := ∅ in
  let values := setIf showTrades "trades" "true" values in
  let values := setIf (nonZero userref) "userref" (Go.FormatInt userref) values in
  '(_, _) ← HTTPRequest KRAKEN_OPEN_ORDERS true values tt;
  mret tt.

(** The parameters that [GetClosedOrders] submits. *)
Definition closedOrdersValues (showTrades : bool) (userref start end_ offset : Z)
    (closetime : string) : Values :=
  let values : Values := ∅ in
  let values := setIf showTrades "trades" "true" values in
  let values := setIf (nonZero userref) "userref" (Go.FormatInt userref) values in
  let values := setIf (nonZero start) "start" (Go.FormatInt start) values in
  let values := setIf (nonZero end_) "end" (Go.FormatInt end_) values in
  let values := setIf (nonZero offset) "ofs" (Go.FormatInt offset) values in
  setIf (nonEmpty closetime) "closetime" closetime values.

Definition GetClosedOrders (showTrades : bool) (userref start end_ offset : Z)
    (closetime : string) : M State (option error) :=
  notImplemented KRAKEN_CLOSED_ORDERS
    (closedOrdersValues showTrades userref start end_ offset closetime).

(** The parameters that [QueryOrdersInfo] submits. *)
Definition queryOrdersValues (showTrades : bool) (userref txid : Z) : Values :=
  let values : Values := ∅ in
  let values := setIf showTrades "trades" "true" values in
  let values := setIf (nonZero userref) "userref" (Go.FormatInt userref) values in
  setIf (nonZero txid) "txid" (Go.FormatInt userref) values.

Definition QueryOrdersInfo (showTrades : bool) (userref txid : Z)
  : M State (option error) :=
  notImplemented KRAKEN_QUERY_ORDERS (queryOrdersValues showTrades userref txid).

Definition GetTradesHistory (tradeType : string) (showRelatedTrades : bool)
    (start end_ offset : Z) : M State (option error) :=
  let values : Values := ∅ in
  let values := setIf (nonEmpty tradeType) "aclass" tradeType values in
  let values := setIf showRelatedTrades "trades" "true" values in
  let values := setIf (nonZero start) "start" (Go.FormatInt start) values in
  let values := setIf (nonZero end_) "end" (Go.FormatInt end_) values in
  let values := setIf (nonZero offset) "offset" (Go.FormatInt offset) values in
  notImplemented KRAKEN_TRADES_HISTORY values.

Definition QueryTrades (txid : Z) (showRelatedTrades : bool)
  : M State (option error) :=
  let values : Values := Set_ "txid" (Go.FormatInt txid) ∅ in
  let values := setIf showRelatedTrades "trades" "true" values in
  notImplemented KRAKEN_QUERY_TRADES values.

Definition OpenPositions (txid : Z) (showPL : bool) : M State (option error) :=
  let values : Values := Set_ "txid" (Go.FormatInt txid) ∅ in
  let values := setIf showPL "docalcs" "true" values in
  notImplemented KRAKEN_OPEN_POSITIONS values.

Definition GetLedgers (symbol asset ledgerType : string) (start end_ offset : Z)
  : M State (option error) :=
  let values : Values := ∅ in
  let values := setIf (nonEmpty symbol) "aclass" symbol values in
  let values := setIf (nonEmpty asset) "asset" asset values in
  let values := setIf (nonEmpty ledgerType) "type" ledgerType values in
  let values := setIf (nonZero start) "start" (Go.FormatInt start) values in
  let values := setIf (nonZero end_) "end" (Go.FormatInt end_) values in
  let values := setIf (nonZero offset) "offset" (Go.FormatInt offset) values in
  notImplemented KRAKEN_LEDGERS values.

Definition QueryLedgers (id : string) : M State (option error) :=
  notImplemented KRAKEN_QUERY_LEDGERS (Set_ "id" id ∅).

Definition GetTradeVolume (symbol : string) : M State (option error) :=
  notImplemented KRAKEN_TRADE_VOLUME (Set_ "pair" symbol ∅).

(** [AddOrder]; [FormatFloat x] is [strconv.FormatFloat(x, 'f', -1, 64)]. *)
Definition addOrderValues {float64 : Type} (FormatFloat : float64 → string)
    (symbol side orderType : string) (price price2 volume leverage position : float64)
  : Values :=
  let values : Values := Set_ "pairs" symbol ∅ in
  let values := Set_ "type" side values in
  let values := Set_ "ordertype" orderType values in
  let values := Set_ "price" (FormatFloat price) values in
  let values := Set_ "price2" (FormatFloat price) values in
  let values := Set_ "volume" (FormatFloat volume) values in
  let values := Set_ "leverage" (FormatFloat leverage) values in
  Set_ "position" (FormatFloat position) values.

Definition AddOrder {float64 : Type} (FormatFloat : float64 → string)
    (symbol side orderType : string) (price price2 volume leverage position : float64)
  : M State (option error) :=
  notImplemented KRAKEN_ORDER_PLACE
    (addOrderValues FormatFloat symbol side orderType price price2 volume
       leverage position).

End Driver.

End KrakenMore.

(** ** The Gemini driver, continued: orders, trades, withdrawals *)

Module GeminiMore.

Import Gemini.

Definition geminiOrderNew : string := "order/new".
Definition geminiWithdraw : string := "withdraw/".

(** [Order] of the driver's types, with the fields the driver reads. *)
Record Order {float64 : Type} : Type := {
  OrderID : Z;
  Symbol : string;
  Price : float64;
  Side : string;
  IsLive : bool;
  IsCancelled : bool;
  Timestamp : Z;
  OriginalAmount : float64;
  ExecutedAmount : float64;
  RemainingAmount : float64
}.
Arguments Order : clear implicits.

(** [TradeHistory] of the driver's types, with the fields the driver
    reads. *)
Record TradeHistory {float64 : Type} : Type := {
  thOrderID : Z;
  thAmount : float64;
  thPrice : float64;
  thTimestamp : Z;
  thType : string
}.
Arguments TradeHistory : clear implicits.

(** Go's [float64], its zero, [strconv.FormatFloat(x, 'f', -1, 64)], and
    [pair.NewCurrencyPairFromString]. *)
Class Floats (float64 : Type) : Type := {
  zeroFloat : float64;
  FormatFloat : float64 → string;
  NewCurrencyPairFromString : string → Pair.CurrencyPair
}.

Section Driver.

Context {L : Library} {float64 : Type} {F : Floats float64}.

(** [Order{}]. *)
Definition zeroOrder : Order float64 :=
  {| OrderID := 0; Symbol := ""; Price := zeroFloat; Side := "";
     IsLive := false; IsCancelled := false; Timestamp := 0;
     OriginalAmount := zeroFloat; ExecutedAmount := zeroFloat;
     RemainingAmount := zeroFloat |}.

(** *** NewOrder *)

Definition NewOrder (symbol : Pair.CurrencyPair) (amount price : float64)
    (side orderType : string) : M State (string * option error) :=
  let request : gmap string value :=
    <["type" := VString orderType]>
      (<["side" := VString side]>
         (<["price" := VString (FormatFloat price)]>
            (<["amount" := VString (FormatFloat amount)]>
               (<["symbol" := VString (Pair.Display symbol "" false)]> ∅)))) in
  '(response, err) ←
    SendAuthenticatedHTTPRequest "POST" geminiOrderNew (Some request) zeroOrder;
  if negb (isNil err) then mret ("", err)
  else mret (Go.FormatInt (OrderID response), None).

(** *** orderToExchangeOrder, tradeHistoryToExchangeOrders *)

Definition orderToExchangeOrder (inOrder : Order float64) : Exchange.Order float64 :=
  {| Exchange.OrderID := Go.FormatInt (OrderID inOrder);
     Exchange.Status :=
       if IsLive inOrder then Exchange.OrderStatusActive
       else if IsCancelled inOrder then Exchange.OrderStatusAborted
       else Exchange.OrderStatusFilled;
     Exchange.Amount := OriginalAmount inOrder;
     Exchange.FilledAmount := ExecutedAmount inOrder;
     Exchange.RemainingAmount := RemainingAmount inOrder;
     Exchange.Rate := Price inOrder;
     Exchange.CreatedAt := Timestamp inOrder;
     Exchange.CurrencyPair := NewCurrencyPairFromString (Symbol inOrder);
     Exchange.Side := Side inOrder;
     Exchange.Type_ := None |}.

(** The body of the loop of [tradeHistoryToExchangeOrders]. *)
Definition tradeToOrder (symbol : string) (trade : TradeHistory float64)
  : Exchange.Order float64 :=
  {| Exchange.OrderID := Go.FormatInt (thOrderID trade);
     Exchange.Status := Exchange.OrderStatusFilled;
     Exchange.Amount := zeroFloat;
     Exchange.FilledAmount := thAmount trade;
     Exchange.RemainingAmount := zeroFloat;
     Exchange.Rate := thPrice trade;
     Exchange.CreatedAt := thTimestamp trade;
     Exchange.CurrencyPair := NewCurrencyPairFromString (Go.ToUpper symbol);
     Exchange.Side := Go.ToLower (thType trade);
     Exchange.Type_ := None |}.

Fixpoint tradeHistoryToExchangeOrders (symbol : string)
    (pastTrades : list (TradeHistory float64)) : list (Exchange.Order float64) :=
  match pastTrades with
  | [] => []
  | trade :: pastTrades' =>
      tradeToOrder symbol trade :: tradeHistoryToExchangeOrders symbol pastTrades'
  end.

(** *** WithdrawCrypto *)

(** [WithdrawCrypto] fills a request map and then passes [nil] for the
    parameters.  [WithdrawalAddress] is the type of its first result,
    [zero] its zero value; the result is read after the call. *)
Definition WithdrawCrypto {WithdrawalAddress : Type} (zero : WithdrawalAddress)
    (address currency : string) (amount : float64)
  : M State (WithdrawalAddress * option error) :=
  let request : gmap string value :=
    <["amount" := VString (FormatFloat amount)]>
      (<["address" := VString address]> ∅) in
  SendAuthenticatedHTTPRequest "POST" (geminiWithdraw ++ currency) None zero.

End Driver.

End GeminiMore.

(** ** The Kraken driver: requests that overlap *)

Module KrakenConcurrent.

Import Kraken.

(** Where a request stands in the nonce draw of
    [SendAuthenticatedHTTPRequest], once it has passed the test of
    [AuthenticatedAPISupport]: before [k.Nonce.Get()], before
    [time.Now().UnixNano()], before [k.Nonce.Set(t)], before
    [k.Nonce.Inc()], before [k.Nonce.String()], or with the [nonce]
    field of its values set. *)
Inductive point : Type :=
| AtGet
| AtNow
| AtSet (t : Z)
| AtInc
| AtString
| Drawn (nonce : string).

(** One step of a request on the driver and the world it shares with
    the other requests.

    Modelled from the spec: package [nonce] is not among the sources.
    "Nonce Sequencer increments are serialized per credential via an
    atomic counter or equivalent short critical section": a call of
    [Get], [Set], [Inc] or [String] is one step.
    [SendAuthenticatedHTTPRequest] holds no lock from one call to the
    next. *)
Definition step (p : point) (s : State) : point * State :=
  match p with
  | AtGet => (if Nonce.Get (Nonce s.1) =? 0 then AtNow else AtInc, s)
  | AtNow => let '(t, w) := Net.now s.2 in (AtSet t, (s.1, w))
  | AtSet t => (AtString, (withNonce (Nonce.Set_ t (Nonce s.1)) s.1, s.2))
  | AtInc => (AtString, (withNonce (Nonce.Inc (Nonce s.1)) s.1, s.2))
  | AtString => (Drawn (Nonce.String_ (Nonce s.1)), s)
  | Drawn nonce => (Drawn nonce, s)
  end.

(** Requests on one driver under a schedule: each entry of the schedule
    names the request that takes the next step. *)
Fixpoint run (schedule : list nat) (requests : list point) (s : State)
  : list point * State :=
  match schedule with
  | [] => (requests, s)
  | i :: schedule' =>
      match requests !! i with
      | Some p => let '(p', s') := step p s in run schedule' (<[i := p']> requests) s'
      | None => run schedule' requests s
      end
  end.

End KrakenConcurrent.

(** ** More concrete surroundings

    Stand-ins for what the further functions of the drivers take from
    outside, and exchanges that fail. *)

Module SampleMore.

Import Sample.

(** A decimal as its coefficient and its exponent. *)
Definition tick (coefficient exponent : Z) : Z * Z := (coefficient, exponent).

Definition priceFilter (exponent : Z) : BinanceMore.Filter (Z * Z) :=
  {| BinanceMore.FilterType := "PRICE_FILTER";
     BinanceMore.TickSize := tick 1 exponent;
     BinanceMore.StepSize := tick 0 0; BinanceMore.MinQty := tick 0 0;
     BinanceMore.MinNotional := tick 0 0 |}.

Definition lotSize (exponent : Z) : BinanceMore.Filter (Z * Z) :=
  {| BinanceMore.FilterType := "LOT_SIZE";
     BinanceMore.TickSize := tick 0 0;
     BinanceMore.StepSize := tick 1 exponent; BinanceMore.MinQty := tick 1 exponent;
     BinanceMore.MinNotional := tick 0 0 |}.

(** The symbols of the stand-in exchange: ETHBTC with a tick size of
    1e-6, LTCBTC without a price filter. *)
Definition symbols : list (BinanceMore.SymbolInfo (Z * Z)) :=
  [{| BinanceMore.siSymbol := "ETHBTC"; BinanceMore.BaseAsset := "ETH";
      BinanceMore.QuoteAsset := "BTC";
      BinanceMore.Filters := [priceFilter (-6); lotSize (-3)] |};
   {| BinanceMore.siSymbol := "LTCBTC"; BinanceMore.BaseAsset := "LTC";
      BinanceMore.QuoteAsset := "BTC";
      BinanceMore.Filters := [lotSize (-2)] |}].

Definition balances : list (BinanceMore.Balance Q) :=
  [{| BinanceMore.Asset := "BTC"; BinanceMore.Free := 1%Q;
      BinanceMore.Locked := (1 # 2)%Q |};
   {| BinanceMore.Asset := "ETH"; BinanceMore.Free := 0%Q;
      BinanceMore.Locked := 3%Q |}].

(** The rest of the Binance stand-in.  Every order is acknowledged under
    the ID 4242; the account is rate limited and answers with the
    balances of its last fetch on the first request, and fails
    afterwards. *)
#[local] Instance binanceMore : BinanceMore.More Q (list string) := {|
  BinanceMore.OrderTypeExchangeLimit := "exchange limit";
  BinanceMore.TimeInForceGTC := "GTC";
  BinanceMore.FilterTypePrice := "PRICE_FILTER";
  BinanceMore.FilterTypeLotSize := "LOT_SIZE";
  BinanceMore.FilterTypeMinNotional := "MIN_NOTIONAL";
  BinanceMore.zeroFloat := 0%Q;
  BinanceMore.decimal := (Z * Z)%type;
  BinanceMore.Exponent := snd;
  BinanceMore.Float64 := λ d, (inject_Z d.1 * Qpower 10 d.2)%Q;
  BinanceMore.decimalAdd := Qplus;
  BinanceMore.OrderAck := Z;
  BinanceMore.OrderID := λ ack, ack;
  BinanceMore.PostOrderAck := λ params w,
    ((Some 4242, None), (w ++ [("POST " ++ BinanceMore.poSymbol params)%string])%list);
  BinanceMore.FetchOrder := λ symbol id origClientOrderID w,
    ((Some (order id "NEW" 1%Q 0%Q), None), (w ++ [("GET " ++ symbol)%string])%list);
  BinanceMore.FetchAccountInfo := λ w,
    (match w with
     | [] => (Some balances, Some Go.WarningHTTPRequestRateLimited)
     | _ => (None, Some (Go.ExternalError "401 Unauthorized"))
     end, (w ++ ["account"])%list);
  BinanceMore.FetchExchangeInfo := λ w,
    ((Some symbols, None), (w ++ ["exchangeInfo"])%list);
  BinanceMore.UpdateAvailableCurrencies := λ exchangeProducts force w, (None, w)
|}.

(** A Binance driver that has made a request already. *)
Definition binanceUsed : Binance.Binance Q (list string) :=
  {| Binance.Name := "Binance"; Binance.Enabled := true;
     Binance.Orderbooks := ∅; Binance.symbolDetailsMap := ∅;
     Binance.rest := ["depth"] |}.

(** A Binance exchange whose depth endpoint is down. *)
Definition binanceDown : Binance.Bindings Q (list string) := {|
  Binance.isZero := qIsZero;
  Binance.decimalSub := Qminus;
  Binance.OrderStatusNew := "NEW";
  Binance.OrderStatusPartial := "PARTIALLY_FILLED";
  Binance.OrderStatusFilled := "FILLED";
  Binance.OrderStatusCanceled := "CANCELED";
  Binance.OrderStatusPendingCancel := "PENDING_CANCEL";
  Binance.OrderStatusRejected := "REJECTED";
  Binance.OrderStatusExpired := "EXPIRED";
  Binance.OrderTypeLimit := "LIMIT";
  Binance.CurrencyPairToSymbol := λ p, Pair.Display p "" true;
  Binance.SymbolToCurrencyPair := λ s, (Pair.NewCurrencyPair s "", None);
  Binance.FetchMarketData := λ symbol limit w,
    ((None, Some (Go.ExternalError "503 Service Unavailable")), (w ++ [symbol])%list);
  Binance.FetchOpenOrders := λ symbol w,
    (([], Some (Go.ExternalError "503 Service Unavailable")), (w ++ [symbol])%list);
  Binance.DeleteOrder := λ symbol id origClientOrderID w,
    (Some (Go.ExternalError "503 Service Unavailable"), (w ++ [symbol])%list)
|}.

(** A Liqui exchange whose depth has a bid without an amount. *)
Definition liquiShort : Liqui.Bindings Q nat := {|
  Liqui.zeroFloat := 0%Q;
  Liqui.GetEnabledCurrencies := λ _, [ETHBTC];
  Liqui.GetAndFormatExchangeCurrencies := λ name ps, ("eth_btc", None);
  Liqui.FormatExchangeCurrency := λ name p, Pair.Display p "_" false;
  Liqui.GetTicker := λ pairs w, (∅, None, S w);
  Liqui.GetDepth := λ symbol w,
    ({| Liqui.Bids := [[(9 # 100)%Q]]; Liqui.Asks := [[(11 # 100)%Q; 3%Q]] |},
     None, S w)
|}.

(** A library whose Base64 decoder rejects every secret. *)
Definition krakenBadSecret : Kraken.Library := {|
  Kraken.Base64Decode := λ s, ("", Some (Go.ExternalError "illegal base64 data"));
  Kraken.Base64Encode := λ s, s;
  Kraken.GetSHA256 := λ s, "sha256(" ++ s ++ ")";
  Kraken.GetHMAC_SHA512 := λ msg key, "hmac(" ++ msg ++ ")";
  Kraken.Encode := λ v,
    String.concat "&" (map (λ kv, kv.1 ++ "=" ++ String.concat "," kv.2)
                           (map_to_list v));
  Kraken.JSONDecode := λ R resp r, (r, None);
  Kraken.jsonUnmarshal := λ V raw v, (v, None);
  Kraken.SendHTTPGetRequest := λ R path jsonDecode verbose r w, (r, None, w);
  Kraken.Error := λ e, "error"
|}.

(** A Kraken driver whose nonce is set. *)
Definition krakenRunning : Kraken.Kraken :=
  {| Kraken.Name := "Kraken"; Kraken.Verbose := false;
     Kraken.AuthenticatedAPISupport := true; Kraken.APIKey := "key";
     Kraken.APISecret := "not base64"; Kraken.Nonce := 41 |}.

(** A library whose JSON encoder fails. *)
Definition geminiNoJSON : Gemini.Library := {|
  Gemini.GetValue := λ name inc n w, (Nonce.Inc n, Nonce.Inc n, w);
  Gemini.JSONEncode := λ request, ("", Some (Go.ExternalError "json: unsupported value"));
  Gemini.Base64Encode := λ s, s;
  Gemini.GetHMAC_SHA512_384 := λ msg key, "hmac(" ++ msg ++ ")";
  Gemini.HexEncodeToString := λ s, s;
  Gemini.decodeErrorCapture := λ resp,
    ({| Gemini.ecResult := ""; Gemini.ecReason := ""; Gemini.ecMessage := "" |}, None);
  Gemini.JSONDecode := λ R resp r, (r, None)
|}.

#[local] Instance geminiFloats : GeminiMore.Floats Q := {|
  GeminiMore.zeroFloat := 0%Q;
  GeminiMore.FormatFloat := λ x,
    (Go.FormatInt (Qnum x) ++ "/" ++ Go.FormatInt (Z.pos (Qden x)))%string;
  GeminiMore.NewCurrencyPairFromString := λ s,
    Pair.NewCurrencyPair (substring 0 3 s) (substring 3 (String.length s - 3) s)
|}.

(** An order of the Gemini API. *)
Definition geminiOrder : GeminiMore.Order Q :=
  {| GeminiMore.OrderID := 107317752; GeminiMore.Symbol := "ethbtc";
     GeminiMore.Price := (1 # 10)%Q; GeminiMore.Side := "buy";
     GeminiMore.IsLive := true; GeminiMore.IsCancelled := false;
     GeminiMore.Timestamp := 1514764800;
     GeminiMore.OriginalAmount := 5%Q; GeminiMore.ExecutedAmount := 2%Q;
     GeminiMore.RemainingAmount := 3%Q |}.

(** The ticker that the Liqui stand-in answers with for ETH/BTC, as the
    driver stores it, and the driver after it has fetched it. *)
Definition tickerETHBTC : Ticker.Price Q :=
  {| Ticker.Pair_ := ETHBTC; Ticker.Last := 1%Q; Ticker.High := 0%Q;
     Ticker.Low := 1%Q; Ticker.Bid := 1%Q; Ticker.Ask := 1%Q;
     Ticker.Volume := 1%Q |}.

Definition liquiTicked : Liqui.Liqui Q nat :=
  {| Liqui.Name := "Liqui"; Liqui.Orderbooks := ∅;
     Liqui.Tickers := <[("Liqui", ETHBTC, "SPOT") := tickerETHBTC]> ∅;
     Liqui.rest := 1%nat |}.

End SampleMore.

(** * Properties *)

(** ** The Binance driver *)

Module BinanceSpec.

Import Binance.

Section Properties.

Context {float64 W : Type} {B : Bindings float64 W}.

Lemma isRateLimited_true (err : option error) :
  isRateLimited err = true ↔ err = Some Go.WarningHTTPRequestRateLimited.
Proof. unfold isRateLimited. apply bool_decide_eq_true. Qed.

(** *** GetOrders *)

Lemma fetchEach_length pairs : ∀ w, length (fetchEach pairs w) = length pairs.
Proof.
  induction pairs as [|p pairs IH]; intros w; cbn; [done|].
  destruct (FetchOpenOrders _ w) as [r w']. cbn. by rewrite IH.
Qed.

Lemma filter_all_length {A} (P : A → Prop) `{∀ x, Decision (P x)} (l : list A) :
  length (filter P l) = length l ↔ Forall P l.
Proof.
  induction l as [|x l IH].
  - split; [constructor|done].
  - pose proof (length_filter P l) as Hle.
    rewrite filter_cons. destruct (decide (P x)) as [Hx|Hx]; cbn [length].
    + rewrite Forall_cons. split; [intros ?; split; [done|apply IH; lia]|].
      intros [_ Hl]. f_equal. by apply IH.
    + split; [lia|]. intros Hf. by apply Forall_cons in Hf as [? _].
Qed.

Lemma getOrdersLoop_spec pairs : ∀ count ret (b : Binance float64 W),
  ∃ b', getOrdersLoop pairs count ret b =
    (Returned
      (let rs := fetchEach pairs (rest b) in
       match firstOtherError rs with
       | Some e => inr e
       | None => inl (count + Z.of_nat (length (filter rateLimited rs)),
                      (ret ++ ordersOf rs)%list)
       end), b').
Proof.
  induction pairs as [|p pairs IH]; intros count ret b.
  - exists b. cbn. unfold ordersOf. cbn. by rewrite Z.add_0_r, app_nil_r.
  - cbn [getOrdersLoop fetchEach]. unfold call. run.
    destruct (FetchOpenOrders (CurrencyPairToSymbol p) (rest b)) as [[orders err] w'].
    unfold firstOtherError, ordersOf. cbn.
    destruct err as [e|].
    + destruct (isRateLimited (Some e)) eqn:Hrl.
      * edestruct IH as [b' ->]. exists b'. cbn.
        unfold otherError at 1. cbn. rewrite Hrl.
        apply isRateLimited_true in Hrl.
        destruct (decide (rateLimited (orders, Some e))) as [_|Hn]; [|done].
        unfold firstOtherError, ordersOf.
        destruct (head _); [done|]. cbn [length].
        rewrite <- app_assoc, Nat2Z.inj_succ, <- Z.add_1_l, Z.add_assoc. done.
      * eexists. unfold otherError at 1. cbn. by rewrite Hrl.
    + edestruct IH as [b' ->]. exists b'. cbn.
      destruct (decide (rateLimited (orders, None))) as [Hn|_]; [done|].
      unfold firstOtherError, ordersOf.
      destruct (head _); [done|]. by rewrite <- app_assoc.
Qed.

Lemma otherError_Some (r : list (Order float64) * option error) e :
  otherError r = Some e ↔ r.2 = Some e ∧ e ≠ Go.WarningHTTPRequestRateLimited.
Proof.
  unfold otherError. destruct r.2 as [e'|]; [|by split; [|intros [? _]]].
  destruct (isRateLimited (Some e')) eqn:Hrl.
  - apply isRateLimited_true in Hrl. split; [done|]. intros [[= ->] ?]. congruence.
  - split; [intros [= ->]|by intros [? _]]. split; [done|]. intros ->.
    by rewrite (proj2 (isRateLimited_true _)) in Hrl.
Qed.

(** The first other error is the error of one of the fetches, and is
    not the rate-limit value. *)
Lemma firstOtherError_Some (rs : list (list (Order float64) * option error)) e :
  firstOtherError rs = Some e →
  e ≠ Go.WarningHTTPRequestRateLimited ∧ ∃ r, r ∈ rs ∧ r.2 = Some e.
Proof.
  unfold firstOtherError. intros Hh.
  assert (e ∈ omap otherError rs) as Hin.
  { destruct (omap otherError rs); [done|]. injection Hh as ->. left. }
  apply list_elem_of_omap in Hin as (r & Hr & He).
  apply otherError_Some in He as [? ?]. eauto.
Qed.

(** C8.  Called with a non-empty list of pairs, [GetOrders] returns;
    it returns the rate-limit value as its error exactly when every
    per-pair fetch was rate limited; a fetch that fails with any other
    error fails the call with that error and no orders; otherwise the
    orders are those of every fetch in turn, a rate-limited fetch
    contributing the orders it returned with the rate-limit value (those
    of the last successful fetch), and the error is [nil] unless every
    pair was rate limited. *)
Theorem GetOrders_rate_limit_fallback pairs (b : Binance float64 W) :
  pairs ≠ [] →
  let rs := fetchEach pairs (rest b) in
  ∃ ret err,
    (GetOrders pairs b).1 = Returned (ret, err) ∧
    (err = Some Go.WarningHTTPRequestRateLimited ↔ Forall rateLimited rs) ∧
    (∀ e, firstOtherError rs = Some e → ret = [] ∧ err = Some e) ∧
    (firstOtherError rs = None → ret = ordersOf rs) ∧
    (firstOtherError rs = None → ¬ Forall rateLimited rs → err = None).
Proof.
  intros Hne rs.
  assert (Hlen : (0 <? Z.of_nat (length pairs)) = true).
  { destruct pairs; [done|]. apply Z.ltb_lt. cbn [length]. lia. }
  unfold GetOrders. rewrite Hlen. run.
  destruct (getOrdersLoop_spec pairs 0 [] b) as [b' ->]. fold rs. cbn.
  pose proof (filter_all_length rateLimited rs) as Hall.
  assert (Hrs : length rs = length pairs) by apply fetchEach_length.
  rewrite Hrs in Hall.
  destruct (firstOtherError rs) as [e|] eqn:Hfirst.
  - apply firstOtherError_Some in Hfirst as (He & r & Hr & Hre).
    exists [], (Some e). cbn. split_and!; try done.
    split; [congruence|]. intros Hf.
    rewrite Forall_forall in Hf. specialize (Hf r Hr). unfold rateLimited in Hf.
    congruence.
  - destruct (Z.eqb_spec (0 + Z.of_nat (length (filter rateLimited rs)))
                         (Z.of_nat (length pairs))) as [Heq|Hneq].
    + assert (Forall rateLimited rs) by (apply Hall; lia).
      eexists _, _. split; [done|]. cbn. split_and!; try done.
    + assert (¬ Forall rateLimited rs) by (intros ?%Hall; lia).
      eexists _, _. split; [done|]. cbn. split_and!; try done.
Qed.
(** *** The order-state normaliser *)

Lemma switchStatus_aborted status :
  status ∈ [OrderStatusCanceled; OrderStatusPendingCancel;
            OrderStatusExpired; OrderStatusRejected] →
  switchStatus status = Exchange.OrderStatusAborted.
Proof. intros H. unfold switchStatus. by rewrite bool_decide_eq_true_2. Qed.

Lemma switchStatus_filled status :
  status ∉ [OrderStatusCanceled; OrderStatusPendingCancel;
            OrderStatusExpired; OrderStatusRejected] →
  status = OrderStatusFilled →
  switchStatus status = Exchange.OrderStatusFilled.
Proof.
  intros Ha Hf. unfold switchStatus.
  by rewrite (bool_decide_eq_false_2 _ Ha), (bool_decide_eq_true_2 _ Hf).
Qed.

Lemma switchStatus_rest status :
  status ∉ [OrderStatusCanceled; OrderStatusPendingCancel;
            OrderStatusExpired; OrderStatusRejected] →
  status ≠ OrderStatusFilled →
  switchStatus status =
    if bool_decide (status ∈ [OrderStatusNew; OrderStatusPartial])
    then Exchange.OrderStatusActive else Exchange.OrderStatusUnknown.
Proof.
  intros Ha Hf. unfold switchStatus.
  by rewrite (bool_decide_eq_false_2 _ Ha), (bool_decide_eq_false_2 _ Hf).
Qed.

Lemma switchStatus_active_inv status :
  switchStatus status = Exchange.OrderStatusActive →
  status ∈ [OrderStatusNew; OrderStatusPartial].
Proof.
  unfold switchStatus.
  destruct (bool_decide (status ∈ [OrderStatusCanceled; _; _; _])); [done|].
  destruct (bool_decide (status = OrderStatusFilled)); [done|].
  destruct (bool_decide_reflect (status ∈ [OrderStatusNew; OrderStatusPartial]));
    done.
Qed.

(** C7.  The raw-to-canonical mapping (the [switch] of
    [convertOrderToExchangeOrder]) is a total function; when the raw
    constants are distinct, new and partially-filled map to Active,
    filled maps to Filled, canceled, pending-cancel, expired and
    rejected map to Aborted, every other raw value maps to Unknown,
    and only new and partially-filled map to Active. *)
Theorem switchStatus_total :
  NoDup vocabulary →
  switchStatus OrderStatusNew = Exchange.OrderStatusActive ∧
  switchStatus OrderStatusPartial = Exchange.OrderStatusActive ∧
  switchStatus OrderStatusFilled = Exchange.OrderStatusFilled ∧
  switchStatus OrderStatusCanceled = Exchange.OrderStatusAborted ∧
  switchStatus OrderStatusPendingCancel = Exchange.OrderStatusAborted ∧
  switchStatus OrderStatusExpired = Exchange.OrderStatusAborted ∧
  switchStatus OrderStatusRejected = Exchange.OrderStatusAborted ∧
  (∀ status, status ∉ vocabulary →
             switchStatus status = Exchange.OrderStatusUnknown) ∧
  (∀ status, switchStatus status = Exchange.OrderStatusActive →
             status = OrderStatusNew ∨ status = OrderStatusPartial).
Proof.
  unfold vocabulary. rewrite !NoDup_cons, !not_elem_of_cons.
  intros Hnd.
  assert (Hin : ∀ (s a b c d : string), s ∈ [a; b; c; d] ↔ s = a ∨ s = b ∨ s = c ∨ s = d).
  { intros. rewrite !elem_of_cons, elem_of_nil. tauto. }
  assert (Hin2 : ∀ (s a b : string), s ∈ [a; b] ↔ s = a ∨ s = b).
  { intros. rewrite !elem_of_cons, elem_of_nil. tauto. }
  split_and!.
  - rewrite switchStatus_rest, bool_decide_eq_true_2; rewrite ?Hin, ?Hin2; intuition congruence.
  - rewrite switchStatus_rest, bool_decide_eq_true_2; rewrite ?Hin, ?Hin2; intuition congruence.
  - apply switchStatus_filled; rewrite ?Hin; intuition congruence.
  - apply switchStatus_aborted; rewrite Hin; tauto.
  - apply switchStatus_aborted; rewrite Hin; tauto.
  - apply switchStatus_aborted; rewrite Hin; tauto.
  - apply switchStatus_aborted; rewrite Hin; tauto.
  - intros status Hs. rewrite !not_elem_of_cons in Hs.
    rewrite switchStatus_rest, bool_decide_eq_false_2; rewrite ?Hin, ?Hin2; intuition congruence.
  - intros status Hs. apply switchStatus_active_inv in Hs. by apply Hin2.
Qed.

(** C3.  When the computed remaining amount (amount minus filled
    amount) is zero, the converted order has status Filled, whatever
    the raw status was. *)
Theorem zero_remaining_is_filled (order : Order float64) :
  isZero (decimalSub (OrigQty order) (ExecutedQty order)) = true →
  Exchange.RemainingAmount (convertOrderToExchangeOrder order)
    = decimalSub (OrigQty order) (ExecutedQty order) ∧
  Exchange.Status (convertOrderToExchangeOrder order)
    = Exchange.OrderStatusFilled.
Proof.
  intros Hz. unfold convertOrderToExchangeOrder. cbn. by rewrite Hz.
Qed.

(** Otherwise the status is the one the raw status maps to. *)
Lemma nonzero_remaining_keeps_status (order : Order float64) :
  isZero (decimalSub (OrigQty order) (ExecutedQty order)) = false →
  Exchange.Status (convertOrderToExchangeOrder order)
    = switchStatus (Status order).
Proof.
  intros Hz. unfold convertOrderToExchangeOrder. cbn. by rewrite Hz.
Qed.

(** A converted order is Active only when its raw status is new or
    partially-filled: the zero-remaining rule turns orders into Filled,
    never into Active. *)
Lemma active_only_from_new_or_partial (order : Order float64) :
  Exchange.Status (convertOrderToExchangeOrder order) = Exchange.OrderStatusActive →
  Status order ∈ [OrderStatusNew; OrderStatusPartial].
Proof.
  unfold convertOrderToExchangeOrder. cbn.
  destruct (isZero _); [discriminate|]. apply switchStatus_active_inv.
Qed.

(** *** GetOrderbookEx *)

(** With a snapshot in the cache, [GetOrderbookEx] does what
    [UpdateOrderbook] does: it fetches. *)
Lemma Binance_GetOrderbookEx_cached p assetType (b : Binance float64 W) ob :
  Orderbooks b !! (Name b, p, assetType) = Some ob →
  GetOrderbookEx p assetType b = UpdateOrderbook p assetType b.
Proof.
  intros Hc. unfold GetOrderbookEx, Orderbook.GetOrderbook. run. by rewrite Hc.
Qed.

(** Without one, it returns the zero book and no error, and fetches
    nothing. *)
Lemma Binance_GetOrderbookEx_not_cached p assetType (b : Binance float64 W) :
  Orderbooks b !! (Name b, p, assetType) = None →
  GetOrderbookEx p assetType b = (Returned (Orderbook.zero, None), b).
Proof.
  intros Hc. unfold GetOrderbookEx, Orderbook.GetOrderbook. run. by rewrite Hc.
Qed.

(** *** CancelOrder *)

(** An order ID that does not parse is answered with the parse error
    and reaches no binding; one that parses is deleted under its ID. *)
Lemma Binance_CancelOrder_parse orderID currencyPair (b : Binance float64 W) :
  CancelOrder orderID currencyPair b =
    match Go.ParseInt orderID with
    | (_, Some e) => (Returned (Some e), b)
    | (id, None) => call (DeleteOrder (CurrencyPairToSymbol currencyPair) id "") b
    end.
Proof.
  unfold CancelOrder. destruct (Go.ParseInt orderID) as [id [e|]]; done.
Qed.

(** *** The limits accessors *)

Lemma Binance_GetPriceDecimalPlaces_missing (cl : currencyLimits float64) p :
  data cl !! Pair.Display p "/" false = None →
  GetPriceDecimalPlaces cl p = 0.
Proof. intros Hm. unfold GetPriceDecimalPlaces. by rewrite Hm. Qed.

Lemma Binance_GetAmountDecimalPlaces_missing (cl : currencyLimits float64) p :
  data cl !! Pair.Display p "/" false = None →
  GetAmountDecimalPlaces cl p = 0.
Proof. intros Hm. unfold GetAmountDecimalPlaces. by rewrite Hm. Qed.

End Properties.

End BinanceSpec.

(** ** The Liqui driver *)

Module LiquiSpec.
Import Liqui.
Section Properties.
Context {float64 W : Type} {B : Bindings float64 W}.

Lemma Liqui_GetOrderbookEx_cached p assetType (l : Liqui float64 W) ob :
  Orderbooks l !! (Name l, p, assetType) = Some ob →
  GetOrderbookEx p assetType l = UpdateOrderbook p assetType l.
Proof.
  intros Hc. unfold GetOrderbookEx, Orderbook.GetOrderbook. run. by rewrite Hc.
Qed.

Lemma Liqui_GetOrderbookEx_not_cached p assetType (l : Liqui float64 W) :
  Orderbooks l !! (Name l, p, assetType) = None →
  GetOrderbookEx p assetType l = (Returned (Orderbook.zero, None), l).
Proof.
  intros Hc. unfold GetOrderbookEx, Orderbook.GetOrderbook. run. by rewrite Hc.
Qed.

(** [GetTickerPrice] has the test the other way round: the stored
    ticker when there is one, an update when there is none. *)
Lemma Liqui_GetTickerPrice_cached p assetType (l : Liqui float64 W) t :
  Tickers l !! (Name l, p, assetType) = Some t →
  GetTickerPrice p assetType l = (Returned (t, None), l).
Proof.
  intros Hc. unfold GetTickerPrice, Ticker.GetTicker. run. by rewrite Hc.
Qed.

Lemma Liqui_GetTickerPrice_not_cached p assetType (l : Liqui float64 W) :
  Tickers l !! (Name l, p, assetType) = None →
  GetTickerPrice p assetType l = UpdateTicker p assetType l.
Proof.
  intros Hc. unfold GetTickerPrice, Ticker.GetTicker. run. by rewrite Hc.
Qed.

End Properties.
End LiquiSpec.

(** ** The Gemini driver *)

Module GeminiSpec.
Import Gemini.

Lemma Gemini_GetPriceDecimalPlaces_missing (l : currencyLimits) p :
  lookupInfo l (Go.ToUpper (Pair.FirstCurrency p ++ Pair.SecondCurrency p)) = None →
  GetPriceDecimalPlaces l p = -1.
Proof. intros Hm. unfold GetPriceDecimalPlaces. by rewrite Hm. Qed.

Lemma Gemini_GetAmountDecimalPlaces_missing (l : currencyLimits) p :
  lookupInfo l (Go.ToUpper (Pair.FirstCurrency p ++ Pair.SecondCurrency p)) = None →
  GetAmountDecimalPlaces l p = -1.
Proof. intros Hm. unfold GetAmountDecimalPlaces. by rewrite Hm. Qed.

(** *** The session registry *)

(** C10.  [AddSession] with an ID that is registered returns the error
    and leaves the registry (and every driver) as it was.  With an ID
    that is not registered, and [g] pointing to a driver, it returns
    [nil]; afterwards the ID maps to [g], the driver there has the given
    key, secret, role and heartbeat flag and the sandbox or production
    URL as [isSandbox] says, and every other ID maps to what it mapped to
    before. *)
Theorem AddSession_registry (g : loc) (sessionID : Z)
    (apiKey apiSecret role : string) (needsHeartbeat isSandbox : bool)
    (r : Registry) :
  (is_Some (sessions r !! sessionID) →
   AddSession g sessionID apiKey apiSecret role needsHeartbeat isSandbox r =
     (Returned (Some (Go.errorsNew "sessionID already being used")), r)) ∧
  (∀ d, sessions r !! sessionID = None → heap r !! g = Some d →
   ∃ r' d',
     AddSession g sessionID apiKey apiSecret role needsHeartbeat isSandbox r =
       (Returned None, r') ∧
     sessions r' !! sessionID = Some g ∧
     session r' sessionID = Some d' ∧
     APIKey d' = apiKey ∧ APISecret d' = apiSecret ∧ Role d' = role ∧
     RequiresHeartBeat d' = needsHeartbeat ∧
     APIUrl d' = (if isSandbox then geminiSandboxAPIURL else geminiAPIURL) ∧
     (∀ id, id ≠ sessionID → sessions r' !! id = sessions r !! id)).
Proof.
  unfold sessions, session. split.
  - intros [g0 Hg0]. unfold AddSession. run. rewrite Hg0.
    destruct r as [[m|] h]; [done|]. cbn in Hg0. by rewrite lookup_empty in Hg0.
  - intros d Hnone Hd. unfold AddSession. run. rewrite Hnone, Hd.
    eexists _, _. split; [done|]. cbn.
    rewrite !lookup_insert_eq. cbn. rewrite lookup_insert_eq.
    split_and!; try done.
    intros id Hid. by rewrite lookup_insert_ne.
Qed.
(** *** Authenticated requests *)

Section Properties.
Context {L : Library}.

Lemma Gemini_SendAuthenticatedHTTPRequest_no_credentials {R} method path params
    (result : R) (g : Gemini) (w : Net.World) :
  AuthenticatedAPISupport g = false →
  SendAuthenticatedHTTPRequest method path params result (g, w) =
    (Returned (result,
               Some (Go.WarningAuthenticatedRequestWithoutCredentialsSet (Name g))),
     (g, w)).
Proof.
  intros Ha. unfold SendAuthenticatedHTTPRequest, self. run. by rewrite Ha.
Qed.

Lemma Gemini_CancelOrder_parse {Order} (zeroOrder : Order) orderStr currencyPair
    (s : Gemini * Net.World) :
  CancelOrder zeroOrder orderStr currencyPair s =
    match Go.ParseInt orderStr with
    | (_, Some e) => (Returned (Some e), s)
    | (id, None) =>
        match CancelOrderEx zeroOrder id s with
        | (Returned (_, err), s') => (Returned err, s')
        | (Panicked msg, s') => (Panicked msg, s')
        end
    end.
Proof.
  unfold CancelOrder. destruct (Go.ParseInt orderStr) as [id [e|]]; [done|].
  run. destruct (CancelOrderEx zeroOrder id s) as [[[o err]|msg] s']; done.
Qed.

End Properties.
End GeminiSpec.

(** ** The Kraken driver *)

Module KrakenSpec.
Import Kraken.

Lemma int64_id z : Go.MinInt64 ≤ z ≤ Go.MaxInt64 → Go.int64 z = z.
Proof.
  unfold Go.int64, Go.MinInt64, Go.MaxInt64. intros Hz.
  rewrite Z.mod_small; lia.
Qed.

Lemma Get_Set_ key value (v : Values) : Get key (Set_ key value v) = value.
Proof. unfold Get, Set_. by rewrite lookup_insert_eq. Qed.

Section Properties.
Context {L : Library}.

Lemma Kraken_SendAuthenticatedHTTPRequest_no_credentials {R} method values
    (result : R) (k : Kraken) (w : Net.World) :
  AuthenticatedAPISupport k = false →
  SendAuthenticatedHTTPRequest method values result (k, w) =
    (Returned (values, result,
               Some (Go.WarningAuthenticatedRequestWithoutCredentialsSet (Name k))),
     (k, w)).
Proof.
  intros Ha. unfold SendAuthenticatedHTTPRequest, self. run. by rewrite Ha.
Qed.

(** [CancelOrder] has the test on the parse error the wrong way
    round: an ID that parses is answered with [nil] and nothing is
    cancelled; one that does not parse is cancelled under the number
    that [ParseInt] returned with its error. *)
Lemma Kraken_CancelOrder_parse orderStr (s : Kraken * Net.World) :
  CancelOrder orderStr s =
    match Go.ParseInt orderStr with
    | (id, Some _) => cancelOrder id s
    | (_, None) => (Returned None, s)
    end.
Proof.
  unfold CancelOrder. destruct (Go.ParseInt orderStr) as [id [e|]]; done.
Qed.


(** *** The nonce of a signed request *)

(** One signed request: it returns, the driver differs in its nonce
    only, which is the clock reading on first use and the previous
    value plus one afterwards, and that nonce is what the request
    carries. *)
Lemma Kraken_SendAuthenticatedHTTPRequest_nonce {R} method values (result : R)
    (k : Kraken) (w : Net.World) :
  AuthenticatedAPISupport k = true →
  let n := if Nonce k =? 0 then Net.UnixNano w (Net.ticks w)
           else Go.int64 (Nonce k + 1) in
  ∃ values' result' err w',
    SendAuthenticatedHTTPRequest method values result (k, w) =
      (Returned (values', result', err), (withNonce n k, w')) ∧
    Get "nonce" values' = Go.FormatInt n ∧
    Net.UnixNano w' = Net.UnixNano w.
Proof.
  intros Ha n. unfold SendAuthenticatedHTTPRequest, self, world, setNonce. run.
  rewrite Ha. cbn.
  unfold Nonce.Get, Nonce.Set_, Nonce.Inc, Nonce.String_. subst n.
  destruct (Nonce k =? 0); cbn;
    (destruct (Base64Decode (APISecret k)) as [secret [e|]]; cbn;
     [|destruct (Net.reply _ _ _) as [resp [e|]]; cbn;
       [|destruct (JSONDecode R resp result) as [result0 [e|]]]]);
    eexists _, _, _, _; (split_and!; [done| by rewrite Get_Set_ | done]).
Qed.

Lemma counting_S n len :
  counting n (S len) = (Go.FormatInt n, n) :: counting (n + 1) len.
Proof.
  unfold counting. cbn [seq map]. rewrite Z.add_0_r. f_equal.
  rewrite <- seq_shift, map_map. apply map_ext. intros i.
  by rewrite Nat2Z.inj_succ, <- Z.add_1_l, Z.add_assoc.
Qed.

Lemma counting_lower n len x : x ∈ (counting n len).*2 → n ≤ x.
Proof.
  unfold counting. rewrite list_elem_of_fmap. intros ([s y] & -> & Hin).
  apply list_elem_of_In, in_map_iff in Hin as (i & [= _ <-] & _). cbn. lia.
Qed.

Lemma counting_sorted len : ∀ n, StronglySorted Z.lt (counting n len).*2.
Proof.
  induction len as [|len IH]; intros n; [constructor|].
  rewrite counting_S. cbn. constructor; [apply IH|].
  apply Forall_forall. intros x Hx%counting_lower. lia.
Qed.

(** A run on a driver whose nonce is set already. *)
Lemma signAll_running ops : ∀ (k : Kraken) (w : Net.World),
  AuthenticatedAPISupport k = true →
  0 < Nonce k →
  Nonce k + Z.of_nat (length ops) ≤ Go.MaxInt64 →
  ∃ s', signAll ops (k, w) = (Returned (counting (Nonce k + 1) (length ops)), s').
Proof.
  induction ops as [|[method values] ops IH]; intros k w Ha Hpos Hmax.
  - by eexists.
  - cbn [length] in *. rewrite counting_S. cbn [signAll]. run.
    destruct (Kraken_SendAuthenticatedHTTPRequest_nonce method values tt k w Ha)
      as (values' & result' & err & w' & -> & Hnonce & _).
    destruct (Z.eqb_spec (Nonce k) 0) as [|_]; [lia|].
    rewrite int64_id in * by (unfold Go.MinInt64; lia).
    unfold self. cbn.
    destruct (IH (withNonce (Nonce k + 1) k) w') as [s' ->]; cbn; [done|lia|lia|].
    rewrite Hnonce. by eexists.
Qed.

(** Requests made one after the other.  On a driver with
    authenticated API support whose nonce was never set, when the clock
    reads a time after the epoch and the counter stays within [int64], a
    run of signed requests carries the clock reading of the first
    request, then that plus one, plus two, and so on: each request
    carries the decimal of its nonce, and the nonces are strictly
    increasing. *)
Theorem nonces_strictly_increasing ops (k : Kraken) (w : Net.World) :
  AuthenticatedAPISupport k = true →
  Nonce k = 0 →
  let seed := Net.UnixNano w (Net.ticks w) in
  0 < seed →
  seed + Z.of_nat (length ops) - 1 ≤ Go.MaxInt64 →
  ∃ attached s',
    signAll ops (k, w) = (Returned attached, s') ∧
    attached = counting seed (length ops) ∧
    StronglySorted Z.lt attached.*2.
Proof.
  intros Ha Hzero seed Hpos Hmax.
  destruct ops as [|[method values] ops].
  { eexists _, _. split_and!; [done|done|constructor]. }
  cbn [length] in *. cbn [signAll]. run.
  destruct (Kraken_SendAuthenticatedHTTPRequest_nonce method values tt k w Ha)
    as (values' & result' & err & w' & -> & Hnonce & _).
  rewrite Hzero in *. cbn in Hnonce |- *. fold seed in Hnonce |- *.
  unfold self. cbn.
  destruct (signAll_running ops (withNonce seed k) w') as [s' ->]; cbn; [done|lia|lia|].
  eexists _, _. split; [done|]. rewrite Hnonce, <- counting_S.
  split; [done|apply counting_sorted].
Qed.

End Properties.
End KrakenSpec.

(** ** Currency pairs *)

Module PairSpec.

Import Pair.
Import Sample (noDelimiter).

(** Two pairs can display alike: without a delimiter, USD/TBTC and
    USDT/BTC are both displayed as USDTBTC. *)
Lemma display_not_injective :
  display (NewCurrencyPair "USD" "TBTC") noDelimiter
    = display (NewCurrencyPair "USDT" "BTC") noDelimiter.
Proof. reflexivity. Qed.

(** So no function of the displayed string and the format returns the
    pair that was displayed, for every pair and format. *)
Lemma no_parse_inverts_display {A} (parse : string → CurrencyPairFormat → A)
    (result : CurrencyPair → A) :
  (∀ p q, result p = result q → p = q) →
  ¬ ∀ p f, parse (display p f) f = result p.
Proof.
  intros Hinj Hinv.
  pose proof (Hinv (NewCurrencyPair "USD" "TBTC") noDelimiter) as H1.
  pose proof (Hinv (NewCurrencyPair "USDT" "BTC") noDelimiter) as H2.
  rewrite display_not_injective, H2 in H1.
  apply Hinj in H1. discriminate H1.
Qed.

End PairSpec.

(** ** Across the drivers *)

Module Drivers.

(** C6.  With authenticated API support off, [SendAuthenticatedHTTPRequest]
    of the Kraken and Gemini drivers returns the error that credentials
    are not set, and leaves the driver and the world as they were: no
    request is sent, the clock is not read, the nonce is not used. *)
Theorem credentials_checked_first {LK : Kraken.Library} {LG : Gemini.Library}
    {R : Type} (k : Kraken.Kraken) (g : Gemini.Gemini) (w : Net.World)
    (method path : string) (values : gmap string (list string))
    (params : option (gmap string Gemini.value)) (result : R) :
  Kraken.AuthenticatedAPISupport k = false →
  Gemini.AuthenticatedAPISupport g = false →
  Kraken.SendAuthenticatedHTTPRequest method values result (k, w) =
    (Returned (values, result,
               Some (Go.WarningAuthenticatedRequestWithoutCredentialsSet
                       (Kraken.Name k))),
     (k, w)) ∧
  Gemini.SendAuthenticatedHTTPRequest method path params result (g, w) =
    (Returned (result,
               Some (Go.WarningAuthenticatedRequestWithoutCredentialsSet
                       (Gemini.Name g))),
     (g, w)).
Proof.
  intros Hk Hg. split.
  - by apply KrakenSpec.Kraken_SendAuthenticatedHTTPRequest_no_credentials.
  - by apply GeminiSpec.Gemini_SendAuthenticatedHTTPRequest_no_credentials.
Qed.

Import Sample.
#[local] Existing Instances Sample.binance Sample.liqui Sample.kraken Sample.gemini.

(** C1.  [GetOrderbookEx] of the Binance and Liqui drivers, run where no
    snapshot is stored, returns the zero book and a [nil] error and
    fetches nothing; run where a snapshot is stored, it fetches and
    returns the fetched book, not the stored one.  (The claim has it
    the other way round, as [GetTickerPrice] does, which fetches where no
    ticker is stored.) *)
Theorem GetOrderbookEx_test_inverted :
  Binance.GetOrderbookEx ETHBTC "SPOT" binanceFresh
    = (Returned (Orderbook.zero, None), binanceFresh) ∧
  Liqui.GetOrderbookEx ETHBTC "SPOT" liquiFresh
    = (Returned (Orderbook.zero, None), liquiFresh) ∧
  (Binance.GetOrderbookEx ETHBTC "SPOT" binanceCached).1
    = Returned (fetchedBook, None) ∧
  Binance.rest (Binance.GetOrderbookEx ETHBTC "SPOT" binanceCached).2 = ["ETHBTC"] ∧
  (Liqui.GetOrderbookEx ETHBTC "SPOT" liquiCached).1
    = Returned (fetchedBook, None) ∧
  Liqui.rest (Liqui.GetOrderbookEx ETHBTC "SPOT" liquiCached).2 = 1%nat ∧
  fetchedBook ≠ cachedBook ∧
  Liqui.rest (Liqui.GetTickerPrice ETHBTC "SPOT" liquiFresh).2 = 1%nat.
Proof. split_and!; try (vm_compute; reflexivity). discriminate. Qed.

(** C2.  For a pair without an entry, the Binance accessors return 0,
    not -1; the Gemini accessors return -1. *)
Theorem missing_limits_entry :
  Binance.data (Binance.GetLimits binanceFresh) !! Pair.Display ETHBTC "/" false = None ∧
  Binance.GetPriceDecimalPlaces (Binance.GetLimits binanceFresh) ETHBTC = 0 ∧
  Binance.GetAmountDecimalPlaces (Binance.GetLimits binanceFresh) ETHBTC = 0 ∧
  Gemini.GetPriceDecimalPlaces (Gemini.GetLimits geminiOn) LTCBTC = -1 ∧
  Gemini.GetAmountDecimalPlaces (Gemini.GetLimits geminiOn) LTCBTC = -1.
Proof. split_and!; vm_compute; reflexivity. Qed.

(** C4.  [Kraken.CancelOrder] on an ID that parses, ["123"], returns
    [nil] and sends nothing; on one that does not parse, ["abc"], it
    sends the request that cancels order 0 (and, the request answered,
    panics in [cancelOrder]).  The Binance and Gemini drivers return the
    parse error for ["abc"] and send nothing. *)
Theorem CancelOrder_parse_error :
  Go.ParseInt "123" = (123, None) ∧
  Kraken.CancelOrder "123" (krakenOn, world) = (Returned None, (krakenOn, world)) ∧
  Go.ParseInt "abc" = (0, Some (Go.NumError "ParseInt" "abc" Go.ErrSyntax)) ∧
  Net.sent (Kraken.CancelOrder "abc" (krakenOn, world)).2.2 = [cancelZero] ∧
  (Kraken.CancelOrder "abc" (krakenOn, world)).1 = Panicked "not implemented" ∧
  Binance.CancelOrder "abc" ETHBTC binanceFresh
    = (Returned (Some (Go.NumError "ParseInt" "abc" Go.ErrSyntax)), binanceFresh) ∧
  Gemini.CancelOrder tt "abc" ETHBTC (geminiOn, world)
    = (Returned (Some (Go.NumError "ParseInt" "abc" Go.ErrSyntax)), (geminiOn, world)).
Proof. split_and!; vm_compute; reflexivity. Qed.

End Drivers.

(** ** The theorems at work on the stand-ins *)

Module Witness.

Import Sample.
#[local] Existing Instances Sample.binance Sample.liqui Sample.kraken Sample.gemini.

(** A partially-filled order with nothing remaining is converted to a
    filled one. *)
Lemma zero_remaining_is_filled_witness :
  Binance.isZero (Binance.decimalSub (Binance.OrigQty staleOrder)
                                     (Binance.ExecutedQty staleOrder)) = true ∧
  Exchange.RemainingAmount (Binance.convertOrderToExchangeOrder staleOrder)
    = Binance.decimalSub (Binance.OrigQty staleOrder) (Binance.ExecutedQty staleOrder) ∧
  Exchange.Status (Binance.convertOrderToExchangeOrder staleOrder)
    = Exchange.OrderStatusFilled.
Proof.
  split; [reflexivity|].
  apply (BinanceSpec.zero_remaining_is_filled (B := binance) staleOrder).
  reflexivity.
Defined.

(** The mapping on the order statuses of the Binance API. *)
Lemma switchStatus_total_witness :
  NoDup (Binance.vocabulary (B := binance)) ∧
  Binance.switchStatus (B := binance) "NEW" = Exchange.OrderStatusActive ∧
  Binance.switchStatus (B := binance) "PARTIALLY_FILLED" = Exchange.OrderStatusActive ∧
  Binance.switchStatus (B := binance) "FILLED" = Exchange.OrderStatusFilled ∧
  Binance.switchStatus (B := binance) "CANCELED" = Exchange.OrderStatusAborted ∧
  Binance.switchStatus (B := binance) "PENDING_CANCEL" = Exchange.OrderStatusAborted ∧
  Binance.switchStatus (B := binance) "EXPIRED" = Exchange.OrderStatusAborted ∧
  Binance.switchStatus (B := binance) "REJECTED" = Exchange.OrderStatusAborted ∧
  (∀ status, status ∉ Binance.vocabulary (B := binance) →
             Binance.switchStatus (B := binance) status = Exchange.OrderStatusUnknown) ∧
  (∀ status, Binance.switchStatus (B := binance) status = Exchange.OrderStatusActive →
             status = "NEW" ∨ status = "PARTIALLY_FILLED").
Proof.
  assert (Hnd : NoDup (Binance.vocabulary (B := binance))).
  { apply (bool_decide_unpack _). vm_compute. exact I. }
  split; [exact Hnd|].
  exact (BinanceSpec.switchStatus_total (B := binance) Hnd).
Defined.

(** Two pairs, both rate limited. *)
Lemma GetOrders_rate_limit_fallback_witness :
  [ETHBTC; LTCBTC] ≠ [] ∧
  let rs := Binance.fetchEach (B := binance) [ETHBTC; LTCBTC] (Binance.rest binanceFresh) in
  ∃ ret err,
    (Binance.GetOrders (B := binance) [ETHBTC; LTCBTC] binanceFresh).1 = Returned (ret, err) ∧
    (err = Some Go.WarningHTTPRequestRateLimited ↔ Forall Binance.rateLimited rs) ∧
    (∀ e, Binance.firstOtherError rs = Some e → ret = [] ∧ err = Some e) ∧
    (Binance.firstOtherError rs = None → ret = Binance.ordersOf (B := binance) rs) ∧
    (Binance.firstOtherError rs = None → ¬ Forall Binance.rateLimited rs → err = None).
Proof.
  split; [discriminate|].
  apply (BinanceSpec.GetOrders_rate_limit_fallback (B := binance)). discriminate.
Defined.

(** Three requests signed on a fresh driver. *)
Lemma nonces_strictly_increasing_witness :
  Kraken.AuthenticatedAPISupport krakenOn = true ∧
  Kraken.Nonce krakenOn = 0 ∧
  0 < Net.UnixNano world (Net.ticks world) ∧
  Net.UnixNano world (Net.ticks world) + Z.of_nat (length threeRequests) - 1
    ≤ Go.MaxInt64 ∧
  ∃ attached s',
    Kraken.signAll (L := kraken) threeRequests (krakenOn, world) = (Returned attached, s') ∧
    attached = Kraken.counting (Net.UnixNano world (Net.ticks world))
                               (length threeRequests) ∧
    StronglySorted Z.lt attached.*2.
Proof.
  split_and!; [reflexivity|reflexivity|reflexivity|discriminate|].
  apply (KrakenSpec.nonces_strictly_increasing (L := kraken));
    [reflexivity|reflexivity|reflexivity|discriminate].
Defined.

(** Drivers without credentials. *)
Lemma credentials_checked_first_witness :
  Kraken.AuthenticatedAPISupport krakenOff = false ∧
  Gemini.AuthenticatedAPISupport geminiOff = false ∧
  Kraken.SendAuthenticatedHTTPRequest (L := kraken) "Balance" ∅ tt (krakenOff, world) =
    (Returned (∅, tt,
               Some (Go.WarningAuthenticatedRequestWithoutCredentialsSet "Kraken")),
     (krakenOff, world)) ∧
  Gemini.SendAuthenticatedHTTPRequest (L := gemini) "POST" "balances" None tt
      (geminiOff, world) =
    (Returned (tt, Some (Go.WarningAuthenticatedRequestWithoutCredentialsSet "Gemini")),
     (geminiOff, world)).
Proof.
  split; [reflexivity|]. split; [reflexivity|].
  apply (Drivers.credentials_checked_first (LK := kraken) (LG := gemini)
           krakenOff geminiOff world "Balance" "balances" ∅ None tt);
    reflexivity.
Defined.

(** A session added under a registered ID and under a free one. *)
Lemma AddSession_registry_witness :
  (is_Some (Gemini.sessions registrySeven !! 7) ∧
   Gemini.AddSession 1%positive 7 "key" "secret" "trader" false true registrySeven =
     (Returned (Some (Go.errorsNew "sessionID already being used")), registrySeven)) ∧
  (Gemini.sessions registryNil !! 7 = None ∧
   Gemini.heap registryNil !! 1%positive = Some geminiOff ∧
   ∃ r' d',
     Gemini.AddSession 1%positive 7 "key" "secret" "trader" false true registryNil =
       (Returned None, r') ∧
     Gemini.sessions r' !! 7 = Some 1%positive ∧
     Gemini.session r' 7 = Some d' ∧
     Gemini.APIKey d' = "key" ∧ Gemini.APISecret d' = "secret" ∧
     Gemini.Role d' = "trader" ∧
     Gemini.RequiresHeartBeat d' = false ∧
     Gemini.APIUrl d' = Gemini.geminiSandboxAPIURL ∧
     (∀ id, id ≠ 7 → Gemini.sessions r' !! id = Gemini.sessions registryNil !! id)).
Proof.
  split.
  - assert (Hs : is_Some (Gemini.sessions registrySeven !! 7)) by (eexists; reflexivity).
    split; [exact Hs|].
    exact (proj1 (GeminiSpec.AddSession_registry 1%positive 7 "key" "secret" "trader"
                    false true registrySeven) Hs).
  - split; [reflexivity|]. split; [reflexivity|].
    exact (proj2 (GeminiSpec.AddSession_registry 1%positive 7 "key" "secret" "trader"
                    false true registryNil) geminiOff eq_refl eq_refl).
Defined.

End Witness.

(** ** Go: integers and their decimal text *)

Module GoSpec.

Lemma digitVal_range c : Go.isDigit c = true → 0 ≤ Go.digitVal c ≤ 9.
Proof.
  unfold Go.isDigit, Go.digitVal. intros [H1 H2]%andb_true_iff.
  apply Nat.leb_le in H1, H2. lia.
Qed.

(** One step of the digit loop, away from the overflow. *)
Lemma parseUintLoop_digit c cs n :
  Go.isDigit c = true → 0 ≤ n → n * 10 + Go.digitVal c ≤ Go.MaxUint64 →
  Go.parseUintLoop (c :: cs) n = Go.parseUintLoop cs (n * 10 + Go.digitVal c).
Proof.
  intros Hd Hn Hmax. pose proof (digitVal_range c Hd) as Hr.
  unfold Go.MaxUint64 in *. cbn [Go.parseUintLoop]. rewrite Hd. cbn [negb].
  change (Go.MaxUint64 `div` 10 + 1) with 1844674407370955162.
  destruct (Z.leb_spec 1844674407370955162 n); [lia|].
  unfold Go.uint64. rewrite Z.mod_small by lia.
  destruct (Z.ltb_spec (n * 10 + Go.digitVal c) (n * 10)); [lia|].
  unfold Go.MaxUint64.
  destruct (Z.ltb_spec 18446744073709551615 (n * 10 + Go.digitVal c)); [lia|].
  done.
Qed.

Lemma of_uint_acc_le d : ∀ acc, (acc ≤ Pos.of_uint_acc d acc)%positive.
Proof.
  induction d; intros acc; cbn [Pos.of_uint_acc]; try lia;
    (etransitivity; [|apply IHd]); lia.
Qed.

Lemma parseUintLoop_acc d : ∀ acc,
  Z.pos (Pos.of_uint_acc d acc) ≤ Go.MaxUint64 →
  Go.parseUintLoop (list_ascii_of_string (NilEmpty.string_of_uint d)) (Z.pos acc)
    = (Z.pos (Pos.of_uint_acc d acc), None).
Proof.
  induction d; intros acc Hmax; cbn [Pos.of_uint_acc NilEmpty.string_of_uint list_ascii_of_string] in *;
    [done|..];
    (rewrite parseUintLoop_digit; [|done|lia|];
     [ match goal with |- context [Go.digitVal ?c] =>
         let v := eval vm_compute in (Go.digitVal c) in change (Go.digitVal c) with v end;
       rewrite <- IHd; [f_equal; lia|done]
     | match goal with |- context [Go.digitVal ?c] =>
         let v := eval vm_compute in (Go.digitVal c) in change (Go.digitVal c) with v end;
       match goal with H : Z.pos (Pos.of_uint_acc _ ?a) ≤ _ |- _ =>
         pose proof (of_uint_acc_le d a) end; lia ]).
Qed.

Lemma parseUintLoop_of_uint d :
  Z.of_N (Pos.of_uint d) ≤ Go.MaxUint64 →
  Go.parseUintLoop (list_ascii_of_string (NilEmpty.string_of_uint d)) 0
    = (Z.of_N (Pos.of_uint d), None).
Proof.
  induction d; intros Hmax;
    cbn [Pos.of_uint NilEmpty.string_of_uint list_ascii_of_string] in *; [done|..];
    (rewrite parseUintLoop_digit; [|done|lia|vm_compute; discriminate]);
    match goal with |- context [Go.digitVal ?c] =>
      let v := eval vm_compute in (Go.digitVal c) in change (Go.digitVal c) with v end;
    cbn [Z.mul Z.add Z.of_N]; [by apply IHd|..]; by apply parseUintLoop_acc.
Qed.

Lemma ParseUint_to_uint p :
  Z.pos p ≤ Go.MaxUint64 →
  Go.parseUintLoop (list_ascii_of_string (NilEmpty.string_of_uint (Pos.to_uint p))) 0
    = (Z.pos p, None).
Proof.
  intros Hmax. rewrite parseUintLoop_of_uint; rewrite Unsigned.of_to; done.
Qed.

Lemma string_of_uint_head d :
  d ≠ Decimal.Nil →
  ∃ c rest, NilEmpty.string_of_uint d = String c rest ∧ Go.isDigit c = true.
Proof. destruct d; [done|..]; intros _; eexists _, _; (split; [reflexivity|done]). Qed.

Lemma to_uint_not_Nil p : Pos.to_uint p ≠ Decimal.Nil.
Proof.
  intros Hnil. pose proof (Unsigned.of_to p) as Hp. rewrite Hnil in Hp. discriminate.
Qed.

Lemma isDigit_not_sign c :
  Go.isDigit c = true → Ascii.eqb c "+" = false ∧ Ascii.eqb c "-" = false.
Proof.
  intros Hd. split; apply Ascii.eqb_neq; intros ->; discriminate.
Qed.

(** The digits of a positive number parse back to it. *)
Lemma ParseUint_digits p :
  Z.pos p ≤ Go.MaxUint64 →
  Go.ParseUint (NilEmpty.string_of_uint (Pos.to_uint p)) = (Z.pos p, None).
Proof.
  intros Hmax. pose proof (ParseUint_to_uint p Hmax) as Hloop.
  destruct (string_of_uint_head _ (to_uint_not_Nil p)) as (c & rest & Hs & _).
  unfold Go.ParseUint. rewrite Hs in *. exact Hloop.
Qed.

(** [strconv.ParseInt(strconv.FormatInt(n, 10), 10, 64)] is [n]. *)
Lemma ParseInt_FormatInt n :
  Go.MinInt64 ≤ n ≤ Go.MaxInt64 → Go.ParseInt (Go.FormatInt n) = (n, None).
Proof.
  unfold Go.MinInt64, Go.MaxInt64, Go.FormatInt. intros Hn.
  destruct n as [|p|p]; [done|..]; cbn [Z.to_int NilZero.string_of_int].
  - unfold NilZero.string_of_uint.
    pose proof (to_uint_not_Nil p) as Hnil.
    pose proof (ParseUint_digits p) as Hparse.
    destruct (Pos.to_uint p) eqn:Hd; [done|..];
      (destruct (string_of_uint_head _ (to_uint_not_Nil p)) as (c & rest & Hs & Hc);
       rewrite Hd in Hs; rewrite Hs in *;
       destruct (isDigit_not_sign c Hc) as [Hplus Hminus];
       unfold Go.ParseInt; rewrite Hplus, Hminus; cbn [orb negb andb];
       rewrite Hparse by (unfold Go.MaxUint64; lia);
       destruct (Z.leb_spec (2 ^ 63) (Z.pos p)); [lia|done]).
  - unfold Go.ParseInt. cbn [Ascii.eqb Bool.eqb orb negb andb].
    unfold NilZero.string_of_uint.
    pose proof (to_uint_not_Nil p) as Hnil.
    pose proof (ParseUint_digits p) as Hparse.
    destruct (Pos.to_uint p) eqn:Hd; [done|..];
      (rewrite Hparse by (unfold Go.MaxUint64; lia);
       destruct (Z.ltb_spec (2 ^ 63) (Z.pos p)); [lia|done]).
Qed.

(** [strconv.FormatInt] never yields the empty string. *)
Lemma FormatInt_not_empty n : Go.FormatInt n ≠ "".
Proof.
  unfold Go.FormatInt.
  destruct n as [|p|p]; [done|..]; cbn [Z.to_int NilZero.string_of_int]; [|done].
  unfold NilZero.string_of_uint. pose proof (to_uint_not_Nil p) as Hnil.
  by destruct (Pos.to_uint p).
Qed.

End GoSpec.

(** ** The Binance driver: orders, order books, account, exchange info *)

Module BinanceMoreSpec.

Import Binance BinanceMore.

(** A table filled by inserting [val x] under [key x] for each [x] of a
    list in turn. *)
Lemma foldl_insert_notin {A V} (key : A → string) (val : A → V) l :
  ∀ (m : gmap string V) k,
    k ∉ map key l →
    foldl (λ m x, <[key x := val x]> m) m l !! k = m !! k.
Proof.
  induction l as [|x l IH]; intros m k Hk; [done|]. cbn in *.
  rewrite not_elem_of_cons in Hk. destruct Hk as [Hne Hk].
  rewrite IH by done. by rewrite lookup_insert_ne.
Qed.

Lemma foldl_insert_in {A V} (key : A → string) (val : A → V) l :
  ∀ (m : gmap string V) x,
    NoDup (map key l) → x ∈ l →
    foldl (λ m x, <[key x := val x]> m) m l !! key x = Some (val x).
Proof.
  induction l as [|y l IH]; intros m x Hnd Hx; [by apply elem_of_nil in Hx|].
  cbn in *. apply NoDup_cons in Hnd as [Hy Hnd].
  apply elem_of_cons in Hx as [->|Hx].
  - rewrite foldl_insert_notin by done. by rewrite lookup_insert_eq.
  - by apply IH.
Qed.

Section Properties.

Context {float64 W : Type} {B : Bindings float64 W} {B' : More float64 W}.

Lemma fold_left_addSymbol (l : list (SymbolInfo decimal)) :
  ∀ t : gmap string Pair.CurrencyPair * gmap string (symbolDetails float64),
    fold_left addSymbol l t =
    (foldl (λ m si, <[siSymbol si := pairOf si]> m) t.1 l,
     foldl (λ m si, <[Pair.Display (pairOf si) "/" false := detailsOf si]> m) t.2 l).
Proof.
  induction l as [|si l IH]; intros [t1 t2]; [done|]. cbn. by rewrite IH.
Qed.

(** The price places that a list of filters leaves: those of the last
    price filter, else what was there. *)
Lemma applyFilter_price fs :
  ∀ sd : symbolDetails float64,
    PriceDecimalPlaces (fold_left applyFilter fs sd) =
    match last (filter (λ f, FilterType f = FilterTypePrice) fs) with
    | Some f => int32 (Exponent (TickSize f) * -1)
    | None => PriceDecimalPlaces sd
    end.
Proof.
  induction fs as [|f fs IH]; intros sd; [done|].
  cbn [fold_left]. rewrite IH. rewrite filter_cons.
  unfold applyFilter.
  destruct (decide (FilterType f = FilterTypePrice)) as [Hp|Hp].
  - rewrite bool_decide_eq_true_2 by done.
    destruct (filter _ fs) as [|g gs] eqn:Hfs; [done|].
    rewrite last_cons_cons.
    destruct (last (g :: gs)) eqn:Hlast; [done|]. by apply last_None in Hlast.
  - rewrite bool_decide_eq_false_2 by done.
    destruct (last _); [done|].
    destruct (bool_decide (FilterType f = FilterTypeLotSize)); [done|].
    by destruct (bool_decide (FilterType f = FilterTypeMinNotional)).
Qed.

(** *** Order IDs *)

(** X1.  The ID of a converted order leads back to the order: for a raw
    order whose ID is an [int64], [CancelOrder] called with the
    [OrderID] string that [convertOrderToExchangeOrder] produced calls
    [DeleteOrder] with the symbol of the pair and the raw order's
    numeric ID. *)
Theorem CancelOrder_of_converted_order (order : Order float64) p
    (b : Binance float64 W) :
  Go.MinInt64 ≤ Binance.OrderID order ≤ Go.MaxInt64 →
  CancelOrder (Exchange.OrderID (convertOrderToExchangeOrder order)) p b =
  call (DeleteOrder (CurrencyPairToSymbol p) (Binance.OrderID order) "") b.
Proof.
  intros Hid. cbn [convertOrderToExchangeOrder Exchange.OrderID].
  unfold CancelOrder. by rewrite GoSpec.ParseInt_FormatInt.
Qed.

(** X2.  When [PostOrderAck] acknowledges a limit order without error,
    [NewOrder] returns an ID with a [nil] error, and [CancelOrder]
    called with that ID calls [DeleteOrder] with the acknowledged
    numeric order ID.  The side is sent in upper case and the order is
    posted as a GTC limit order. *)
Theorem NewOrder_then_CancelOrder p amount price side (b : Binance float64 W)
    ack w p' :
  PostOrderAck
    {| poSymbol := CurrencyPairToSymbol p; poSide := Go.ToUpper side;
       poType := OrderTypeLimit; poTimeInForce := TimeInForceGTC;
       poQuantity := amount; poPrice := price |} (rest b) = ((Some ack, None), w) →
  Go.MinInt64 ≤ OrderID ack ≤ Go.MaxInt64 →
  ∃ id b1,
    NewOrder p amount price side OrderTypeExchangeLimit b = (Returned (id, None), b1) ∧
    rest b1 = w ∧
    CancelOrder id p' b1 =
      call (DeleteOrder (CurrencyPairToSymbol p') (OrderID ack) "") b1.
Proof.
  intros Hpost Hid. unfold NewOrder, call. run.
  rewrite bool_decide_eq_true_2 by done. rewrite Hpost. cbn.
  eexists _, _. split_and!; [done|done|].
  unfold CancelOrder. by rewrite GoSpec.ParseInt_FormatInt.
Qed.

(** X3.  [NewOrder] with an order type other than
    [exchange.OrderTypeExchangeLimit] panics with "not implemented" and
    leaves the driver as it was: nothing is posted.  And [NewOrder]
    never returns an empty ID together with a [nil] error (its comment
    allows for one): when it returns a [nil] error the ID is not empty,
    and the order type was [exchange.OrderTypeExchangeLimit]. *)
Theorem NewOrder_id_not_empty p amount price side orderType
    (b : Binance float64 W) :
  (orderType ≠ OrderTypeExchangeLimit →
   NewOrder p amount price side orderType b = (Panicked "not implemented", b)) ∧
  (∀ id b', NewOrder p amount price side orderType b = (Returned (id, None), b') →
            id ≠ "" ∧ orderType = OrderTypeExchangeLimit).
Proof.
  split.
  - intros Hne. unfold NewOrder. by rewrite bool_decide_eq_false_2.
  - intros id b'. unfold NewOrder, call. run. case_bool_decide; [|done].
    destruct (PostOrderAck _ _) as [[[ack|] [e|]] w]; cbn; try done.
    intros [= <- <-]. split; [|done]. apply GoSpec.FormatInt_not_empty.
Qed.

(** X10.  For a raw order whose ID is an [int64], [GetOrder] called
    with the ID that [convertOrderToExchangeOrder] produced fetches the
    order under the raw numeric ID, and returns the conversion of what
    the exchange answers. *)
Theorem GetOrder_of_converted_order (order order' : Order float64) p
    (b : Binance float64 W) w :
  Go.MinInt64 ≤ Binance.OrderID order ≤ Go.MaxInt64 →
  FetchOrder (CurrencyPairToSymbol p) (Binance.OrderID order) "" (rest b)
    = ((Some order', None), w) →
  ∃ b', GetOrder (Exchange.OrderID (convertOrderToExchangeOrder order)) p b =
          (Returned (Some (convertOrderToExchangeOrder order'), None), b') ∧
        rest b' = w.
Proof.
  intros Hid Hfetch. cbn [convertOrderToExchangeOrder Exchange.OrderID].
  unfold GetOrder. rewrite GoSpec.ParseInt_FormatInt by done.
  unfold call. run. rewrite Hfetch. cbn. eauto.
Qed.

(** *** UpdateOrderbook *)

(** X4.  When [FetchMarketData] fails with an error other than the
    rate-limit warning, [UpdateOrderbook] returns the empty book and
    that error, and the order book cache is left as it was. *)
Theorem UpdateOrderbook_failure p assetType (b : Binance float64 W) md e w :
  FetchMarketData (CurrencyPairToSymbol p) 100 (rest b) = ((md, Some e), w) →
  e ≠ Go.WarningHTTPRequestRateLimited →
  ∃ b', UpdateOrderbook p assetType b = (Returned (Orderbook.zero, Some e), b') ∧
        Orderbooks b' = Orderbooks b ∧ rest b' = w.
Proof.
  intros Hfetch He. unfold UpdateOrderbook, call. run. rewrite Hfetch. cbn.
  unfold isRateLimited. rewrite bool_decide_eq_false_2 by congruence. cbn.
  eauto.
Qed.

(** X5.  When [FetchMarketData] returns market data, with a [nil]
    error or with the rate-limit warning, [UpdateOrderbook] stores the
    book made of the asks and bids of the data under the driver's name,
    the pair and the asset type, and returns that book with a [nil]
    error: the rate-limit warning is not passed on.  (The cache is
    that of package [orderbook], as [Orderbook] models it.) *)
Theorem UpdateOrderbook_stores p assetType (b : Binance float64 W) md err w :
  FetchMarketData (CurrencyPairToSymbol p) 100 (rest b) = ((Some md, err), w) →
  err = None ∨ err = Some Go.WarningHTTPRequestRateLimited →
  let book := {| Orderbook.Asks := map toItem (Asks md);
                 Orderbook.Bids := map toItem (Bids md) |} in
  ∃ b', UpdateOrderbook p assetType b = (Returned (book, None), b') ∧
        Orderbooks b' = <[(Name b, p, assetType) := book]> (Orderbooks b) ∧
        rest b' = w.
Proof.
  intros Hfetch Herr book. unfold UpdateOrderbook, call, setOrderbooks. run.
  rewrite Hfetch. cbn.
  assert (negb (isNil err) && negb (isRateLimited err) = false) as ->.
  { destruct Herr as [-> | ->]; [done|]. unfold isRateLimited.
    by rewrite bool_decide_eq_true_2. }
  cbn. unfold Orderbook.GetOrderbook, Orderbook.ProcessOrderbook.
  rewrite lookup_insert_eq. eauto.
Qed.

(** *** GetExchangeAccountInfo *)

(** X6.  An error that [GetExchangeAccountInfo] returns is never the
    rate-limit warning: it is the error of [FetchAccountInfo] on an
    enabled driver, and the account returned with it has the driver's
    name and no currencies. *)
Theorem GetExchangeAccountInfo_error (b b' : Binance float64 W) r e :
  GetExchangeAccountInfo b = (Returned (r, Some e), b') →
  e ≠ Go.WarningHTTPRequestRateLimited ∧ Enabled b = true ∧
  Currencies r = [] ∧ ExchangeName r = Name b ∧
  ∃ x, FetchAccountInfo (rest b) = ((x, Some e), rest b').
Proof.
  unfold GetExchangeAccountInfo, call. run.
  destruct (Enabled b); cbn; [|done].
  destruct (FetchAccountInfo (rest b)) as [[x err] w]. cbn.
  destruct err as [e'|]; cbn.
  - unfold isRateLimited. case_bool_decide as Hrl; cbn.
    + by destruct x.
    + intros [= <- <- <-]. split_and!; try done; [congruence|eauto].
  - by destruct x.
Qed.

(** X7.  On an enabled driver, when [FetchAccountInfo] returns
    balances, with a [nil] error or with the rate-limit warning,
    [GetExchangeAccountInfo] returns a [nil] error and one currency per
    balance, in order: the name is the asset, the available amount the
    free amount, and the amount on hold the locked amount. *)
Theorem GetExchangeAccountInfo_balances (b : Binance float64 W) balances err w :
  Enabled b = true →
  FetchAccountInfo (rest b) = ((Some balances, err), w) →
  err = None ∨ err = Some Go.WarningHTTPRequestRateLimited →
  ∃ r b', GetExchangeAccountInfo b = (Returned (r, None), b') ∧ rest b' = w ∧
          ExchangeName r = Name b ∧
          map CurrencyName (Currencies r) = map Asset balances ∧
          map Available (Currencies r) = map Free balances ∧
          map Hold (Currencies r) = map Locked balances.
Proof.
  intros Hen Hfetch Herr. unfold GetExchangeAccountInfo, call. run.
  rewrite Hen. cbn. rewrite Hfetch. cbn.
  assert (negb (isNil err) && negb (isRateLimited err) = false) as ->.
  { destruct Herr as [-> | ->]; [done|]. unfold isRateLimited.
    by rewrite bool_decide_eq_true_2. }
  eexists _, _. split_and!; try done; cbn; by rewrite map_map.
Qed.

(** *** Run and the limits *)

(** The tables that a successful [Run] leaves. *)
Lemma Run_tables (b : Binance float64 W) cps symbols w :
  FetchExchangeInfo (rest b) = ((Some symbols, None), w) →
  ∃ b' cps', Run (b, cps) = (Returned tt, (b', cps')) ∧
    symbolDetailsMap b' =
      foldl (λ m si, <[Pair.Display (pairOf si) "/" false := detailsOf si]> m)
        ∅ symbols ∧
    cps' = foldl (λ m si, <[siSymbol si := pairOf si]> m) ∅ symbols.
Proof.
  intros Hfetch. unfold Run. rewrite Hfetch. cbn [isNil negb].
  destruct (UpdateAvailableCurrencies _ _ _) as [err w'].
  eexists _, _. split; [done|].
  rewrite fold_left_addSymbol. done.
Qed.

(** X8.  [Run] rebuilds the limits table from the exchange info: after
    a successful [Run], a pair that no listed symbol displays as has 0
    price and amount decimal places, whatever the table held before. *)
Theorem Run_rebuilds_limits (b : Binance float64 W) cps symbols w p :
  FetchExchangeInfo (rest b) = ((Some symbols, None), w) →
  Pair.Display p "/" false ∉
    map (λ si, Pair.Display (pairOf si) "/" false) symbols →
  ∃ b' cps', Run (b, cps) = (Returned tt, (b', cps')) ∧
             GetPriceDecimalPlaces (GetLimits b') p = 0 ∧
             GetAmountDecimalPlaces (GetLimits b') p = 0.
Proof.
  intros Hfetch Hp.
  destruct (Run_tables b cps symbols w Hfetch) as (b' & cps' & Hrun & Hmap & _).
  eexists _, _. split; [done|].
  unfold GetPriceDecimalPlaces, GetAmountDecimalPlaces, GetLimits.
  cbn [data]. rewrite Hmap.
  rewrite (foldl_insert_notin (λ si, Pair.Display (pairOf si) "/" false) detailsOf)
    by done.
  by rewrite lookup_empty.
Qed.

(** X9.  After a successful [Run] on exchange info whose symbols
    display differently, the price decimal places of a listed pair are
    minus the exponent of the tick size of its last price filter (as an
    [int32]), and 0 when it has no price filter. *)
Theorem Run_price_places (b : Binance float64 W) cps symbols w si :
  FetchExchangeInfo (rest b) = ((Some symbols, None), w) →
  NoDup (map (λ si, Pair.Display (pairOf si) "/" false) symbols) →
  si ∈ symbols →
  ∃ b' cps', Run (b, cps) = (Returned tt, (b', cps')) ∧
             GetPriceDecimalPlaces (GetLimits b') (pairOf si) =
             match last (filter (λ f, FilterType f = FilterTypePrice) (Filters si)) with
             | Some f => int32 (Exponent (TickSize f) * -1)
             | None => 0
             end.
Proof.
  intros Hfetch Hnd Hsi.
  destruct (Run_tables b cps symbols w Hfetch) as (b' & cps' & Hrun & Hmap & _).
  eexists _, _. split; [done|].
  unfold GetPriceDecimalPlaces, GetLimits. cbn [data]. rewrite Hmap.
  rewrite (foldl_insert_in (λ si, Pair.Display (pairOf si) "/" false) detailsOf)
    by done.
  unfold detailsOf. by rewrite applyFilter_price.
Qed.

End Properties.
End BinanceMoreSpec.

(** ** The Liqui driver: tickers and order books *)

Module LiquiMoreSpec.

Import Liqui LiquiMore.

Section Properties.

Context {float64 W : Type} {B : Bindings float64 W}.

(** The loop over the enabled currencies touches the ticker store only. *)
Lemma forEach_processOne name result assetType xs :
  ∀ l : Liqui float64 W,
    ∃ l', forEach (processOne name result assetType) xs l = (Returned tt, l') ∧
          Name l' = Name l ∧ Orderbooks l' = Orderbooks l ∧ rest l' = rest l ∧
          Tickers l' =
            foldl (λ m x, <[(name, x, assetType) := storedPrice name result x]> m)
              (Tickers l) xs.
Proof.
  induction xs as [|x xs IH]; intros l; [by eexists|].
  cbn [forEach]. unfold processOne at 1, setTickers. run.
  edestruct IH as (l' & -> & HN & HO & Hr & HT). eexists. split; [done|].
  by rewrite HN, HO, Hr, HT.
Qed.

Lemma foldl_store_in name assetType (val : Pair.CurrencyPair → Ticker.Price float64) xs :
  ∀ (m : gmap Orderbook.key (Ticker.Price float64)) x,
    x ∈ xs →
    foldl (λ m x, <[(name, x, assetType) := val x]> m) m xs !! (name, x, assetType)
    = Some (val x).
Proof.
  induction xs as [|y xs IH]; intros m x Hx; [by apply elem_of_nil in Hx|].
  cbn [foldl]. destruct (decide (x ∈ xs)) as [Hin|Hnin]; [by apply IH|].
  apply elem_of_cons in Hx as [->|Hx]; [|done].
  clear IH. revert m. induction xs as [|z xs IH]; intros m.
  - cbn [foldl]. by rewrite lookup_insert_eq.
  - cbn [foldl]. apply not_elem_of_cons in Hnin as [Hne Hnin].
    rewrite insert_insert_ne by congruence. by apply IH.
Qed.

(** What a successful [UpdateTicker] does. *)
Lemma UpdateTicker_success (l : Liqui float64 W) p assetType pairsString result w :
  GetAndFormatExchangeCurrencies (Name l) (GetEnabledCurrencies (rest l))
    = (pairsString, None) →
  GetTicker pairsString (rest l) = ((result, None), w) →
  ∃ l', UpdateTicker p assetType l =
          (Returned (Ticker.GetTicker zeroPrice (Tickers l') (Name l) p assetType), l') ∧
        Name l' = Name l ∧ Orderbooks l' = Orderbooks l ∧ rest l' = w ∧
        Tickers l' =
          foldl (λ m x, <[(Name l, x, assetType) := storedPrice (Name l) result x]> m)
            (Tickers l) (GetEnabledCurrencies w).
Proof.
  intros Hfmt Hfetch. unfold UpdateTicker, call. run.
  rewrite Hfmt. cbn. rewrite Hfetch. cbn.
  edestruct (forEach_processOne (Name l) result assetType (GetEnabledCurrencies w))
    as (l' & -> & HN & HO & Hr & HT).
  eexists. rewrite HN. split; [done|]. by rewrite HO, Hr, HT.
Qed.

(** X11.  When the currencies format and [GetTicker] succeeds,
    [UpdateTicker] stores a price for every enabled pair, whichever pair
    was asked for: its last, low, bid, ask and volume are the [Last],
    [Low], [Buy], [Sell] and [Vol_cur] of the answer for the pair (zero
    when the answer has none), and its high is always zero. *)
Theorem UpdateTicker_stores_enabled (l : Liqui float64 W) p assetType
    pairsString result w x :
  GetAndFormatExchangeCurrencies (Name l) (GetEnabledCurrencies (rest l))
    = (pairsString, None) →
  GetTicker pairsString (rest l) = ((result, None), w) →
  x ∈ GetEnabledCurrencies w →
  ∃ r l', UpdateTicker p assetType l = (Returned r, l') ∧
    let t := default zeroTicker_ (result !! FormatExchangeCurrency (Name l) x) in
    Tickers l' !! (Name l, x, assetType) =
      Some {| Ticker.Pair_ := x; Ticker.Last := Last t; Ticker.High := zeroFloat;
              Ticker.Low := Low t; Ticker.Bid := Buy t; Ticker.Ask := Sell t;
              Ticker.Volume := Vol_cur t |}.
Proof.
  intros Hfmt Hfetch Hx.
  destruct (UpdateTicker_success l p assetType _ _ _ Hfmt Hfetch)
    as (l' & Hrun & _ & _ & _ & HT).
  eexists _, l'. split; [done|]. cbn zeta. rewrite HT.
  by rewrite (foldl_store_in (Name l) assetType (storedPrice (Name l) result)).
Qed.

(** [UpdateTicker] keeps the name of the driver. *)
Lemma UpdateTicker_Name (l l' : Liqui float64 W) p assetType r :
  UpdateTicker p assetType l = (r, l') → Name l' = Name l.
Proof.
  unfold UpdateTicker, call. run.
  destruct (GetAndFormatExchangeCurrencies _ _) as [pairsString [e|]]; cbn;
    [by intros [= _ <-]|].
  destruct (GetTicker _ _) as [[result [e|]] w]; cbn; [by intros [= _ <-]|].
  edestruct (forEach_processOne (Name l) result assetType (GetEnabledCurrencies w))
    as (l1 & -> & HN & _). cbn in HN.
  by intros [= _ <-].
Qed.

(** X12.  Once [GetTickerPrice] has returned a price with a [nil]
    error, calling it again on the driver it left returns the same price
    and leaves the driver as it is: the second call is served from the
    store.  (The store is that of package [ticker], as [Ticker] models
    it.) *)
Theorem GetTickerPrice_twice (l l' : Liqui float64 W) p assetType t :
  GetTickerPrice p assetType l = (Returned (t, None), l') →
  GetTickerPrice p assetType l' = (Returned (t, None), l').
Proof.
  unfold GetTickerPrice at 1. run.
  destruct (Ticker.GetTicker zeroPrice (Tickers l) (Name l) p assetType)
    as [tickerNew [e|]] eqn:Hcache; cbn.
  - intros Hupd. pose proof (UpdateTicker_Name _ _ _ _ _ Hupd) as HN.
    revert Hupd. unfold UpdateTicker, call. run.
    destruct (GetAndFormatExchangeCurrencies _ _) as [pairsString [e'|]]; cbn;
      [done|].
    destruct (GetTicker _ _) as [[result [e'|]] w]; cbn; [done|].
    edestruct (forEach_processOne (Name l) result assetType (GetEnabledCurrencies w))
      as (l1 & -> & HN1 & _). cbn in HN1.
    intros [= Hget <-]. rewrite HN1 in Hget.
    unfold GetTickerPrice. run. rewrite HN1. by rewrite Hget.
  - intros [= <- <-]. unfold GetTickerPrice. run. by rewrite Hcache.
Qed.

(** X13.  When the depth that [GetDepth] returns has a bid or an ask
    with fewer than two entries, [UpdateOrderbook] panics on the index,
    and the order book cache is left as it was. *)
Theorem Liqui_UpdateOrderbook_short_row (l : Liqui float64 W) p assetType
    orderbookNew w row :
  GetDepth (FormatExchangeCurrency (Name l) p) (rest l) = ((orderbookNew, None), w) →
  row ∈ (Bids orderbookNew ++ Asks orderbookNew)%list →
  (length row < 2)%nat →
  ∃ l', UpdateOrderbook p assetType l = (Panicked "index out of range", l') ∧
        Orderbooks l' = Orderbooks l.
Proof.
  intros Hfetch Hrow Hlen. unfold UpdateOrderbook, call. run.
  rewrite Hfetch. cbn.
  assert (rowItem row = None) as Hnone.
  { destruct row as [|? [|? ?]]; cbn in *; [done|done|lia]. }
  assert (∀ rows, row ∈ rows → mapM rowItem rows = None) as Hrows.
  { intros rows Hin. destruct (mapM rowItem rows) as [ys|] eqn:Hm; [|done].
    assert (is_Some (mapM rowItem rows)) as Hsome by eauto.
    apply mapM_is_Some in Hsome. rewrite Forall_forall in Hsome.
    apply Hsome in Hin. cbn in Hin. rewrite Hnone in Hin. by destruct Hin. }
  apply elem_of_app in Hrow as [Hin|Hin]; rewrite (Hrows _ Hin).
  - eauto.
  - destruct (mapM rowItem (Bids orderbookNew)); eauto.
Qed.

(** X14.  When [UpdateOrderbook] returns a book with a [nil] error, the
    book is stored under the driver's name, the pair and the asset type;
    [GetDepth] returned without error, and each item of the book has the
    first entry of its row as the price and the second as the amount.
    (The cache is that of package [orderbook], as [Orderbook] models
    it.) *)
Theorem Liqui_UpdateOrderbook_stores (l l' : Liqui float64 W) p assetType book :
  UpdateOrderbook p assetType l = (Returned (book, None), l') →
  Orderbooks l' = <[(Name l, p, assetType) := book]> (Orderbooks l) ∧
  ∃ orderbookNew,
    GetDepth (FormatExchangeCurrency (Name l) p) (rest l)
      = ((orderbookNew, None), rest l') ∧
    Forall2 (λ row item, row !! 0%nat = Some (Orderbook.Price item) ∧
                         row !! 1%nat = Some (Orderbook.Amount item))
      (Bids orderbookNew) (Orderbook.Bids book) ∧
    Forall2 (λ row item, row !! 0%nat = Some (Orderbook.Price item) ∧
                         row !! 1%nat = Some (Orderbook.Amount item))
      (Asks orderbookNew) (Orderbook.Asks book).
Proof.
  unfold UpdateOrderbook, call, setOrderbooks. run.
  destruct (GetDepth _ _) as [[orderbookNew [e|]] w] eqn:Hfetch; cbn; [done|].
  destruct (mapM rowItem (Bids orderbookNew)) as [bids|] eqn:Hb; cbn; [|done].
  destruct (mapM rowItem (Asks orderbookNew)) as [asks|] eqn:Ha; cbn; [|done].
  unfold Orderbook.GetOrderbook, Orderbook.ProcessOrderbook.
  rewrite lookup_insert_eq. intros [= <- <-]. split; [done|].
  exists orderbookNew. cbn. split; [done|].
  assert (∀ (rows : list (list float64)) items,
            mapM rowItem rows = Some items →
            Forall2 (λ row item, row !! 0%nat = Some (Orderbook.Price item) ∧
                                 row !! 1%nat = Some (Orderbook.Amount item))
              rows items) as Hrows.
  { intros rows items Hm. apply mapM_Some in Hm.
    eapply Forall2_impl; [exact Hm|]. intros row item Hitem. cbn in Hitem.
    destruct row as [|? [|? ?]]; cbn in Hitem; try done.
    by injection Hitem as <-. }
  split; by apply Hrows.
Qed.

End Properties.
End LiquiMoreSpec.

(** ** The Kraken driver: the private endpoints *)

Module KrakenMoreSpec.

Import Kraken KrakenMore.

Section Properties.

Context {L : Library}.

(** Without credentials an authenticated [HTTPRequest] returns the
    warning and what it was given. *)
Lemma HTTPRequest_no_credentials {V} path values (v : V) (k : Kraken)
    (w : Net.World) :
  AuthenticatedAPISupport k = false →
  HTTPRequest path true values v (k, w) =
    (Returned (v, Some (Go.WarningAuthenticatedRequestWithoutCredentialsSet (Name k))),
     (k, w)).
Proof.
  intros Ha. unfold HTTPRequest, HTTPRequestJSON. run.
  by rewrite KrakenSpec.Kraken_SendAuthenticatedHTTPRequest_no_credentials.
Qed.

Lemma notImplemented_no_credentials path values (k : Kraken) (w : Net.World) :
  AuthenticatedAPISupport k = false →
  notImplemented path values (k, w) =
    (Returned (Some (Go.WarningAuthenticatedRequestWithoutCredentialsSet (Name k))),
     (k, w)).
Proof.
  intros Ha. unfold notImplemented, mbind, Go.M_bind, Go.bind.
  by rewrite HTTPRequest_no_credentials.
Qed.

Lemma notImplemented_not_nil path values (s : State) :
  (notImplemented path values s).1 ≠ Returned None.
Proof.
  unfold notImplemented, mbind, Go.M_bind, Go.bind.
  destruct (HTTPRequest path true values tt s) as [[[v [e|]]|msg] s']; done.
Qed.

(** X15.  No private endpoint of the driver ever returns [nil]:
    [GetBalance], [GetTradeBalance], [GetClosedOrders],
    [QueryOrdersInfo], [GetTradesHistory], [QueryTrades],
    [OpenPositions], [GetLedgers], [QueryLedgers], [GetTradeVolume],
    [AddOrder] and [cancelOrder] either return an error or panic (a
    request that succeeds ends in [panic("not implemented")]). *)
Theorem private_endpoints_never_return_nil (s : State) :
  (GetBalance s).1 ≠ Returned None ∧
  (∀ symbol asset, (GetTradeBalance symbol asset s).1 ≠ Returned None) ∧
  (∀ showTrades userref start end_ offset closetime,
     (GetClosedOrders showTrades userref start end_ offset closetime s).1
       ≠ Returned None) ∧
  (∀ showTrades userref txid,
     (QueryOrdersInfo showTrades userref txid s).1 ≠ Returned None) ∧
  (∀ tradeType showRelatedTrades start end_ offset,
     (GetTradesHistory tradeType showRelatedTrades start end_ offset s).1
       ≠ Returned None) ∧
  (∀ txid showRelatedTrades, (QueryTrades txid showRelatedTrades s).1 ≠ Returned None) ∧
  (∀ txid showPL, (OpenPositions txid showPL s).1 ≠ Returned None) ∧
  (∀ symbol asset ledgerType start end_ offset,
     (GetLedgers symbol asset ledgerType start end_ offset s).1 ≠ Returned None) ∧
  (∀ id, (QueryLedgers id s).1 ≠ Returned None) ∧
  (∀ symbol, (GetTradeVolume symbol s).1 ≠ Returned None) ∧
  (∀ float64 (FormatFloat : float64 → string) symbol side orderType
      price price2 volume leverage position,
     (AddOrder FormatFloat symbol side orderType price price2 volume leverage
        position s).1 ≠ Returned None) ∧
  (∀ orderID, (cancelOrder orderID s).1 ≠ Returned None).
Proof.
  split_and!; intros; apply notImplemented_not_nil.
Qed.

(** X16.  On a driver without authenticated API support, each of
    [GetBalance], [GetTradeBalance], [GetClosedOrders],
    [QueryOrdersInfo], [GetTradesHistory], [QueryTrades],
    [OpenPositions], [GetLedgers], [QueryLedgers], [GetTradeVolume],
    [AddOrder] and [cancelOrder] returns the credentials warning that
    names the driver, without panicking, and leaves the driver and the
    world as they were: no nonce is used and nothing is sent.
    [GetOpenOrders], which returns nothing, returns likewise.  The
    exported [CancelOrder] reaches [cancelOrder] only with an ID that
    does not parse, and then returns the warning too; with an ID that
    parses it returns [nil], and the driver and the world are as they
    were in both cases. *)
Theorem private_endpoints_without_credentials (k : Kraken) (w : Net.World) :
  AuthenticatedAPISupport k = false →
  let refused : outcome (option error) * State :=
    (Returned (Some (Go.WarningAuthenticatedRequestWithoutCredentialsSet (Name k))),
     (k, w)) in
  GetBalance (k, w) = refused ∧
  (∀ symbol asset, GetTradeBalance symbol asset (k, w) = refused) ∧
  (∀ showTrades userref start end_ offset closetime,
     GetClosedOrders showTrades userref start end_ offset closetime (k, w) = refused) ∧
  (∀ showTrades userref txid, QueryOrdersInfo showTrades userref txid (k, w) = refused) ∧
  (∀ tradeType showRelatedTrades start end_ offset,
     GetTradesHistory tradeType showRelatedTrades start end_ offset (k, w) = refused) ∧
  (∀ txid showRelatedTrades, QueryTrades txid showRelatedTrades (k, w) = refused) ∧
  (∀ txid showPL, OpenPositions txid showPL (k, w) = refused) ∧
  (∀ symbol asset ledgerType start end_ offset,
     GetLedgers symbol asset ledgerType start end_ offset (k, w) = refused) ∧
  (∀ id, QueryLedgers id (k, w) = refused) ∧
  (∀ symbol, GetTradeVolume symbol (k, w) = refused) ∧
  (∀ float64 (FormatFloat : float64 → string) symbol side orderType
      price price2 volume leverage position,
     AddOrder FormatFloat symbol side orderType price price2 volume leverage
       position (k, w) = refused) ∧
  (∀ orderID, cancelOrder orderID (k, w) = refused) ∧
  (∀ showTrades userref, GetOpenOrders showTrades userref (k, w) = (Returned tt, (k, w))) ∧
  (∀ orderStr,
     CancelOrder orderStr (k, w) =
       match Go.ParseInt orderStr with
       | (_, Some _) => refused
       | (_, None) => (Returned None, (k, w))
       end).
Proof.
  intros Ha refused.
  split_and!; intros; try by apply notImplemented_no_credentials.
  - unfold GetOpenOrders, mbind, Go.M_bind, Go.bind.
    by rewrite HTTPRequest_no_credentials.
  - rewrite KrakenSpec.Kraken_CancelOrder_parse.
    destruct (Go.ParseInt orderStr) as [id [e|]]; [|done].
    by apply (notImplemented_no_credentials KRAKEN_ORDER_CANCEL).
Qed.

(** X17.  [QueryOrdersInfo] does not submit its [txid] argument: when
    [txid] is not zero the [txid] field of the request holds the decimal
    of [userref], and two calls that differ in a non-zero [txid] only do
    the same. *)
Theorem QueryOrdersInfo_txid showTrades userref txid txid' :
  txid ≠ 0 → txid' ≠ 0 →
  Get "txid" (queryOrdersValues showTrades userref txid) = Go.FormatInt userref ∧
  QueryOrdersInfo showTrades userref txid = QueryOrdersInfo showTrades userref txid'.
Proof.
  intros Hz Hz'. unfold QueryOrdersInfo, queryOrdersValues, setIf, nonZero.
  destruct (Z.eqb_spec txid 0) as [|_]; [done|].
  destruct (Z.eqb_spec txid' 0) as [|_]; [done|].
  cbn [negb]. by rewrite KrakenSpec.Get_Set_.
Qed.

(** X18.  [AddOrder] does not submit its [price2] argument: the
    [price2] field of the request holds the formatted [price], and two
    calls that differ in [price2] only do the same. *)
Theorem AddOrder_price2 {float64} (FormatFloat : float64 → string)
    symbol side orderType price price2 price2' volume leverage position :
  Get "price2"
    (addOrderValues FormatFloat symbol side orderType price price2 volume
       leverage position) = FormatFloat price ∧
  AddOrder FormatFloat symbol side orderType price price2 volume leverage position
  = AddOrder FormatFloat symbol side orderType price price2' volume leverage position.
Proof.
  split; [|done]. unfold addOrderValues, Get, Set_.
  by rewrite !lookup_insert_ne, lookup_insert_eq by done.
Qed.

(** *** Signing *)

(** X19.  On a driver with authenticated API support whose API secret
    does not decode, [SendAuthenticatedHTTPRequest] returns the decoding
    error and the result it was given, sends nothing, and has used a
    nonce all the same: the nonce of the driver is the clock reading if
    it was zero, and one more than before otherwise. *)
Theorem Kraken_undecodable_secret {R} method values (result : R) (k : Kraken)
    (w : Net.World) secret e :
  AuthenticatedAPISupport k = true →
  Base64Decode (APISecret k) = (secret, Some e) →
  ∃ values' k' w',
    SendAuthenticatedHTTPRequest method values result (k, w) =
      (Returned (values', result, Some e), (k', w')) ∧
    Net.sent w' = Net.sent w ∧
    Nonce k' = (if Nonce k =? 0 then Net.UnixNano w (Net.ticks w)
                else Go.int64 (Nonce k + 1)).
Proof.
  intros Ha Hsecret. unfold SendAuthenticatedHTTPRequest, self, world, setNonce. run.
  rewrite Ha. cbn. unfold Nonce.Get, Nonce.Set_, Nonce.Inc.
  destruct (Nonce k =? 0); cbn; rewrite Hsecret; cbn;
    eexists _, _, _; split_and!; done.
Qed.

(** X20.  On a driver with authenticated API support whose API secret
    decodes, an authenticated [HTTPRequest] sends exactly one request,
    whatever it returns: a POST to [KRAKEN_API_URL/0/private/<path>]
    with the API key in the [API-Key] header, and as its body the
    encoded values with the [nonce] field set to the driver's nonce
    after the call. *)
Theorem HTTPRequest_sends_one_post {V} path values (v : V) (k : Kraken)
    (w : Net.World) secret :
  AuthenticatedAPISupport k = true →
  Base64Decode (APISecret k) = (secret, None) →
  ∃ out k' w' request,
    HTTPRequest path true values v (k, w) = (out, (k', w')) ∧
    Net.sent w' = (Net.sent w ++ [request])%list ∧
    Net.Method request = "POST" ∧
    Net.URL request = KRAKEN_API_URL ++ "/0/private/" ++ path ∧
    Net.Headers request !! "API-Key" = Some (APIKey k) ∧
    Net.Body request = Encode (Set_ "nonce" (Go.FormatInt (Nonce k')) values).
Proof.
  intros Ha Hsecret.
  unfold HTTPRequest, HTTPRequestJSON, SendAuthenticatedHTTPRequest, self, world,
    setNonce. run.
  rewrite Ha. cbn. unfold Nonce.Get, Nonce.Set_, Nonce.Inc, Nonce.String_.
  destruct (Nonce k =? 0); cbn; rewrite Hsecret; cbn;
    (destruct (Net.reply _ _ _) as [resp [e|]]; cbn;
     [|destruct (JSONDecode Response resp zeroResponse) as [response [e|]]; cbn;
       [|destruct (0 <? Z.of_nat (length (Errors response)))%Z; cbn]]);
    eexists _, _, _, _; (split; [reflexivity|]); cbn; split_and!; done.
Qed.

End Properties.
End KrakenMoreSpec.

(** ** The Gemini driver: sessions, limits, orders, requests *)

Module GeminiMoreSpec.

Import Gemini GeminiMore.

(** *** Sessions *)

(** The driver at [g] after [AddSession] has written to it. *)
Lemma AddSession_fresh (g : loc) (sessionID : Z) (apiKey apiSecret role : string)
    (needsHeartbeat isSandbox : bool) (r : Registry) (d : Gemini) :
  sessions r !! sessionID = None → heap r !! g = Some d →
  ∃ d',
    AddSession g sessionID apiKey apiSecret role needsHeartbeat isSandbox r =
      (Returned None,
       {| Session := Some (<[sessionID := g]> (sessions r));
          heap := <[g := d']> (heap r) |}) ∧
    APIKey d' = apiKey ∧ APISecret d' = apiSecret ∧ Role d' = role ∧
    RequiresHeartBeat d' = needsHeartbeat ∧
    APIUrl d' = (if isSandbox then geminiSandboxAPIURL else geminiAPIURL) ∧
    Name d' = Name d ∧ AuthenticatedAPISupport d' = AuthenticatedAPISupport d.
Proof.
  unfold sessions. intros Hs Hd. unfold AddSession. run. rewrite Hs, Hd.
  eexists. split; [done|]. done.
Qed.

(** X21.  Sessions share the driver they point to: when one driver is
    registered under two free IDs, one after the other, both IDs then
    lead to the same driver, and it has the key, secret, role,
    heartbeat flag and URL of the second registration; the credentials
    of the first are gone. *)
Theorem AddSession_shared_driver (g : loc) (id1 id2 : Z)
    (apiKey1 apiSecret1 role1 : string) (needsHeartbeat1 isSandbox1 : bool)
    (apiKey2 apiSecret2 role2 : string) (needsHeartbeat2 isSandbox2 : bool)
    (r : Registry) (d : Gemini) :
  sessions r !! id1 = None → sessions r !! id2 = None → id1 ≠ id2 →
  heap r !! g = Some d →
  ∃ r1 r2 d',
    AddSession g id1 apiKey1 apiSecret1 role1 needsHeartbeat1 isSandbox1 r =
      (Returned None, r1) ∧
    AddSession g id2 apiKey2 apiSecret2 role2 needsHeartbeat2 isSandbox2 r1 =
      (Returned None, r2) ∧
    session r2 id1 = Some d' ∧ session r2 id2 = Some d' ∧
    APIKey d' = apiKey2 ∧ APISecret d' = apiSecret2 ∧ Role d' = role2 ∧
    RequiresHeartBeat d' = needsHeartbeat2 ∧
    APIUrl d' = (if isSandbox2 then geminiSandboxAPIURL else geminiAPIURL).
Proof.
  intros H1 H2 Hne Hd.
  destruct (AddSession_fresh g id1 apiKey1 apiSecret1 role1 needsHeartbeat1
              isSandbox1 r d H1 Hd) as (d1 & Hr1 & _).
  set (r1 := {| Session := Some (<[id1 := g]> (sessions r));
                heap := <[g := d1]> (heap r) |}) in *.
  destruct (AddSession_fresh g id2 apiKey2 apiSecret2 role2 needsHeartbeat2
              isSandbox2 r1 d1) as (d2 & Hr2 & HK & HS & HR & HH & HU & _).
  { unfold sessions, r1. cbn. by rewrite lookup_insert_ne. }
  { unfold r1. cbn. by rewrite lookup_insert_eq. }
  eexists r1, _, d2. split; [done|]. split; [done|].
  unfold session, sessions, r1. cbn.
  rewrite lookup_insert_ne by done. rewrite !lookup_insert_eq. cbn.
  rewrite lookup_insert_eq. done.
Qed.

Section Properties.

Context {L : Library}.

(** X22.  [AddSession] sets the credentials of a driver but does not
    enable them: for a driver without authenticated API support the
    session is added and holds the key, and every authenticated request
    on the driver of the session still returns the credentials warning,
    leaving driver and world as they were. *)
Theorem AddSession_does_not_enable (g : loc) (sessionID : Z)
    (apiKey apiSecret role : string) (needsHeartbeat isSandbox : bool)
    (r : Registry) (d : Gemini) :
  sessions r !! sessionID = None → heap r !! g = Some d →
  AuthenticatedAPISupport d = false →
  ∃ r' d',
    AddSession g sessionID apiKey apiSecret role needsHeartbeat isSandbox r =
      (Returned None, r') ∧
    session r' sessionID = Some d' ∧ APIKey d' = apiKey ∧
    ∀ R method path params (result : R) w,
      SendAuthenticatedHTTPRequest method path params result (d', w) =
        (Returned (result,
                   Some (Go.WarningAuthenticatedRequestWithoutCredentialsSet (Name d))),
         (d', w)).
Proof.
  intros Hs Hd Ha.
  destruct (AddSession_fresh g sessionID apiKey apiSecret role needsHeartbeat
              isSandbox r d Hs Hd) as (d' & Hr & HK & _ & _ & _ & _ & HN & HA).
  eexists _, d'. split; [done|].
  unfold session, sessions. cbn. rewrite lookup_insert_eq. cbn.
  rewrite lookup_insert_eq. split; [done|]. split; [done|].
  intros R method path params result w. rewrite <- HN.
  apply GeminiSpec.Gemini_SendAuthenticatedHTTPRequest_no_credentials. congruence.
Qed.

(** *** Limits *)

(** X23.  The limits of [GetLimits] are defined for exactly three
    symbols, whatever the case of the pair and wherever it is split:
    the price and the amount decimal places of a pair are -1 if and only
    if its two currencies, joined and in upper case, are none of BTCUSD,
    ETHUSD and ETHBTC. *)
Theorem Gemini_limits_defined (g : Gemini) (p : Pair.CurrencyPair) :
  let k := Go.ToUpper (Pair.FirstCurrency p ++ Pair.SecondCurrency p) in
  (GetPriceDecimalPlaces (GetLimits g) p = -1 ↔ k ∉ ["BTCUSD"; "ETHUSD"; "ETHBTC"]) ∧
  (GetAmountDecimalPlaces (GetLimits g) p = -1 ↔ k ∉ ["BTCUSD"; "ETHUSD"; "ETHBTC"]).
Proof.
  intros k. unfold GetPriceDecimalPlaces, GetAmountDecimalPlaces, GetLimits.
  fold k. unfold lookupInfo, newCurrencyLimits. cbn [info].
  rewrite !not_elem_of_cons.
  destruct (decide (k = "BTCUSD")) as [->|H1].
  { rewrite lookup_insert_eq. cbn. split; (split; [done|tauto]). }
  rewrite lookup_insert_ne by done.
  destruct (decide (k = "ETHUSD")) as [->|H2].
  { rewrite lookup_insert_eq. cbn. split; (split; [done|tauto]). }
  rewrite lookup_insert_ne by done.
  destruct (decide (k = "ETHBTC")) as [->|H3].
  { rewrite lookup_insert_eq. cbn. split; (split; [done|tauto]). }
  rewrite lookup_insert_ne by done. rewrite lookup_empty. cbn.
  pose proof (not_elem_of_nil k). tauto.
Qed.

(** *** Authenticated requests *)

(** What a [nil] error of [SendAuthenticatedHTTPRequest] tells. *)
Lemma SendAuthenticatedHTTPRequest_nil {R} method path params (result r' : R) (g : Gemini)
    (w : Net.World) s' :
  SendAuthenticatedHTTPRequest method path params result (g, w) =
    (Returned (r', None), s') →
  AuthenticatedAPISupport g = true ∧
  let w1 := (GetValue (Name g) false (Nonce g) w).2 in
  ∃ request resp,
    Net.sent s'.2 = (Net.sent w1 ++ [request])%list ∧
    Net.Method request = method ∧
    Net.URL request = APIUrl g ++ "/v1/" ++ path ∧
    Net.Body request = "" ∧
    Net.reply w1 (Net.sent w1) request = (resp, None) ∧
    JSONDecode R resp result = (r', None) ∧
    ∀ c, decodeErrorCapture resp = (c, None) →
         ecResult c = "ok" ∨ (ecMessage c = "" ∧ ecResult c = "" ∧ ecReason c = "").
Proof.
  unfold SendAuthenticatedHTTPRequest, self, world, setNonce. run.
  destruct (AuthenticatedAPISupport g); cbn; [|done].
  destruct (GetValue _ _ _ _) as [[nonce n] w1]. cbn.
  destruct (JSONEncode _) as [PayloadJSON [e|]]; cbn; [done|].
  destruct (Net.reply _ _ _) as [resp [e|]] eqn:Hreply; cbn; [done|].
  destruct (decodeErrorCapture resp) as [c err] eqn:Hc.
  destruct (isNil err && _ && _) eqn:Hcond; [done|].
  intros Hdec. pose proof (f_equal fst Hdec) as H1.
  pose proof (f_equal snd Hdec) as H2. cbn in H1, H2. injection H1 as H1.
  subst s'. clear Hdec. split; [done|].
  eexists _, resp. cbn. split_and!; try done.
  intros c' Hc'. rewrite Hc in Hc'. injection Hc' as <- ->. cbn in Hcond.
  destruct (String.eqb_spec (ecResult c) "ok") as [|_]; [by left|right].
  rewrite andb_true_r in Hcond. apply orb_false_elim in Hcond as [Hcond Hr].
  apply orb_false_elim in Hcond as [Hm Hres].
  apply negb_false_iff, Nat.eqb_eq in Hm, Hres, Hr.
  by destruct (ecMessage c), (ecResult c), (ecReason c).
Qed.

(** X24.  When [SendAuthenticatedHTTPRequest] returns a [nil] error,
    the driver has authenticated API support, exactly one request was
    sent (with the given method, to the API URL of the driver followed
    by [/v1/] and the path, with an empty body), the remote end
    answered that request without a transport error, the result is
    that reply decoded, and that reply is not an error of the exchange:
    if it decodes as an error capture, its result is [ok] or its
    message, result and reason are all empty. *)
Theorem Gemini_success_inv {R} method path params (result r' : R) (g : Gemini)
    (w : Net.World) s' :
  SendAuthenticatedHTTPRequest method path params result (g, w) =
    (Returned (r', None), s') →
  AuthenticatedAPISupport g = true ∧
  let w1 := (GetValue (Name g) false (Nonce g) w).2 in
  ∃ request resp,
    Net.sent s'.2 = (Net.sent w1 ++ [request])%list ∧
    Net.Method request = method ∧
    Net.URL request = APIUrl g ++ "/v1/" ++ path ∧
    Net.Body request = "" ∧
    Net.reply w1 (Net.sent w1) request = (resp, None) ∧
    JSONDecode R resp result = (r', None) ∧
    ∀ c, decodeErrorCapture resp = (c, None) →
         ecResult c = "ok" ∨ (ecMessage c = "" ∧ ecResult c = "" ∧ ecReason c = "").
Proof. apply SendAuthenticatedHTTPRequest_nil. Qed.

(** X25.  When the request cannot be encoded as JSON,
    [SendAuthenticatedHTTPRequest] returns its own error (not the
    encoder's) and the result it was given; nothing is sent, and the
    nonce has been drawn all the same. *)
Theorem Gemini_encode_failure {R} method path params (result : R) (g : Gemini)
    (w : Net.World) nonce n w1 payload e :
  AuthenticatedAPISupport g = true →
  GetValue (Name g) false (Nonce g) w = ((nonce, n), w1) →
  JSONEncode (default ∅ params ∪
                <["nonce" := VInt nonce]>
                  (<["request" := VString ("/v" ++ geminiAPIVersion ++ "/" ++ path)]> ∅))
    = (payload, Some e) →
  ∃ g',
    SendAuthenticatedHTTPRequest method path params result (g, w) =
      (Returned (result,
                 Some (Go.errorsNew "SendAuthenticatedHTTPRequest: Unable to JSON request")),
       (g', w1)) ∧
    Nonce g' = n.
Proof.
  intros Ha Hn He.
  unfold SendAuthenticatedHTTPRequest, self, world, setNonce. run.
  rewrite Ha. cbn. rewrite Hn. cbn. rewrite He. cbn. by eexists.
Qed.

Context {float64 : Type} {F : Floats float64}.

(** X26.  [WithdrawCrypto] sends neither the address nor the amount:
    with authenticated API support, the one request it sends is a POST
    to [<APIUrl>/v1/withdraw/<currency>] with an empty body, whose
    payload header is the Base64 of the JSON of a map with the two
    fields [request] and [nonce] only. *)
Theorem WithdrawCrypto_payload {WithdrawalAddress} (zero : WithdrawalAddress)
    address currency (amount : float64) (g : Gemini) (w : Net.World)
    nonce n w1 payload :
  AuthenticatedAPISupport g = true →
  GetValue (Name g) false (Nonce g) w = ((nonce, n), w1) →
  JSONEncode (<["nonce" := VInt nonce]>
                (<["request" := VString ("/v1/withdraw/" ++ currency)]> ∅))
    = (payload, None) →
  ∃ out g' w' request,
    WithdrawCrypto zero address currency amount (g, w) = (out, (g', w')) ∧
    Net.sent w' = (Net.sent w1 ++ [request])%list ∧
    Net.Method request = "POST" ∧
    Net.URL request = APIUrl g ++ "/v1/withdraw/" ++ currency ∧
    Net.Headers request !! "X-GEMINI-PAYLOAD" = Some (Base64Encode payload) ∧
    Net.Body request = "".
Proof.
  intros Ha Hn He.
  unfold WithdrawCrypto, SendAuthenticatedHTTPRequest, self, world, setNonce. run.
  rewrite Ha. cbn. rewrite Hn. cbn.
  rewrite (left_id_L ∅ (∪)). unfold geminiWithdraw, geminiAPIVersion. cbn.
  change ("/v" ++ "1" ++ "/" ++ "withdraw/" ++ currency)
    with ("/v1/withdraw/" ++ currency).
  rewrite He. cbn.
  destruct (Net.reply _ _ _) as [resp [e|]]; cbn.
  - eexists _, _, _, _. split; [reflexivity|]. cbn. split_and!; done.
  - destruct (decodeErrorCapture resp) as [c err].
    destruct (isNil err && _ && _);
      eexists _, _, _, _; (split; [reflexivity|]); cbn; split_and!; done.
Qed.

(** X29.  Whenever [NewOrder] returns a [nil] error, the ID is not
    empty, the driver has authenticated API support, and exactly one
    request was sent: a POST to [<APIUrl>/v1/order/new]. *)
Theorem Gemini_NewOrder_success_inv symbol (amount price : float64) side orderType
    (g : Gemini) (w : Net.World) id s' :
  NewOrder symbol amount price side orderType (g, w) = (Returned (id, None), s') →
  id ≠ "" ∧ AuthenticatedAPISupport g = true ∧
  ∃ request,
    Net.sent s'.2 =
      (Net.sent (GetValue (Name g) false (Nonce g) w).2 ++ [request])%list ∧
    Net.Method request = "POST" ∧
    Net.URL request = APIUrl g ++ "/v1/order/new".
Proof.
  unfold NewOrder, mbind, Go.M_bind, Go.bind, mret, Go.M_ret, Go.ret.
  destruct (SendAuthenticatedHTTPRequest _ _ _ _ _)
    as [[[response [e|]]|msg] s1] eqn:Hsend; cbn; try done.
  intros Hret. pose proof (f_equal snd Hret) as Hs. cbn in Hs. subst s1.
  pose proof (f_equal fst Hret) as Hid. cbn in Hid. injection Hid as <-.
  apply SendAuthenticatedHTTPRequest_nil in Hsend
    as (Ha & request & resp & Hsent & Hm & Hu & _).
  split; [apply GoSpec.FormatInt_not_empty|]. split; [done|]. eauto.
Qed.

(** X27.  For an order of the exchange whose ID is an [int64],
    [CancelOrder] called with the ID that [orderToExchangeOrder]
    produced cancels that numeric ID: it does what [CancelOrderEx] on
    the order's ID does, and returns its error. *)
Theorem Gemini_CancelOrder_of_order (inOrder : Order float64) currencyPair
    (s : State) :
  Go.MinInt64 ≤ OrderID inOrder ≤ Go.MaxInt64 →
  CancelOrder zeroOrder (Exchange.OrderID (orderToExchangeOrder inOrder))
    currencyPair s =
  ('(_, err) ← CancelOrderEx zeroOrder (OrderID inOrder); mret err) s.
Proof.
  intros Hid. cbn [orderToExchangeOrder Exchange.OrderID].
  unfold CancelOrder. by rewrite GoSpec.ParseInt_FormatInt.
Qed.

(** X28.  [tradeHistoryToExchangeOrders] yields one order per trade,
    in order: each is filled, with nothing remaining, the trade's amount
    as its filled amount and its own amount left zero; its pair is that
    of the symbol in upper case, and for a trade whose order ID is an
    [int64] its ID parses back to that ID. *)
Theorem tradeHistoryToExchangeOrders_filled symbol
    (pastTrades : list (TradeHistory float64)) :
  Forall2 (λ trade order,
             Exchange.Status order = Exchange.OrderStatusFilled ∧
             Exchange.Amount order = zeroFloat ∧
             Exchange.RemainingAmount order = zeroFloat ∧
             Exchange.FilledAmount order = thAmount trade ∧
             Exchange.CurrencyPair order
               = NewCurrencyPairFromString (Go.ToUpper symbol) ∧
             (Go.MinInt64 ≤ thOrderID trade ≤ Go.MaxInt64 →
              Go.ParseInt (Exchange.OrderID order) = (thOrderID trade, None)))
    pastTrades (tradeHistoryToExchangeOrders symbol pastTrades).
Proof.
  induction pastTrades as [|trade pastTrades IH]; cbn; constructor; [|done].
  cbn. split_and!; try done. apply GoSpec.ParseInt_FormatInt.
Qed.

End Properties.
End GeminiMoreSpec.

(** ** The Kraken driver: requests that overlap *)

Module KrakenConcurrentSpec.

Import Kraken KrakenConcurrent.

Section Properties.

Context {L : Library}.

(** A request that runs alone draws the nonce that
    [SendAuthenticatedHTTPRequest] puts into its values, and leaves the
    driver with the same nonce. *)
Lemma run_alone {R} method values (result : R) (k : Kraken) (w : Net.World) :
  AuthenticatedAPISupport k = true →
  ∃ values' result' err k' w' w1,
    SendAuthenticatedHTTPRequest method values result (k, w) =
      (Returned (values', result', err), (k', w')) ∧
    run [0; 0; 0; 0]%nat [AtGet] (k, w) = ([Drawn (Get "nonce" values')], (k', w1)).
Proof.
  intros Ha.
  destruct (KrakenSpec.Kraken_SendAuthenticatedHTTPRequest_nonce method values
              result k w Ha) as (values' & result' & err & w' & Hsend & Hnonce & _).
  destruct (Nonce k =? 0) eqn:Hz;
    (eexists values', result', err, _, w', _; split; [exact Hsend|];
     rewrite Hnonce; cbn; unfold Nonce.Get, Nonce.Set_, Nonce.Inc, Nonce.String_;
     rewrite Hz; reflexivity).
Qed.

End Properties.

(** Two requests on a driver whose nonce is set: when both increments
    run before either request reads the nonce, both requests carry the
    same nonce, the one after the second increment. *)
Lemma interleaved_increments (k : Kraken) (w : Net.World) :
  Nonce k ≠ 0 →
  (run [0; 1; 0; 1; 0; 1]%nat [AtGet; AtGet] (k, w)).1 =
    [Drawn (Go.FormatInt (Go.int64 (Go.int64 (Nonce k + 1) + 1)));
     Drawn (Go.FormatInt (Go.int64 (Go.int64 (Nonce k + 1) + 1)))].
Proof.
  intros Hn. cbn. unfold Nonce.Get, Nonce.Inc, Nonce.String_.
  destruct (Z.eqb_spec (Nonce k) 0) as [|_]; [done|]. reflexivity.
Qed.

(** C5.  The nonces of the requests of one driver do repeat when two
    requests overlap.  On a driver whose nonce is 41, two requests run
    one after the other carry 42 and 43; run so that both increments
    come before either request reads the nonce, both carry 43.  On a
    driver whose nonce was never set, two requests that both find it
    zero both carry the later of the two clock readings. *)
Theorem interleaved_requests_repeat_nonce :
  (run [0; 0; 0; 1; 1; 1]%nat [AtGet; AtGet] (SampleMore.krakenRunning, Sample.world)).1
    = [Drawn "42"; Drawn "43"] ∧
  (run [0; 1; 0; 1; 0; 1]%nat [AtGet; AtGet] (SampleMore.krakenRunning, Sample.world)).1
    = [Drawn "43"; Drawn "43"] ∧
  (run [0; 1; 0; 1; 0; 1; 0; 1]%nat [AtGet; AtGet] (Sample.krakenOn, Sample.world)).1
    = [Drawn "1500000000000000001"; Drawn "1500000000000000001"].
Proof. split_and!; vm_compute; reflexivity. Qed.

End KrakenConcurrentSpec.

(** ** The further properties on the stand-ins *)

Module WitnessMore.

Import Sample SampleMore.
#[local] Existing Instances Sample.binance Sample.liqui Sample.kraken Sample.gemini
  SampleMore.binanceMore SampleMore.geminiFloats.

(** Closed comparisons of integers. *)
Ltac closed_le := split; vm_compute; discriminate.

(** *** Binance *)

(** The ID of a converted order cancels the order it came from. *)
Lemma CancelOrder_of_converted_order_witness :
  Go.MinInt64 ≤ Binance.OrderID staleOrder ≤ Go.MaxInt64 ∧
  Binance.CancelOrder
    (Exchange.OrderID (Binance.convertOrderToExchangeOrder staleOrder))
    ETHBTC binanceFresh =
  Binance.call (Binance.DeleteOrder (Binance.CurrencyPairToSymbol ETHBTC)
                  (Binance.OrderID staleOrder) "") binanceFresh.
Proof.
  assert (H : Go.MinInt64 ≤ Binance.OrderID staleOrder ≤ Go.MaxInt64) by closed_le.
  split; [exact H|].
  exact (BinanceMoreSpec.CancelOrder_of_converted_order staleOrder ETHBTC
           binanceFresh H).
Defined.

(** An order placed and cancelled again. *)
Lemma NewOrder_then_CancelOrder_witness :
  BinanceMore.PostOrderAck
    {| BinanceMore.poSymbol := Binance.CurrencyPairToSymbol ETHBTC;
       BinanceMore.poSide := Go.ToUpper "buy";
       BinanceMore.poType := Binance.OrderTypeLimit;
       BinanceMore.poTimeInForce := BinanceMore.TimeInForceGTC;
       BinanceMore.poQuantity := 1%Q; BinanceMore.poPrice := (1 # 10)%Q |}
    (Binance.rest binanceFresh) = ((Some 4242, None), ["POST ETHBTC"]) ∧
  Go.MinInt64 ≤ BinanceMore.OrderID (4242 : BinanceMore.OrderAck) ≤ Go.MaxInt64 ∧
  ∃ id b1,
    BinanceMore.NewOrder ETHBTC 1%Q (1 # 10)%Q "buy"
      BinanceMore.OrderTypeExchangeLimit binanceFresh = (Returned (id, None), b1) ∧
    Binance.rest b1 = ["POST ETHBTC"] ∧
    Binance.CancelOrder id LTCBTC b1 =
      Binance.call (Binance.DeleteOrder (Binance.CurrencyPairToSymbol LTCBTC)
                      (BinanceMore.OrderID (4242 : BinanceMore.OrderAck)) "") b1.
Proof.
  assert (H : Go.MinInt64 ≤ BinanceMore.OrderID (4242 : BinanceMore.OrderAck)
              ≤ Go.MaxInt64) by closed_le.
  split; [reflexivity|]. split; [exact H|].
  exact (BinanceMoreSpec.NewOrder_then_CancelOrder ETHBTC 1%Q (1 # 10)%Q "buy"
           binanceFresh 4242 ["POST ETHBTC"] LTCBTC eq_refl H).
Defined.

(** A market order, and the ID of a placed limit order. *)
Lemma NewOrder_id_not_empty_witness :
  ("exchange market" ≠ BinanceMore.OrderTypeExchangeLimit ∧
   BinanceMore.NewOrder ETHBTC 1%Q (1 # 10)%Q "buy" "exchange market" binanceFresh =
     (Panicked "not implemented", binanceFresh)) ∧
  (BinanceMore.NewOrder ETHBTC 1%Q (1 # 10)%Q "buy" "exchange limit" binanceFresh =
     (Returned ("4242", None),
      (BinanceMore.NewOrder ETHBTC 1%Q (1 # 10)%Q "buy" "exchange limit"
         binanceFresh).2) ∧
   "4242" ≠ "" ∧ "exchange limit" = BinanceMore.OrderTypeExchangeLimit).
Proof.
  assert (H : "exchange market" ≠ BinanceMore.OrderTypeExchangeLimit)
    by discriminate.
  split.
  - split; [exact H|].
    exact (proj1 (BinanceMoreSpec.NewOrder_id_not_empty ETHBTC 1%Q (1 # 10)%Q
                    "buy" "exchange market" binanceFresh) H).
  - split; [reflexivity|].
    exact (proj2 (BinanceMoreSpec.NewOrder_id_not_empty ETHBTC 1%Q (1 # 10)%Q
                    "buy" "exchange limit" binanceFresh) "4242" _ eq_refl).
Defined.

(** An order looked up under the ID of its conversion. *)
Lemma GetOrder_of_converted_order_witness :
  Go.MinInt64 ≤ Binance.OrderID staleOrder ≤ Go.MaxInt64 ∧
  BinanceMore.FetchOrder (Binance.CurrencyPairToSymbol ETHBTC)
    (Binance.OrderID staleOrder) "" (Binance.rest binanceFresh)
    = ((Some (order 9 "NEW" 1%Q 0%Q), None), ["GET ETHBTC"]) ∧
  ∃ b', BinanceMore.GetOrder
          (Exchange.OrderID (Binance.convertOrderToExchangeOrder staleOrder))
          ETHBTC binanceFresh =
          (Returned (Some (Binance.convertOrderToExchangeOrder
                             (order 9 "NEW" 1%Q 0%Q)), None), b') ∧
        Binance.rest b' = ["GET ETHBTC"].
Proof.
  assert (H : Go.MinInt64 ≤ Binance.OrderID staleOrder ≤ Go.MaxInt64) by closed_le.
  split; [exact H|]. split; [reflexivity|].
  exact (BinanceMoreSpec.GetOrder_of_converted_order staleOrder
           (order 9 "NEW" 1%Q 0%Q) ETHBTC binanceFresh ["GET ETHBTC"] H eq_refl).
Defined.

(** The depth endpoint is down. *)
Lemma UpdateOrderbook_failure_witness :
  Binance.FetchMarketData (Bindings := binanceDown)
    (Binance.CurrencyPairToSymbol (Bindings := binanceDown) ETHBTC) 100
    (Binance.rest binanceCached) =
    ((None, Some (Go.ExternalError "503 Service Unavailable")), ["ETHBTC"]) ∧
  Go.ExternalError "503 Service Unavailable" ≠ Go.WarningHTTPRequestRateLimited ∧
  ∃ b', Binance.UpdateOrderbook (B := binanceDown) ETHBTC "SPOT" binanceCached =
          (Returned (Orderbook.zero,
                     Some (Go.ExternalError "503 Service Unavailable")), b') ∧
        Binance.Orderbooks b' = Binance.Orderbooks binanceCached ∧
        Binance.rest b' = ["ETHBTC"].
Proof.
  assert (H : Go.ExternalError "503 Service Unavailable"
              ≠ Go.WarningHTTPRequestRateLimited) by discriminate.
  split; [reflexivity|]. split; [exact H|].
  exact (BinanceMoreSpec.UpdateOrderbook_failure (B := binanceDown) ETHBTC "SPOT"
           binanceCached None _ ["ETHBTC"] eq_refl H).
Defined.

(** The depth fetched and stored. *)
Lemma UpdateOrderbook_stores_witness :
  Binance.FetchMarketData (Binance.CurrencyPairToSymbol ETHBTC) 100
    (Binance.rest binanceFresh) = ((Some depth, None), ["ETHBTC"]) ∧
  ((None : option error) = None ∨ None = Some Go.WarningHTTPRequestRateLimited) ∧
  ∃ b', Binance.UpdateOrderbook ETHBTC "SPOT" binanceFresh =
          (Returned ({| Orderbook.Asks := map Binance.toItem (Binance.Asks depth);
                        Orderbook.Bids := map Binance.toItem (Binance.Bids depth) |},
                     None), b') ∧
        Binance.Orderbooks b' =
          <[(Binance.Name binanceFresh, ETHBTC, "SPOT") :=
              {| Orderbook.Asks := map Binance.toItem (Binance.Asks depth);
                 Orderbook.Bids := map Binance.toItem (Binance.Bids depth) |}]>
            (Binance.Orderbooks binanceFresh) ∧
        Binance.rest b' = ["ETHBTC"].
Proof.
  assert (H : (None : option error) = None ∨ None = Some Go.WarningHTTPRequestRateLimited)
    by (left; reflexivity).
  split; [reflexivity|]. split; [exact H|].
  exact (BinanceMoreSpec.UpdateOrderbook_stores ETHBTC "SPOT" binanceFresh depth
           None ["ETHBTC"] eq_refl H).
Defined.

(** The account endpoint refuses. *)
Lemma GetExchangeAccountInfo_error_witness :
  BinanceMore.GetExchangeAccountInfo binanceUsed =
    (Returned ({| BinanceMore.ExchangeName := "Binance";
                  BinanceMore.Currencies := [] |},
               Some (Go.ExternalError "401 Unauthorized")),
     (BinanceMore.GetExchangeAccountInfo binanceUsed).2) ∧
  Go.ExternalError "401 Unauthorized" ≠ Go.WarningHTTPRequestRateLimited.
Proof.
  split; [reflexivity|].
  exact (proj1 (BinanceMoreSpec.GetExchangeAccountInfo_error binanceUsed _ _ _
                  eq_refl)).
Defined.

(** The account endpoint is rate limited and answers with balances. *)
Lemma GetExchangeAccountInfo_balances_witness :
  Binance.Enabled binanceFresh = true ∧
  BinanceMore.FetchAccountInfo (Binance.rest binanceFresh) =
    ((Some balances, Some Go.WarningHTTPRequestRateLimited), ["account"]) ∧
  (Some Go.WarningHTTPRequestRateLimited = None ∨
   Some Go.WarningHTTPRequestRateLimited = Some Go.WarningHTTPRequestRateLimited) ∧
  ∃ r b', BinanceMore.GetExchangeAccountInfo binanceFresh = (Returned (r, None), b') ∧
          Binance.rest b' = ["account"] ∧
          BinanceMore.ExchangeName r = Binance.Name binanceFresh ∧
          map BinanceMore.CurrencyName (BinanceMore.Currencies r)
            = map BinanceMore.Asset balances ∧
          map BinanceMore.Available (BinanceMore.Currencies r)
            = map BinanceMore.Free balances ∧
          map BinanceMore.Hold (BinanceMore.Currencies r)
            = map BinanceMore.Locked balances.
Proof.
  assert (H : Some Go.WarningHTTPRequestRateLimited = None ∨
              Some Go.WarningHTTPRequestRateLimited
                = Some Go.WarningHTTPRequestRateLimited) by (right; reflexivity).
  split; [reflexivity|]. split; [reflexivity|]. split; [exact H|].
  exact (BinanceMoreSpec.GetExchangeAccountInfo_balances binanceFresh balances _
           ["account"] eq_refl eq_refl H).
Defined.

(** A pair the exchange does not list. *)
Lemma Run_rebuilds_limits_witness :
  BinanceMore.FetchExchangeInfo (Binance.rest binanceFresh) =
    ((Some symbols, None), ["exchangeInfo"]) ∧
  (Pair.Display BTCUSDT "/" false ∉
     map (λ si, Pair.Display (BinanceMore.pairOf si) "/" false) symbols) ∧
  ∃ b' cps', BinanceMore.Run (binanceFresh, ∅) = (Returned tt, (b', cps')) ∧
             Binance.GetPriceDecimalPlaces (Binance.GetLimits b') BTCUSDT = 0 ∧
             Binance.GetAmountDecimalPlaces (Binance.GetLimits b') BTCUSDT = 0.
Proof.
  assert (H : Pair.Display BTCUSDT "/" false ∉
              map (λ si, Pair.Display (BinanceMore.pairOf si) "/" false) symbols).
  { apply (bool_decide_unpack _). vm_compute. exact I. }
  split; [reflexivity|]. split; [exact H|].
  exact (BinanceMoreSpec.Run_rebuilds_limits binanceFresh ∅ symbols
           ["exchangeInfo"] BTCUSDT eq_refl H).
Defined.

(** The price places of ETH/BTC, whose tick size is 1e-6. *)
Lemma Run_price_places_witness :
  BinanceMore.FetchExchangeInfo (Binance.rest binanceFresh) =
    ((Some symbols, None), ["exchangeInfo"]) ∧
  NoDup (map (λ si, Pair.Display (BinanceMore.pairOf si) "/" false) symbols) ∧
  ∃ b' cps', BinanceMore.Run (binanceFresh, ∅) = (Returned tt, (b', cps')) ∧
             Binance.GetPriceDecimalPlaces (Binance.GetLimits b') ETHBTC = 6.
Proof.
  assert (H : NoDup (map (λ si, Pair.Display (BinanceMore.pairOf si) "/" false)
                       symbols)).
  { apply (bool_decide_unpack _). vm_compute. exact I. }
  split; [reflexivity|]. split; [exact H|].
  exact (BinanceMoreSpec.Run_price_places binanceFresh ∅ symbols ["exchangeInfo"]
           _ eq_refl H (list_elem_of_here _ _)).
Defined.

(** *** Liqui *)

(** The ticker of the enabled pair. *)
Lemma UpdateTicker_stores_enabled_witness :
  Liqui.GetAndFormatExchangeCurrencies (Liqui.Name liquiFresh)
    (Liqui.GetEnabledCurrencies (Liqui.rest liquiFresh)) = ("eth_btc", None) ∧
  (Liqui.GetTicker "eth_btc" (Liqui.rest liquiFresh)).2 = 1%nat ∧
  ETHBTC ∈ Liqui.GetEnabledCurrencies 1%nat ∧
  ∃ r l', Liqui.UpdateTicker LTCBTC "SPOT" liquiFresh = (Returned r, l') ∧
          Liqui.Tickers l' !! ("Liqui", ETHBTC, "SPOT") = Some tickerETHBTC.
Proof.
  assert (H : ETHBTC ∈ Liqui.GetEnabledCurrencies 1%nat)
    by apply list_elem_of_here.
  split; [reflexivity|]. split; [reflexivity|]. split; [exact H|].
  exact (LiquiMoreSpec.UpdateTicker_stores_enabled liquiFresh LTCBTC "SPOT"
           "eth_btc" _ 1%nat ETHBTC eq_refl eq_refl H).
Defined.

(** The ticker fetched once and read again. *)
Lemma GetTickerPrice_twice_witness :
  Liqui.GetTickerPrice ETHBTC "SPOT" liquiFresh
    = (Returned (tickerETHBTC, None), liquiTicked) ∧
  Liqui.GetTickerPrice ETHBTC "SPOT" liquiTicked
    = (Returned (tickerETHBTC, None), liquiTicked).
Proof.
  assert (H : Liqui.GetTickerPrice ETHBTC "SPOT" liquiFresh
              = (Returned (tickerETHBTC, None), liquiTicked)) by reflexivity.
  split; [exact H|].
  exact (LiquiMoreSpec.GetTickerPrice_twice liquiFresh liquiTicked ETHBTC "SPOT"
           tickerETHBTC H).
Defined.

(** A bid without an amount. *)
Lemma Liqui_UpdateOrderbook_short_row_witness :
  (Liqui.GetDepth (Bindings := liquiShort)
     (Liqui.FormatExchangeCurrency (Bindings := liquiShort)
        (Liqui.Name liquiCached) ETHBTC) (Liqui.rest liquiCached)).1.2 = None ∧
  (length [(9 # 100)%Q] < 2)%nat ∧
  ∃ l', Liqui.UpdateOrderbook (B := liquiShort) ETHBTC "SPOT" liquiCached
          = (Panicked "index out of range", l') ∧
        Liqui.Orderbooks l' = Liqui.Orderbooks liquiCached.
Proof.
  assert (H : (length [(9 # 100)%Q] < 2)%nat) by (vm_compute; constructor).
  split; [reflexivity|]. split; [exact H|].
  exact (LiquiMoreSpec.Liqui_UpdateOrderbook_short_row (B := liquiShort)
           liquiCached ETHBTC "SPOT" _ _ [(9 # 100)%Q] eq_refl
           (list_elem_of_here _ _) H).
Defined.

(** The depth fetched and stored. *)
Lemma Liqui_UpdateOrderbook_stores_witness :
  Liqui.UpdateOrderbook ETHBTC "SPOT" liquiFresh =
    (Returned (fetchedBook, None),
     (Liqui.UpdateOrderbook ETHBTC "SPOT" liquiFresh).2) ∧
  Liqui.Orderbooks (Liqui.UpdateOrderbook ETHBTC "SPOT" liquiFresh).2 =
    <[("Liqui", ETHBTC, "SPOT") := fetchedBook]> ∅.
Proof.
  split; [reflexivity|].
  exact (proj1 (LiquiMoreSpec.Liqui_UpdateOrderbook_stores liquiFresh _ ETHBTC
                  "SPOT" fetchedBook eq_refl)).
Defined.

(** *** Kraken *)

(** A driver without credentials asked for its balance and to cancel
    an order. *)
Lemma private_endpoints_without_credentials_witness :
  Kraken.AuthenticatedAPISupport krakenOff = false ∧
  KrakenMore.GetBalance (krakenOff, world) =
    (Returned (Some (Go.WarningAuthenticatedRequestWithoutCredentialsSet "Kraken")),
     (krakenOff, world)) ∧
  Kraken.cancelOrder 123 (krakenOff, world) =
    (Returned (Some (Go.WarningAuthenticatedRequestWithoutCredentialsSet "Kraken")),
     (krakenOff, world)) ∧
  Kraken.CancelOrder "123" (krakenOff, world) = (Returned None, (krakenOff, world)) ∧
  Kraken.CancelOrder "abc" (krakenOff, world) =
    (Returned (Some (Go.WarningAuthenticatedRequestWithoutCredentialsSet "Kraken")),
     (krakenOff, world)).
Proof.
  split; [reflexivity|].
  pose proof (KrakenMoreSpec.private_endpoints_without_credentials krakenOff
                world eq_refl) as H.
  cbv zeta in H.
  destruct H as (HB & _ & _ & _ & _ & _ & _ & _ & _ & _ & _ & Hc & _ & HC).
  split; [exact HB|]. split; [exact (Hc 123)|].
  split; [exact (HC "123")|exact (HC "abc")].
Defined.

(** Orders 5 and 6 queried under the user reference 9. *)
Lemma QueryOrdersInfo_txid_witness :
  5 ≠ 0 ∧ 6 ≠ 0 ∧
  Kraken.Get "txid" (KrakenMore.queryOrdersValues true 9 5) = "9" ∧
  KrakenMore.QueryOrdersInfo true 9 5 = KrakenMore.QueryOrdersInfo true 9 6.
Proof.
  assert (H5 : 5 ≠ 0) by discriminate. assert (H6 : 6 ≠ 0) by discriminate.
  split; [exact H5|]. split; [exact H6|].
  exact (KrakenMoreSpec.QueryOrdersInfo_txid true 9 5 6 H5 H6).
Defined.

(** A secret that is not Base64. *)
Lemma Kraken_undecodable_secret_witness :
  Kraken.AuthenticatedAPISupport krakenRunning = true ∧
  Kraken.Base64Decode (Library := krakenBadSecret) (Kraken.APISecret krakenRunning)
    = ("", Some (Go.ExternalError "illegal base64 data")) ∧
  ∃ values' k' w',
    Kraken.SendAuthenticatedHTTPRequest (L := krakenBadSecret) "Balance" ∅ tt
      (krakenRunning, world) =
      (Returned (values', tt, Some (Go.ExternalError "illegal base64 data")),
       (k', w')) ∧
    Net.sent w' = Net.sent world ∧
    Kraken.Nonce k' = 42.
Proof.
  split; [reflexivity|]. split; [reflexivity|].
  exact (KrakenMoreSpec.Kraken_undecodable_secret (L := krakenBadSecret) "Balance"
           ∅ tt krakenRunning world "" _ eq_refl eq_refl).
Defined.

(** The request for the balance. *)
Lemma HTTPRequest_sends_one_post_witness :
  Kraken.AuthenticatedAPISupport krakenOn = true ∧
  Kraken.Base64Decode (Kraken.APISecret krakenOn) = ("c2VjcmV0", None) ∧
  ∃ out k' w' request,
    Kraken.HTTPRequest "Balance" true ∅ tt (krakenOn, world) = (out, (k', w')) ∧
    Net.sent w' = (Net.sent world ++ [request])%list ∧
    Net.Method request = "POST" ∧
    Net.URL request = Kraken.KRAKEN_API_URL ++ "/0/private/" ++ "Balance" ∧
    Net.Headers request !! "API-Key" = Some (Kraken.APIKey krakenOn) ∧
    Net.Body request
      = Kraken.Encode (Kraken.Set_ "nonce" (Go.FormatInt (Kraken.Nonce k')) ∅).
Proof.
  split; [reflexivity|]. split; [reflexivity|].
  exact (KrakenMoreSpec.HTTPRequest_sends_one_post "Balance" ∅ tt krakenOn world
           "c2VjcmV0" eq_refl eq_refl).
Defined.

(** *** Gemini *)

(** One driver registered under the IDs 1 and 2. *)
Lemma AddSession_shared_driver_witness :
  Gemini.sessions registryNil !! 1 = None ∧
  Gemini.sessions registryNil !! 2 = None ∧ 1 ≠ 2 ∧
  Gemini.heap registryNil !! 2%positive = Some geminiOn ∧
  ∃ r1 r2 d',
    Gemini.AddSession 2%positive 1 "key1" "secret1" "trader" false false registryNil =
      (Returned None, r1) ∧
    Gemini.AddSession 2%positive 2 "key2" "secret2" "fundmanager" true true r1 =
      (Returned None, r2) ∧
    Gemini.session r2 1 = Some d' ∧ Gemini.session r2 2 = Some d' ∧
    Gemini.APIKey d' = "key2" ∧ Gemini.APISecret d' = "secret2" ∧
    Gemini.Role d' = "fundmanager" ∧ Gemini.RequiresHeartBeat d' = true ∧
    Gemini.APIUrl d' = Gemini.geminiSandboxAPIURL.
Proof.
  assert (H : 1 ≠ 2) by discriminate.
  split; [reflexivity|]. split; [reflexivity|]. split; [exact H|].
  split; [reflexivity|].
  exact (GeminiMoreSpec.AddSession_shared_driver 2%positive 1 2 "key1" "secret1"
           "trader" false false "key2" "secret2" "fundmanager" true true
           registryNil geminiOn eq_refl eq_refl H eq_refl).
Defined.

(** A session added for a driver without authenticated API support. *)
Lemma AddSession_does_not_enable_witness :
  Gemini.sessions registryNil !! 7 = None ∧
  Gemini.heap registryNil !! 1%positive = Some geminiOff ∧
  Gemini.AuthenticatedAPISupport geminiOff = false ∧
  ∃ r' d',
    Gemini.AddSession 1%positive 7 "key" "secret" "trader" false false registryNil =
      (Returned None, r') ∧
    Gemini.session r' 7 = Some d' ∧ Gemini.APIKey d' = "key" ∧
    ∀ R method path params (result : R) w,
      Gemini.SendAuthenticatedHTTPRequest method path params result (d', w) =
        (Returned (result,
                   Some (Go.WarningAuthenticatedRequestWithoutCredentialsSet
                           (Gemini.Name geminiOff))),
         (d', w)).
Proof.
  split; [reflexivity|]. split; [reflexivity|]. split; [reflexivity|].
  exact (GeminiMoreSpec.AddSession_does_not_enable 1%positive 7 "key" "secret"
           "trader" false false registryNil geminiOff eq_refl eq_refl eq_refl).
Defined.

(** The balances requested and answered. *)
Lemma Gemini_success_inv_witness :
  Gemini.SendAuthenticatedHTTPRequest "POST" "balances" None tt (geminiOn, world) =
    (Returned (tt, None),
     (Gemini.SendAuthenticatedHTTPRequest "POST" "balances" None tt
        (geminiOn, world)).2) ∧
  Gemini.AuthenticatedAPISupport geminiOn = true.
Proof.
  split; [reflexivity|].
  exact (proj1 (GeminiMoreSpec.Gemini_success_inv "POST" "balances" None tt tt
                  geminiOn world _ eq_refl)).
Defined.

(** A request that cannot be encoded. *)
Lemma Gemini_encode_failure_witness :
  Gemini.AuthenticatedAPISupport geminiOn = true ∧
  Gemini.GetValue (Library := geminiNoJSON) (Gemini.Name geminiOn) false
    (Gemini.Nonce geminiOn) world = ((1, 1), world) ∧
  ∃ g',
    Gemini.SendAuthenticatedHTTPRequest (L := geminiNoJSON) "POST" "balances" None tt
      (geminiOn, world) =
      (Returned (tt,
                 Some (Go.errorsNew "SendAuthenticatedHTTPRequest: Unable to JSON request")),
       (g', world)) ∧
    Gemini.Nonce g' = 1.
Proof.
  split; [reflexivity|]. split; [reflexivity|].
  exact (GeminiMoreSpec.Gemini_encode_failure (L := geminiNoJSON) "POST" "balances"
           None tt geminiOn world 1 1 world "" _ eq_refl eq_refl eq_refl).
Defined.

(** A withdrawal of one bitcoin. *)
Lemma WithdrawCrypto_payload_witness :
  Gemini.AuthenticatedAPISupport geminiOn = true ∧
  (Gemini.GetValue (Gemini.Name geminiOn) false (Gemini.Nonce geminiOn) world).1
    = (1500000000000000000, 1500000000000000000) ∧
  ∃ out g' w' request,
    GeminiMore.WithdrawCrypto tt "1BoatSLRHtKNngkdXEeobR76b53LETtpyT" "btc" 1%Q
      (geminiOn, world) = (out, (g', w')) ∧
    Net.Method request = "POST" ∧
    Net.URL request = "https://api.gemini.com/v1/withdraw/btc" ∧
    Net.Headers request !! "X-GEMINI-PAYLOAD" = Some "{}" ∧
    Net.Body request = "" ∧
    Net.sent w' = [request].
Proof.
  split; [reflexivity|]. split; [reflexivity|].
  assert (Hn : Gemini.GetValue (Gemini.Name geminiOn) false (Gemini.Nonce geminiOn)
                 world
               = ((1500000000000000000, 1500000000000000000), (Net.now world).2))
    by reflexivity.
  destruct (GeminiMoreSpec.WithdrawCrypto_payload tt
              "1BoatSLRHtKNngkdXEeobR76b53LETtpyT" "btc" 1%Q geminiOn world
              1500000000000000000 1500000000000000000 (Net.now world).2 "{}"
              eq_refl Hn eq_refl)
    as (out & g' & w' & request & Hrun & Hsent & Hm & Hu & Hh & Hb).
  exists out, g', w', request. split_and!; assumption.
Defined.

(** An order placed. *)
Lemma Gemini_NewOrder_success_inv_witness :
  GeminiMore.NewOrder ETHBTC 1%Q (1 # 10)%Q "buy" "exchange limit" (geminiOn, world) =
    (Returned ("0", None),
     (GeminiMore.NewOrder ETHBTC 1%Q (1 # 10)%Q "buy" "exchange limit"
        (geminiOn, world)).2) ∧
  "0" ≠ "" ∧ Gemini.AuthenticatedAPISupport geminiOn = true.
Proof.
  assert (H : GeminiMore.NewOrder ETHBTC 1%Q (1 # 10)%Q "buy" "exchange limit"
                (geminiOn, world) =
              (Returned ("0", None),
               (GeminiMore.NewOrder ETHBTC 1%Q (1 # 10)%Q "buy" "exchange limit"
                  (geminiOn, world)).2)) by reflexivity.
  split; [exact H|].
  destruct (GeminiMoreSpec.Gemini_NewOrder_success_inv ETHBTC 1%Q (1 # 10)%Q "buy"
              "exchange limit" geminiOn world "0" _ H) as (Hid & Ha & _).
  split; assumption.
Defined.

(** The ID of an order of the exchange cancels that order. *)
Lemma Gemini_CancelOrder_of_order_witness :
  Go.MinInt64 ≤ GeminiMore.OrderID geminiOrder ≤ Go.MaxInt64 ∧
  Gemini.CancelOrder GeminiMore.zeroOrder
    (Exchange.OrderID (GeminiMore.orderToExchangeOrder geminiOrder)) ETHBTC
    (geminiOn, world) =
  ('(_, err) ← Gemini.CancelOrderEx GeminiMore.zeroOrder
                 (GeminiMore.OrderID geminiOrder); mret err) (geminiOn, world).
Proof.
  assert (H : Go.MinInt64 ≤ GeminiMore.OrderID geminiOrder ≤ Go.MaxInt64)
    by closed_le.
  split; [exact H|].
  exact (GeminiMoreSpec.Gemini_CancelOrder_of_order geminiOrder ETHBTC
           (geminiOn, world) H).
Defined.

End WitnessMore.
